(** * Faraday fiat prices: the package [fiat] and its properties

    The development follows the Go sources
      - [fiat/prices.go]        ([GetPrices], [MsatToUSD], [GetPrice]),
      - [fiat/coindesk_api.go]  ([queryCoinDesk], [parseCoinDeskData],
                                 [coinDeskAPI.GetPrices]),
      - the custom CSV price source ([customPrices.rawPriceData]),
      - the configuration of the daemon ([DefaultConfig],
        [ValidateConfig]).

    Go values are modelled as follows.
      - [time.Time] is an absolute instant (nanoseconds since the Unix
        epoch, an unbounded [Z]) together with its location.
      - [decimal.Decimal] (shopspring) is [value * 10 ^ exp] with an
        arbitrary precision integer [value].
      - A function returning [(T, error)] returns a [result T].
      - A slice of pointers to price points is a list of records where the
        code only ever stores non-nil pointers; the slice [rawPriceData]
        allocates with [make] and fills by index is a list of optional
        records.
      - The slice of timestamps that [GetPrices] sorts in place is a window
        on an array in a heap of arrays, so that the caller, who holds the
        same slice value, reads what the callee wrote.
      - Effects (the HTTP requests sent, the heap) are threaded
        explicitly. *)

From Stdlib Require Import ZArith QArith Qabs Qpower List Lia Ascii String.
From Stdlib Require Import Sorting.Sorted Sorting.Permutation.
From stdpp Require Import gmap strings.

Local Open Scope Z_scope.

(** ** Errors and results *)

(** The [Err] field of a [*strconv.NumError]. *)
Inductive numErr := ErrSyntax | ErrRange.

(** The error values that flow through the package. *)
Inductive error :=
| errNoPrices              (* "no price data provided" *)
| errUnknownPriceBackend   (* "unknown price backend" *)
| errPriceOutOfRange       (* "timestamp before beginning of price dataset" *)
| errGranularityRequired   (* "granularity required when fiat prices are enabled" *)
| errIncorrectCSV          (* errors.New("incorrect csv format") *)
| errInvalidRange          (* utils.ValidateTimeRange *)
| errContext               (* ctx.Err() of a cancelled or expired context *)
| NumError (func num : string) (err : numErr)  (* *strconv.NumError *)
| ParseError (layout value : string)           (* *time.ParseError *)
| LibError (pkg msg : string).                 (* net/http, encoding/json, os, csv *)

(** The outcome of a Go call of type [(T, error)]: it returns a value and
    a nil error, returns a non-nil error, or panics. *)
Inductive result (A : Type) :=
| Ok (a : A)
| Err (e : error)
| Panic.
Arguments Ok {A} a.
Arguments Err {A} e.
Arguments Panic {A}.

Definition bindR {A B : Type} (r : result A) (k : A -> result B) : result B :=
  match r with
  | Ok a => k a
  | Err e => Err e
  | Panic => Panic
  end.

(** [result] is a monad; stdpp's notation [x ← r; k] sequences calls and
    returns at the first error or panic, as [if err != nil { return nil,
    err }] does. *)
#[global] Instance result_ret : MRet result := @Ok.
#[global] Instance result_bind : MBind result :=
  fun A B k r => bindR r k.

(** A call of a function without error result that may panic. *)
Definition orPanic {A : Type} (o : option A) : result A :=
  match o with
  | Some a => Ok a
  | None => Panic
  end.

(** ** Package [time] *)

Module time.

(** [*time.Location]: the two locations the package meets. [time.Parse]
    without zone information yields UTC, [time.Unix] yields Local. *)
Inductive Location := UTC | Local.

(** A [time.Time] without monotonic clock reading. *)
Record Time := mkTime { unixNano : Z; location : Location }.

(** [t.Before(u)]: compares the instants only. *)
Definition Before (t u : Time) : bool := unixNano t <? unixNano u.

(** [t.After(u)]. *)
Definition After (t u : Time) : bool := unixNano u <? unixNano t.

(** A [time.Duration] is a number of nanoseconds. *)
Definition Nanosecond : Z := 1.
Definition Second : Z := 1000000000 * Nanosecond.
Definition Hour : Z := 3600 * Second.

(** [t.Add(d)]. *)
Definition Add (t : Time) (d : Z) : Time :=
  mkTime (unixNano t + d) (location t).

(** [time.Unix(sec, nsec)]. *)
Definition Unix (sec nsec : Z) : Time :=
  mkTime (sec * Second + nsec) Local.

(** The zero value [time.Time{}]: January 1, year 1, 00:00:00 UTC. *)
Definition zero : Time := mkTime (-62135596800 * Second) UTC.

(** [==] on [time.Time], as a map with [time.Time] keys uses it. *)
#[global] Instance Location_eq_dec : EqDecision Location.
Proof. solve_decision. Defined.

#[global] Instance Time_eq_dec : EqDecision Time.
Proof. solve_decision. Defined.

#[global] Instance Time_countable : Countable Time.
Proof.
  refine (inj_countable'
            (fun t => (unixNano t, match location t with UTC => true | Local => false end))
            (fun p => mkTime (fst p) (if snd p then UTC else Local)) _).
  intros [n []]; reflexivity.
Defined.

End time.

(** ** Fixed width integers *)

(** The Go conversion [int64(x)]: the value modulo [2^64], read as a signed
    two's complement number. *)
Definition int64 (x : Z) : Z := (x + 2 ^ 63) mod 2 ^ 64 - 2 ^ 63.

(** The same for [int32]. *)
Definition int32 (x : Z) : Z := (x + 2 ^ 31) mod 2 ^ 32 - 2 ^ 31.

(** The values of type [uint64] ([lnwire.MilliSatoshi] is one). *)
Definition is_uint64 (x : Z) : Prop := 0 <= x < 2 ^ 64.

(** ** Package [decimal] (github.com/shopspring/decimal)

    The operations [MsatToUSD] calls, after the library's [decimal.go]:
    [NewFromInt], [Div], which is [DivRound] at [DivisionPrecision], and
    [Mul], with the helpers they go through. A panic of the library is
    [None]. *)

Module decimal.

(** [Decimal{value *big.Int, exp int32}] denotes [value * 10 ^ exp]. *)
Record Decimal := mkDecimal { value : Z; exp : Z }.

Definition MaxInt32 : Z := 2147483647.
Definition MinInt32 : Z := -2147483648.

(** A decimal whose exponent is an [int32]. *)
Definition wf (d : Decimal) : Prop := MinInt32 <= exp d <= MaxInt32.

(** [DivisionPrecision]: the number of decimal places in the result of a
    division that is not exact. *)
Definition DivisionPrecision : Z := 16.

(** [decimal.New(value, exp)]. *)
Definition New (v e : Z) : Decimal := mkDecimal v e.

(** [decimal.NewFromInt(v)]. *)
Definition NewFromInt (v : Z) : Decimal := mkDecimal v 0.

(** [d.Abs()]. *)
Definition Abs (d : Decimal) : Decimal := mkDecimal (Z.abs (value d)) (exp d).

(** [d.rescale(exp)]: the same number with exponent [e], truncated when
    [e] is larger than the exponent of [d]. *)
Definition rescale (d : Decimal) (e : Z) : Decimal :=
  if exp d =? e then d
  else
    let diff := Z.abs (e - exp d) in
    let expScale := 10 ^ diff in
    if exp d <? e then mkDecimal (Z.quot (value d) expScale) e
    else mkDecimal (value d * expScale) e.

(** [RescalePair(d1, d2)]: both numbers at the smaller exponent. *)
Definition RescalePair (d1 d2 : Decimal) : Decimal * Decimal :=
  if exp d1 =? exp d2 then (d1, d2)
  else
    let baseScale := Z.min (exp d1) (exp d2) in
    if negb (baseScale =? exp d1) then (rescale d1 baseScale, d2)
    else (d1, rescale d2 baseScale).

(** [d.Cmp(d2)]: -1, 0 or 1. *)
Definition Cmp (d d2 : Decimal) : Z :=
  let '(rd, rd2) := RescalePair d d2 in
  match value rd ?= value rd2 with
  | Lt => -1
  | Eq => 0
  | Gt => 1
  end.

(** [d.Add(d2)] and [d.Sub(d2)]. *)
Definition Add (d d2 : Decimal) : Decimal :=
  let '(rd, rd2) := RescalePair d d2 in
  mkDecimal (value rd + value rd2) (exp rd).

Definition Sub (d d2 : Decimal) : Decimal :=
  let '(rd, rd2) := RescalePair d d2 in
  mkDecimal (value rd - value rd2) (exp rd).

(** [d.Mul(d2)]: exact; panics ([None]) when the exponent overflows an
    [int32]. *)
Definition Mul (d d2 : Decimal) : option Decimal :=
  let expInt64 := exp d + exp d2 in
  if (expInt64 >? MaxInt32) || (expInt64 <? MinInt32) then None
  else Some (mkDecimal (value d * value d2) expInt64).

(** [d.QuoRem(d2, precision)]: quotient with [precision] decimal places,
    truncated towards zero as [big.Int.QuoRem] does, and remainder. Panics
    on a zero divisor and on an exponent outside [int32]. *)
Definition QuoRem (d d2 : Decimal) (precision : Z) : option (Decimal * Decimal) :=
  if value d2 =? 0 then None
  else
    let scale := int32 (- precision) in
    let e := exp d - exp d2 - scale in
    if (e >? MaxInt32) || (e <? MinInt32) then None
    else
      let '(aa, bb, scalerest) :=
        if e <? 0 then (value d, value d2 * 10 ^ (- e), exp d)
        else (value d * 10 ^ e, value d2, int32 (scale + exp d2)) in
      let q := Z.quot aa bb in
      let r := Z.rem aa bb in
      Some (mkDecimal q scale, mkDecimal r scalerest).

(** [d.DivRound(d2, precision)]: the quotient rounded half away from zero
    to [precision] decimal places. *)
Definition DivRound (d d2 : Decimal) (precision : Z) : option Decimal :=
  match QuoRem d d2 precision with
  | None => None
  | Some (q, r) =>
      let rv2 := Z.shiftl (Z.abs (value r)) 1 in
      let r2 := mkDecimal rv2 (int32 (exp r + precision)) in
      let c := Cmp r2 (Abs d2) in
      if c <? 0 then Some q
      else if Z.sgn (value d) * Z.sgn (value d2) <? 0
           then Some (Sub q (New 1 (int32 (- precision))))
           else Some (Add q (New 1 (int32 (- precision))))
  end.

(** [d.Div(d2)]. *)
Definition Div (d d2 : Decimal) : option Decimal :=
  DivRound d d2 DivisionPrecision.

(** The rational number a decimal denotes. *)
Definition toQ (d : Decimal) : Q := inject_Z (value d) * Qpower (10 # 1) (exp d).

(** [d.Equal(d2)]: numeric equality. *)
Definition Equal (d d2 : Decimal) : bool := Cmp d d2 =? 0.

End decimal.

(** ** Package [strconv] *)

Module strconv.

(** The value of a decimal digit, if the byte is one. *)
Definition digit (c : ascii) : option Z :=
  let n := Z.of_nat (nat_of_ascii c) in
  if (48 <=? n) && (n <=? 57) then Some (n - 48) else None.

Definition maxUint64 : Z := 2 ^ 64 - 1.

(** What the digit loop of [ParseUint] can end with. *)
Inductive uintRes := UintOk (n : Z) | UintSyntax | UintRange.

(** The loop of [ParseUint(s, 10, 64)] over the bytes of [s]: a byte that
    is no digit is a syntax error, an overflow of [n*10] or of [n*10+d] is
    a range error; whichever comes first. *)
Fixpoint ParseUint_loop (s : string) (n : Z) : uintRes :=
  match s with
  | EmptyString => UintOk n
  | String c rest =>
      match digit c with
      | None => UintSyntax
      | Some d =>
          let cutoff := maxUint64 / 10 + 1 in
          if n >=? cutoff then UintRange
          else
            let n1 := n * 10 + d in
            if n1 >? maxUint64 then UintRange
            else ParseUint_loop rest n1
      end
  end.

(** [ParseUint(s, 10, 64)]. *)
Definition ParseUint (s : string) : uintRes :=
  match s with
  | EmptyString => UintSyntax
  | _ => ParseUint_loop s 0
  end.

(** [strconv.ParseInt(s, 10, 64)]. *)
Definition ParseInt (s0 : string) : result Z :=
  match s0 with
  | EmptyString => Err (NumError "ParseInt" s0 ErrSyntax)
  | String c rest =>
      let '(neg, s) :=
        if Ascii.eqb c "+" then (false, rest)
        else if Ascii.eqb c "-" then (true, rest)
        else (false, s0) in
      let cutoff := 2 ^ 63 in
      match ParseUint s with
      | UintSyntax => Err (NumError "ParseInt" s0 ErrSyntax)
      | UintRange => Err (NumError "ParseInt" s0 ErrRange)
      | UintOk un =>
          if negb neg && (un >=? cutoff) then Err (NumError "ParseInt" s0 ErrRange)
          else if neg && (un >? cutoff) then Err (NumError "ParseInt" s0 ErrRange)
          else Ok (if neg then int64 (- int64 un) else int64 un)
      end
  end.

End strconv.

(** ** Package [sort] *)

Module sort.

Section SliceStable.

Context {A : Type}.
Variable less : A -> A -> bool.

(** Insertion of [x], which stood before all of [l], in front of the
    first element that is not less than [x]. *)
Fixpoint insert (x : A) (l : list A) : list A :=
  match l with
  | [] => [x]
  | y :: r => if less y x then y :: insert x r else x :: y :: r
  end.

(** [sort.SliceStable(s, less)]: the elements after the call. The result
    of a stable sort is determined by [less] alone (elements that compare
    equal keep their order; see [SliceStable_unique] below), so the
    insertion sort stands for whichever stable algorithm runs. *)
Fixpoint SliceStable (l : list A) : list A :=
  match l with
  | [] => []
  | x :: r => insert x (SliceStable r)
  end.

End SliceStable.

End sort.

(** ** Slices of times *)

(** The arrays of [time.Time] in memory, by address. *)
Abbreviation Heap := (gmap nat (list time.Time)).

(** A slice value [[]time.Time]: the address of its array, the index of
    its first element in the array, and its length. Passing a slice to a
    function copies these three, not the array. *)
Record slice := mkSlice { array : nat; offset : nat; len : nat }.

(** The array behind a slice. *)
Definition backing (h : Heap) (s : slice) : list time.Time :=
  default [] (h !! array s).

(** A slice lies within its array. *)
Definition valid (h : Heap) (s : slice) : Prop :=
  (offset s + len s <= length (backing h s))%nat.

(** The elements [s[0]], ..., [s[len(s)-1]]. *)
Definition elements (h : Heap) (s : slice) : list time.Time :=
  take (len s) (drop (offset s) (backing h s)).

(** The heap after the elements of [s] have been overwritten with [l], a
    list of the length of [s]: the rest of the array and the other arrays
    stay as they are. *)
Definition assign (h : Heap) (s : slice) (l : list time.Time) : Heap :=
  <[array s := take (offset s) (backing h s) ++ l
                 ++ drop (offset s + len s) (backing h s)]> h.

(** [sort.SliceStable(s, less)] on a slice of times: the elements are
    rearranged within the array. *)
Definition SliceStable_inplace (less : time.Time -> time.Time -> bool)
    (s : slice) (h : Heap) : Heap :=
  assign h s (sort.SliceStable less (elements h s)).

(** ** Price points, unit conversion and point lookup ([prices.go]) *)

(** [USDPrice]: the price of one bitcoin at a time. *)
Record USDPrice := mkUSDPrice {
  Timestamp : time.Time;
  Price : decimal.Decimal
}.

(** [MsatToUSD(price, amt)] for [amt] of type [lnwire.MilliSatoshi], a
    [uint64]; [None] when a decimal operation panics. *)
Definition MsatToUSD (price : decimal.Decimal) (amt : Z) : option decimal.Decimal :=
  let msatDecimal := decimal.NewFromInt (int64 amt) in
  match decimal.Div price (decimal.NewFromInt 100000000000) with
  | None => None
  | Some pricePerMSat => decimal.Mul pricePerMSat msatDecimal
  end.

(** The integer [DivRound] ends with: [aa / bb] rounded to the nearest
    integer, a half away from zero. *)
Definition roundQuot (aa bb : Z) : Z :=
  let q := Z.quot aa bb in
  let r := Z.rem aa bb in
  if 2 * Z.abs r <? bb then q
  else if aa <? 0 then q - 1 else q + 1.

(** The two integers [QuoRem] divides for [price / 10^11] at 16 places:
    whichever of the two has the smaller exponent is scaled up. *)
Definition divOperands (price : decimal.Decimal) : Z * Z :=
  let e := decimal.exp price + 16 in
  if e <? 0 then (decimal.value price, 100000000000 * 10 ^ (- e))
  else (decimal.value price * 10 ^ e, 100000000000).

(** The rational number ten. *)
Definition ten : Q := 10 # 1.

(** The [for _, price := range prices] loop of [GetPrice], with the local
    [lastPrice] (a nil pointer is [None]) as accumulator; [break] leaves
    the loop with the accumulator as it is. *)
Fixpoint GetPrice_loop (prices : list USDPrice) (timestamp : time.Time)
    (lastPrice : option USDPrice) : option USDPrice :=
  match prices with
  | [] => lastPrice
  | price :: rest =>
      if time.Before timestamp (Timestamp price) then lastPrice
      else GetPrice_loop rest timestamp (Some price)
  end.

(** [GetPrice(prices, timestamp)]. *)
Definition GetPrice (prices : list USDPrice) (timestamp : time.Time)
    : result USDPrice :=
  if (length prices =? 0)%nat then Err errNoPrices
  else match GetPrice_loop prices timestamp None with
       | None => Err errPriceOutOfRange
       | Some lastPrice => Ok lastPrice
       end.

(** The instant of a price point. *)
Definition at_ns (p : USDPrice) : Z := time.unixNano (Timestamp p).

(** Ascending by timestamp: no point is before its predecessor. *)
Definition ascending (prices : list USDPrice) : Prop :=
  Sorted (fun a b => at_ns a <= at_ns b) prices.

(** Strictly ascending: every point is before its successor. *)
Definition strictly_ascending (prices : list USDPrice) : Prop :=
  Sorted (fun a b => at_ns a < at_ns b) prices.

(** A slice of times in ascending order. *)
Definition ascendingTimes (timestamps : list time.Time) : Prop :=
  Sorted (fun a b => time.unixNano a <= time.unixNano b) timestamps.

(** ** The CoinDesk source and the orchestrator *)

(** The requests sent so far, oldest first: all the package can observe of
    the network. *)
Definition World : Type := list string.

(** A [context.Context], read as: is the context done once [n] attempts
    of a query have failed. *)
Definition Context : Type := nat -> bool.

(** The variables [start] and [end] of one call of
    [coinDeskAPI.GetPrices]. A Go closure refers to the variables of the
    enclosing function, not to the values they held when the closure was
    made, so a closure is a function of the frame. *)
Record frame := mkFrame { v_start : time.Time; v_end : time.Time }.

(** [coinDeskResponse]: the [bpi] object of the response, for a type of
    floats. A nil map is the empty map. *)
Record coinDeskResponse (float64 : Type) := mkResponse {
  Data : gmap string float64
}.
Arguments mkResponse {float64} _.
Arguments Data {float64} _.

(** What the standard library, the decimal library, the network, the file
    system and the CoinCap source (a file of the package that is missing)
    do is left open: the statements below hold whatever they do. *)
Class Libraries := {
  float64 : Type;
  (** [decimal.NewFromFloat]; it panics on NaN and on infinities. *)
  NewFromFloat : float64 -> option decimal.Decimal;
  (** [strconv.ParseFloat(s, 64)]. *)
  ParseFloat : string -> result float64;
  (** [t.Format(layout)] and [time.Parse(layout, value)]. *)
  Format : string -> time.Time -> string;
  Parse : string -> string -> result time.Time;
  (** [time.Now()]. *)
  now : time.Time;
  (** [http.Get(url)] followed by [ioutil.ReadAll] of its body, given the
      requests sent before. *)
  httpGet : World -> string -> result string;
  (** [json.Unmarshal(data, &priceEntries)]: the decoded response. *)
  Unmarshal : string -> result (coinDeskResponse float64);
  (** The order in which [range] visits the entries of a map. *)
  mapRange : gmap string float64 -> list (string * float64);
  (** [readDataFromFile]: [os.Open] and [csv.NewReader(f).ReadAll()], for
      the files as they are on disk. *)
  readDataFromFile : string -> result (list (list string));
  (** The constant [maxRetries] of the retry helper. *)
  maxRetries : nat;
  (** [Granularity] and the CoinCap source ([newCoinCapAPI] and its
      [GetPrices]). *)
  Granularity : Type;
  coinCapAPI_GetPrices :
    Granularity -> Context -> time.Time -> time.Time -> World ->
    result (list USDPrice) * World
}.

(** Go leaves the order of [range] over a map unspecified, but each entry
    is visited once. *)
Class RangeVisitsEach `{Libraries} : Prop :=
  mapRange_perm : forall m : gmap string float64, mapRange m ≡ₚ map_to_list m.

Section Sources.

Context `{Libraries}.

Definition coinDeskHistoryAPI : string :=
  "https://api.coindesk.com/v1/bpi/historical/close.json".

Definition coinDeskTimeFormat : string := "2006-01-02".

(** The URL [queryCoinDesk] builds with [fmt.Sprintf]. *)
Definition queryURL (start end_ : time.Time) : string :=
  coinDeskHistoryAPI +:+ "?start=" +:+ Format coinDeskTimeFormat start
    +:+ "&end=" +:+ Format coinDeskTimeFormat end_.

(** [queryCoinDesk(start, end)]: one GET request. *)
Definition queryCoinDesk (start end_ : time.Time) (w : World)
    : result string * World :=
  let url := queryURL start end_ in
  (httpGet w url, w ++ [url]).

(** The loop of [parseCoinDeskData] over the entries in the order [range]
    yields them; [usdRecords] grows by [append]. *)
Fixpoint parseCoinDeskData_loop (entries : list (string * float64))
    (usdRecords : list USDPrice) : result (list USDPrice) :=
  match entries with
  | [] => Ok usdRecords
  | (date, price) :: rest =>
      timestamp ← Parse coinDeskTimeFormat date;
      p ← orPanic (NewFromFloat price);
      parseCoinDeskData_loop rest (usdRecords ++ [mkUSDPrice timestamp p])
  end.

(** [parseCoinDeskData(data)]. *)
Definition parseCoinDeskData (data : string) : result (list USDPrice) :=
  priceEntries ← Unmarshal data;
  parseCoinDeskData_loop (mapRange (Data priceEntries)) [].

(** Modelled from the spec: the loop of [retryQuery] (section 4.2), a
    function of the package whose source file is missing. A fetch step and
    a parse step; on a failure of either it retries, a bounded number of
    times; when the retries are exhausted it returns the last error
    unchanged; when the context is done it stops retrying and returns the
    context's error. *)
Fixpoint retryQuery_loop (retries attempt : nat) (ctx : Context)
    (queryAPI : World -> result string * World)
    (convert : string -> result (list USDPrice)) (w : World)
    : result (list USDPrice) * World :=
  let '(response, w) := queryAPI w in
  match response ≫= convert with
  | Ok records => (Ok records, w)
  | Panic => (Panic, w)
  | Err e =>
      match retries with
      | O => (Err e, w)
      | S n =>
          if ctx (S attempt) then (Err errContext, w)
          else retryQuery_loop n (S attempt) ctx queryAPI convert w
      end
  end.

(** Modelled from the spec: [retryQuery(ctx, queryAPI, convert)] (section
    4.2), the loop above started with [maxRetries] retries left. *)
Definition retryQuery (ctx : Context)
    (queryAPI : World -> result string * World)
    (convert : string -> result (list USDPrice)) (w : World)
    : result (list USDPrice) * World :=
  retryQuery_loop maxRetries 0 ctx queryAPI convert w.

(** Modelled from the spec: the constant [utils.DisallowFutureRange],
    the flag that has [ValidateTimeRange] reject ranges in the future. *)
Definition DisallowFutureRange : bool := true.

(** Modelled from the spec: [utils.ValidateTimeRange] (section 4.1), whose
    source file is missing: [start] is not after [end], and the range
    does not extend into the future; otherwise the call fails with
    [InvalidRange]. *)
Definition ValidateTimeRange (startTime endTime : time.Time)
    (disallowFutureRange : bool) : option error :=
  if time.After startTime endTime then Some errInvalidRange
  else if disallowFutureRange && time.After endTime now then Some errInvalidRange
  else None.

(** The comparison [coinDeskAPI.GetPrices] sorts its records with. *)
Definition lessTimestamp (a b : USDPrice) : bool :=
  time.Before (Timestamp a) (Timestamp b).

(** [(c *coinDeskAPI) GetPrices(ctx, start, end)]. The closure [query] is
    made before [start] is assigned to and called after. *)
Definition coinDeskAPI_GetPrices (ctx : Context) (start end_ : time.Time)
    (w : World) : result (list USDPrice) * World :=
  match ValidateTimeRange start end_ DisallowFutureRange with
  | Some err => (Err err, w)
  | None =>
      let vars := mkFrame start end_ in
      let query := fun vars : frame => queryCoinDesk (v_start vars) (v_end vars) in
      let vars := mkFrame (time.Add (v_start vars) (time.Hour * -24)) (v_end vars) in
      let '(r, w) := retryQuery ctx (query vars) parseCoinDeskData w in
      (records ← r; Ok (sort.SliceStable lessTimestamp records), w)
  end.

(** The values of the interface [PriceAPIBackend]. *)
Inductive PriceAPIBackend :=
| coinCapAPI (granularity : Granularity)
| coinDeskAPI.

(** The method [GetPrices] of the interface. *)
Definition PriceAPIBackend_GetPrices (client : PriceAPIBackend)
    (ctx : Context) (startTime endTime : time.Time) (w : World)
    : result (list USDPrice) * World :=
  match client with
  | coinCapAPI granularity => coinCapAPI_GetPrices granularity ctx startTime endTime w
  | coinDeskAPI => coinDeskAPI_GetPrices ctx startTime endTime w
  end.

(** [PriceBackend] is an [int]; the constants are an [iota] enumeration. *)
Definition CoinCapPriceBackend : Z := 0.
Definition CoinDeskPriceBackend : Z := 1.

(** [NewPriceAPIBackend(backend, granularity)], with a [*Granularity]. *)
Definition NewPriceAPIBackend (backend : Z) (granularity : option Granularity)
    : result PriceAPIBackend :=
  if backend =? CoinCapPriceBackend then
    match granularity with
    | None => Err errGranularityRequired
    | Some g => Ok (coinCapAPI g)
    end
  else if backend =? CoinDeskPriceBackend then Ok coinDeskAPI
  else Err errUnknownPriceBackend.

(** The loop [for _, ts := range timestamps] of [GetPrices], filling the
    map [prices]. *)
Fixpoint GetPrices_loop (priceData : list USDPrice) (timestamps : list time.Time)
    (prices : gmap time.Time USDPrice) : result (gmap time.Time USDPrice) :=
  match timestamps with
  | [] => Ok prices
  | ts :: rest =>
      price ← GetPrice priceData ts;
      GetPrices_loop priceData rest (<[ts := price]> prices)
  end.

(** What a call of [GetPrices] leaves behind: its results, the heap, and
    the requests sent. *)
Record outcome := mkOutcome {
  returned : result (gmap time.Time USDPrice);
  heap : Heap;
  world : World
}.

(** The part of [GetPrices] from the bounds of the range to the answer of
    the source: the series [priceData] that is then handed to [GetPrice].
    [timestamps] are the elements of the slice, which is not empty here,
    so both index expressions are in range. *)
Definition GetPrices_fetch (ctx : Context) (timestamps : list time.Time)
    (backend : Z) (granularity : Granularity) (w : World)
    : result (list USDPrice) * World :=
  let start := nth 0 timestamps time.zero in
  let end_ := nth (length timestamps - 1) timestamps time.zero in
  match NewPriceAPIBackend backend (Some granularity) with
  | Ok client => PriceAPIBackend_GetPrices client ctx start end_ w
  | Err err => (Err err, w)
  | Panic => (Panic, w)
  end.

(** [GetPrices(ctx, timestamps, backend, granularity)]. The nil map of the
    first return is the empty map. *)
Definition GetPrices (ctx : Context) (timestamps : slice)
    (backend : Z) (granularity : Granularity) (h : Heap) (w : World) : outcome :=
  if (len timestamps =? 0)%nat then mkOutcome (Ok ∅) h w
  else
    let h := SliceStable_inplace time.Before timestamps h in
    let '(priceData, w) :=
      GetPrices_fetch ctx (elements h timestamps) backend granularity w in
    mkOutcome (priceData ← priceData;
               GetPrices_loop priceData (elements h timestamps) ∅)
              h w.

End Sources.

(** ** The custom price source (CSV file) *)

Module custom.

(** [Price]: a price point with its currency. *)
Record Price := mkPrice {
  Price_Timestamp : time.Time;
  Price_Price : decimal.Decimal;
  Price_Currency : string
}.

(** [customPrices]; [getData] is a field so that tests can replace it. *)
Record customPrices := mkCustomPrices {
  currency : string;
  csvPath : string;
  getData : string -> result (list (list string))
}.

Section RawPriceData.

Context `{Libraries}.

(** [newCustomPricesAPI(csvPath, currency)]. *)
Definition newCustomPricesAPI (csvPath currency : string) : customPrices :=
  mkCustomPrices currency csvPath readDataFromFile.

(** The loop [for i, line := range csvLines] of [rawPriceData]; [prices]
    is the slice made with [make([]*Price, len(csvLines))], written at
    index [i]. A return inside the loop drops [prices]. *)
Fixpoint rawPriceData_loop (c : customPrices) (i : nat)
    (csvLines : list (list string)) (prices : list (option Price))
    : result (list (option Price)) :=
  match csvLines with
  | [] => Ok prices
  | line :: rest =>
      if negb (length line =? 2)%nat then Err errIncorrectCSV
      else
        timestamp ← strconv.ParseInt (nth 0 line EmptyString);
        price ← ParseFloat (nth 1 line EmptyString);
        p ← orPanic (NewFromFloat price);
        rawPriceData_loop c (S i) rest
          (<[i := Some (mkPrice (time.Unix timestamp 0) p (currency c))]> prices)
  end.

(** [(c *customPrices) rawPriceData(_, _, _)]: the context and the two
    times have blank names in the source. *)
Definition rawPriceData (c : customPrices) (ctx : Context)
    (startTime endTime : time.Time) : result (list (option Price)) :=
  csvLines ← getData c (csvPath c);
  let prices := replicate (length csvLines) None in
  rawPriceData_loop c 0 csvLines prices.

(** What one record of the file stands for: the body of the loop for one
    line. *)
Definition parseLine (c : customPrices) (line : list string) : result Price :=
  if negb (length line =? 2)%nat then Err errIncorrectCSV
  else
    timestamp ← strconv.ParseInt (nth 0 line EmptyString);
    price ← ParseFloat (nth 1 line EmptyString);
    p ← orPanic (NewFromFloat price);
    Ok (mkPrice (time.Unix timestamp 0) p (currency c)).

(** All records in the order of the file, or the failure of the first
    record that has one. *)
Fixpoint parseLines (c : customPrices) (csvLines : list (list string))
    : result (list Price) :=
  match csvLines with
  | [] => Ok []
  | line :: rest =>
      p ← parseLine c line;
      ps ← parseLines c rest;
      Ok (p :: ps)
  end.

End RawPriceData.

End custom.

(** ** A reference instance of the libraries

    The statements below hold for every behaviour of the standard
    library, of the network and of the CoinCap source. To run the package
    on concrete inputs, this module fixes one behaviour: a machine whose
    local zone is UTC, and the part of each library function that the
    concrete inputs reach. *)

Module ref.

(** A [float64] is represented by the shortest decimal that reads back as
    the same float, which is the number [decimal.NewFromFloat] returns:
    [10.1] is [101 * 10^-1], [10000] is [1 * 10^4], zero is [0 * 10^0]. *)
Definition float64 : Type := decimal.Decimal.

Definition NewFromFloat (f : float64) : option decimal.Decimal := Some f.

(** Removal of the trailing zeros of a mantissa, at most [fuel] of them. *)
Fixpoint normalize (fuel : nat) (v e : Z) : decimal.Decimal :=
  match fuel with
  | O => decimal.mkDecimal v e
  | S n =>
      if v =? 0 then decimal.mkDecimal 0 0
      else if v mod 10 =? 0 then normalize n (v / 10) (e + 1)
      else decimal.mkDecimal v e
  end.

(** The digits at the head of a string, their value after [acc], their
    number, and the rest of the string. *)
Fixpoint digits (s : string) (acc : Z) (n : Z) : Z * Z * string :=
  match s with
  | EmptyString => (acc, n, s)
  | String c rest =>
      match strconv.digit c with
      | Some d => digits rest (acc * 10 + d) (n + 1)
      | None => (acc, n, s)
      end
  end.

(** A decimal literal [-ddd.ddd] with at most 15 digits: a float of that
    size reads back as the literal without its trailing zeros. Other
    spellings of floats are outside this instance. *)
Definition ParseFloat (s : string) : result float64 :=
  let '(neg, body) :=
    match s with
    | String c rest => if Ascii.eqb c "-" then (true, rest) else (false, s)
    | EmptyString => (false, s)
    end in
  let '(ip, n1, rest) := digits body 0 0 in
  let '(m, n2, rest) :=
    match rest with
    | String c frac => if Ascii.eqb c "." then digits frac ip 0 else (ip, 0, rest)
    | EmptyString => (ip, 0, rest)
    end in
  match rest with
  | EmptyString =>
      if (n1 =? 0) || (15 <? n1 + n2) then Err (NumError "ParseFloat" s ErrSyntax)
      else Ok (normalize 16 (if neg then - m else m) (- n2))
  | _ => Err (NumError "ParseFloat" s ErrSyntax)
  end.

(** Days since 1970-01-01 of a date of the proleptic Gregorian calendar,
    and back. *)
Definition days_from_civil (y m d : Z) : Z :=
  let y := if m <=? 2 then y - 1 else y in
  let era := y / 400 in
  let yoe := y - era * 400 in
  let doy := (153 * (if 2 <? m then m - 3 else m + 9) + 2) / 5 + d - 1 in
  let doe := yoe * 365 + yoe / 4 - yoe / 100 + doy in
  era * 146097 + doe - 719468.

Definition civil_from_days (z : Z) : Z * Z * Z :=
  let z := z + 719468 in
  let era := z / 146097 in
  let doe := z - era * 146097 in
  let yoe := (doe - doe / 1460 + doe / 36524 - doe / 146096) / 365 in
  let doy := doe - (365 * yoe + yoe / 4 - yoe / 100) in
  let mp := (5 * doy + 2) / 153 in
  let d := doy - (153 * mp + 2) / 5 + 1 in
  let m := if mp <? 10 then mp + 3 else mp - 9 in
  ((if m <=? 2 then yoe + era * 400 + 1 else yoe + era * 400), m, d).

Definition nanosPerDay : Z := 86400 * time.Second.

(** The decimal digit [d] as a byte, and a number in [width] digits. *)
Definition digitChar (d : Z) : ascii := ascii_of_nat (Z.to_nat (48 + d mod 10)).

Fixpoint pad (width : nat) (n : Z) (acc : string) : string :=
  match width with
  | O => acc
  | S w => pad w (n / 10) (String (digitChar n) acc)
  end.

(** [t.Format("2006-01-02")] for years 0 to 9999; the layout is the only
    one the package uses. *)
Definition Format (layout : string) (t : time.Time) : string :=
  let '(y, m, d) := civil_from_days (time.unixNano t / nanosPerDay) in
  pad 4 y EmptyString +:+ "-" +:+ pad 2 m EmptyString +:+ "-" +:+ pad 2 d EmptyString.

(** [time.Parse("2006-01-02", value)]: four, two and two digits with
    dashes, a month from 1 to 12 and a day of that month; midnight UTC. *)
Definition Parse (layout value : string) : result time.Time :=
  let bad := Err (ParseError layout value) in
  let '(y, ny, r1) := digits value 0 0 in
  match r1 with
  | String c1 r1' =>
      let '(m, nm, r2) := digits r1' 0 0 in
      match r2 with
      | String c2 r2' =>
          let '(d, nd, r3) := digits r2' 0 0 in
          let ok :=
            Ascii.eqb c1 "-" && Ascii.eqb c2 "-" && (ny =? 4) && (nm =? 2) && (nd =? 2)
            && (1 <=? m) && (m <=? 12) && (1 <=? d)
            && (days_from_civil y m d + 1 <=?
                (if m =? 12 then days_from_civil (y + 1) 1 1
                 else days_from_civil y (m + 1) 1)) in
          match r3 with
          | EmptyString =>
              if ok then Ok (time.mkTime (days_from_civil y m d * nanosPerDay) time.UTC)
              else bad
          | _ => bad
          end
      | EmptyString => bad
      end
  | EmptyString => bad
  end.

(** The byte of a double quote. *)
Definition dq : ascii := ascii_of_nat 34.

(** [s] without the prefix [p], if it starts with it. *)
Fixpoint stripPrefix (p s : string) : option string :=
  match p, s with
  | EmptyString, _ => Some s
  | String a p', String b s' => if Ascii.eqb a b then stripPrefix p' s' else None
  | String _ _, EmptyString => None
  end.

(** The bytes of [s] before the first one that satisfies [stop], and the
    rest from that byte on. *)
Fixpoint span (stop : ascii -> bool) (s : string) : string * string :=
  match s with
  | EmptyString => (EmptyString, s)
  | String a r =>
      if stop a then (EmptyString, s)
      else let '(k, r') := span stop r in (String a k, r')
  end.

(** The entries ["date":number] of the inner object, up to and including
    its closing brace. A later entry replaces an earlier one with the same
    key. *)
Fixpoint entries (fuel : nat) (s : string) (m : gmap string float64)
    : option (gmap string float64 * string) :=
  match fuel with
  | O => None
  | S n =>
      s ← stripPrefix (String dq EmptyString) s;
      let '(key, s) := span (Ascii.eqb dq) s in
      s ← stripPrefix (String dq ":") s;
      let '(lit, s) := span (fun c => Ascii.eqb c "," || Ascii.eqb c "}") s in
      match ParseFloat lit, s with
      | Ok f, String c s' =>
          if Ascii.eqb c "," then entries n s' (<[key := f]> m)
          else Some (<[key := f]> m, s')
      | _, _ => None
      end
  end.

(** [json.Unmarshal] into a [coinDeskResponse], for the compact text
    [json.Marshal] writes: one object with the key [bpi], whose value is
    an object of numbers, without blanks or escapes. *)
Definition Unmarshal (data : string) : result (coinDeskResponse float64) :=
  let parsed :=
    s ← stripPrefix ("{" +:+ String dq "bpi" +:+ String dq ":{") data;
    match s with
    | String "}" s' => Some (∅, s')
    | _ => entries (String.length s) s ∅
    end in
  match parsed with
  | Some (m, String "}" EmptyString) => Ok (mkResponse m)
  | _ => Err (LibError "json" "invalid character")
  end.

(** [range] over a map visits the entries in the order of the finite map. *)
Definition mapRange (m : gmap string float64) : list (string * float64) :=
  map_to_list m.

(** The body of a response of the service: the closing prices of
    2021-04-16 and 2021-04-17. *)
Definition body : string :=
  "{" +:+ String dq "bpi" +:+ String dq ":{"
  +:+ String dq "2021-04-16" +:+ String dq ":10.1,"
  +:+ String dq "2021-04-17" +:+ String dq ":10000}}".

(** A network on which every request is answered with [body]. *)
Definition httpGet (w : World) (url : string) : result string := Ok body.

(** The current time: 2021-04-19 00:00:00 UTC. *)
Definition now : time.Time := time.mkTime (1618790400 * time.Second) time.UTC.

Definition maxRetries : nat := 3.

(** A CoinCap source is only known by its interface and by the contract
    of a source, an ascending series. This one answers with two points,
    the earlier one first. *)
Definition Granularity : Type := unit.

Definition earlierFirst : list USDPrice :=
  [ mkUSDPrice (time.Unix 5 0) (decimal.NewFromInt 100);
    mkUSDPrice (time.Unix 10 0) (decimal.NewFromInt 200) ].

Definition coinCapAPI_GetPrices (g : Granularity) (ctx : Context)
    (startTime endTime : time.Time) (w : World)
    : result (list USDPrice) * World :=
  (Ok earlierFirst, w).

(** A context that is never done. *)
Definition background : Context := fun _ => false.

(** Inputs: a series of three points, two days, a heap, the decoded
    [body], and three files (the first is the one of the package's own
    test). *)
Definition series : list USDPrice :=
  [ mkUSDPrice (time.Unix 100 0) (decimal.NewFromInt 10);
    mkUSDPrice (time.Unix 200 0) (decimal.NewFromInt 20);
    mkUSDPrice (time.Unix 300 0) (decimal.NewFromInt 30) ].

Definition day16 : time.Time := time.mkTime (1618531200 * time.Second) time.UTC.
Definition day17 : time.Time := time.mkTime (1618617600 * time.Second) time.UTC.

(** A heap with one array of four times, and the slice of its two middle
    elements, the later day first. *)
Definition memory : Heap := {[ 0%nat := [time.zero; day17; day16; time.Unix 7 0] ]}.
Definition middle : slice := mkSlice 0 1 2.

Definition response : coinDeskResponse float64 :=
  mkResponse (<["2021-04-16" := decimal.mkDecimal 101 (-1)]>
                (<["2021-04-17" := decimal.mkDecimal 1 4]> ∅)).

Definition csvFile (lines : list (list string)) : custom.customPrices :=
  custom.mkCustomPrices "USD" "prices.csv" (fun _ => Ok lines).

Definition csvGood : custom.customPrices :=
  csvFile [["10000"; "10.1"]; ["2000"; "110000"]].

Definition csvShort : custom.customPrices :=
  csvFile [["10000"; "10.1"]; ["2000"]].

Definition csvBadTimestamp : custom.customPrices :=
  csvFile [["x"; "10.1"]; ["2000"]].

(** No file is read. *)
Definition readDataFromFile (path : string) : result (list (list string)) :=
  Err (LibError "os" "no such file or directory").

End ref.

(** The libraries of the reference instance. *)
Definition refLibraries : Libraries := {|
  float64 := ref.float64;
  NewFromFloat := ref.NewFromFloat;
  ParseFloat := ref.ParseFloat;
  Format := ref.Format;
  Parse := ref.Parse;
  now := ref.now;
  httpGet := ref.httpGet;
  Unmarshal := ref.Unmarshal;
  mapRange := ref.mapRange;
  readDataFromFile := ref.readDataFromFile;
  maxRetries := ref.maxRetries;
  Granularity := ref.Granularity;
  coinCapAPI_GetPrices := ref.coinCapAPI_GetPrices
|}.

(** ** Package [strconv], integer formatting ([itoa.go])

    [strconv.FormatInt], which the package's test writes the timestamps of
    its file with. *)

Module itoa.

(** The Go conversion [uint64(x)]. *)
Definition uint64 (x : Z) : Z := x mod 2 ^ 64.

(** The byte of the decimal digit [d]. *)
Definition digitByte (d : Z) : ascii := ascii_of_nat (Z.to_nat (48 + d)).

(** The digits [formatBits] writes for base 10, from the last one to the
    first, each in front of those written before. (The loop of the
    library takes two digits at a time from a table; the bytes are the
    same.) A [uint64] has at most 20 digits. *)
Fixpoint formatBits (fuel : nat) (u : Z) (acc : string) : string :=
  match fuel with
  | O => acc
  | S n =>
      let acc := String (digitByte (u mod 10)) acc in
      if u <? 10 then acc else formatBits n (u / 10) acc
  end.

(** [strconv.FormatInt(i, 10)]: [formatBits] on [uint64(i)], negated when
    [i] is negative, with the sign in front. (For [0 <= i < 100] the
    library reads the same digits from a table.) *)
Definition FormatInt (i : Z) : string :=
  let u := uint64 i in
  let neg := i <? 0 in
  let u := if neg then uint64 (- u) else u in
  let s := formatBits 20 u EmptyString in
  if neg then String "-" s else s.

End itoa.

(** ** Package [faraday]: the configuration

    [DefaultConfig] and [ValidateConfig]. A [*Config] is a pointer: what
    [ValidateConfig] assigns to the fields of [config] and of [config.Lnd]
    is seen by its caller, also when it returns an error, so the function
    returns the configuration it leaves behind. *)

Module faraday.

(** The errors of [ValidateConfig]: those it makes with [fmt.Errorf], by
    their message, and the error of [os.MkdirAll], returned as it is. *)
Inductive failure :=
| Errorf (msg : string)
| OsError (msg : string).

(** How a call ends: it returns an error or nil, or it panics on a nil
    pointer. *)
Inductive ending :=
| Return (err : option failure)
| Panics.

(** [chain.BitcoinConfig], a struct of another package of the repository:
    the fields [ValidateConfig] reads. *)
Module BitcoinConfig.
Record t := mk {
  User : string;
  Password : string;
  UseTLS : bool;
  TLSPath : string
}.
End BitcoinConfig.

Module LndConfig.
Record t := mk {
  RPCServer : string;
  MacaroonDir : string;
  MacaroonPath : string;
  TLSCertPath : string;
  RequestTimeout : Z
}.

Definition set_MacaroonPath (v : string) (c : t) : t :=
  mk (RPCServer c) (MacaroonDir c) v (TLSCertPath c) (RequestTimeout c).

Definition set_TLSCertPath (v : string) (c : t) : t :=
  mk (RPCServer c) (MacaroonDir c) (MacaroonPath c) v (RequestTimeout c).
End LndConfig.

Module Config.
(** [Lnd] and [Bitcoin] are pointers, nil is [None]. *)
Record t := mk {
  Lnd : option LndConfig.t;
  FaradayDir : string;
  ChainConn : bool;
  ShowVersion : bool;
  MinimumMonitored : Z;
  Network : string;
  DebugLevel : string;
  TLSCertPath : string;
  TLSKeyPath : string;
  TLSExtraIPs : list string;
  TLSExtraDomains : list string;
  TLSAutoRefresh : bool;
  TLSDisableAutofill : bool;
  TLSCertDuration : Z;
  MacaroonPath : string;
  RPCListen : string;
  RESTListen : string;
  CORSOrigin : string;
  Bitcoin : option BitcoinConfig.t
}.

Definition set_Lnd (v : option LndConfig.t) (c : t) : t :=
  mk v (FaradayDir c) (ChainConn c) (ShowVersion c) (MinimumMonitored c) (Network c)
     (DebugLevel c) (TLSCertPath c) (TLSKeyPath c) (TLSExtraIPs c) (TLSExtraDomains c)
     (TLSAutoRefresh c) (TLSDisableAutofill c) (TLSCertDuration c) (MacaroonPath c)
     (RPCListen c) (RESTListen c) (CORSOrigin c) (Bitcoin c).

Definition set_FaradayDir (v : string) (c : t) : t :=
  mk (Lnd c) v (ChainConn c) (ShowVersion c) (MinimumMonitored c) (Network c)
     (DebugLevel c) (TLSCertPath c) (TLSKeyPath c) (TLSExtraIPs c) (TLSExtraDomains c)
     (TLSAutoRefresh c) (TLSDisableAutofill c) (TLSCertDuration c) (MacaroonPath c)
     (RPCListen c) (RESTListen c) (CORSOrigin c) (Bitcoin c).

Definition set_TLSCertPath (v : string) (c : t) : t :=
  mk (Lnd c) (FaradayDir c) (ChainConn c) (ShowVersion c) (MinimumMonitored c) (Network c)
     (DebugLevel c) v (TLSKeyPath c) (TLSExtraIPs c) (TLSExtraDomains c)
     (TLSAutoRefresh c) (TLSDisableAutofill c) (TLSCertDuration c) (MacaroonPath c)
     (RPCListen c) (RESTListen c) (CORSOrigin c) (Bitcoin c).

Definition set_TLSKeyPath (v : string) (c : t) : t :=
  mk (Lnd c) (FaradayDir c) (ChainConn c) (ShowVersion c) (MinimumMonitored c) (Network c)
     (DebugLevel c) (TLSCertPath c) v (TLSExtraIPs c) (TLSExtraDomains c)
     (TLSAutoRefresh c) (TLSDisableAutofill c) (TLSCertDuration c) (MacaroonPath c)
     (RPCListen c) (RESTListen c) (CORSOrigin c) (Bitcoin c).

Definition set_MacaroonPath (v : string) (c : t) : t :=
  mk (Lnd c) (FaradayDir c) (ChainConn c) (ShowVersion c) (MinimumMonitored c) (Network c)
     (DebugLevel c) (TLSCertPath c) (TLSKeyPath c) (TLSExtraIPs c) (TLSExtraDomains c)
     (TLSAutoRefresh c) (TLSDisableAutofill c) (TLSCertDuration c) v
     (RPCListen c) (RESTListen c) (CORSOrigin c) (Bitcoin c).
End Config.

(** What the packages [btcutil], [path/filepath], [path], [lncfg],
    [lndclient], [os] and [chain] do is left open. *)
Class System := {
  (** [btcutil.AppDataDir(appName, roaming)]. *)
  AppDataDir : string -> bool -> string;
  (** [filepath.Join(elem...)] and [path.Join(elem...)]. *)
  filepath_Join : list string -> string;
  path_Join : list string -> string;
  (** [lncfg.CleanAndExpandPath(path)]. *)
  CleanAndExpandPath : string -> string;
  (** [lndclient.Network(network).ChainParams()]: the message of its
      error, if it returns one. *)
  ChainParams : string -> option string;
  (** The file system, and [os.MkdirAll(path, os.ModePerm)] on it. *)
  FS : Type;
  MkdirAll : FS -> string -> option failure * FS;
  (** The variable [chain.DefaultConfig]. *)
  chain_DefaultConfig : option BitcoinConfig.t
}.

(** A reference instance: a Linux machine, paths that are clean already,
    directories that can always be made. *)
Module sys.

Definition AppDataDir (appName : string) (roaming : bool) : string :=
  "/home/satoshi/." +:+ appName.

(** The elements that are not empty, with a slash between them. *)
Fixpoint Join (elem : list string) : string :=
  match elem with
  | [] => EmptyString
  | e :: rest =>
      if String.eqb e EmptyString then Join rest
      else match Join rest with
           | EmptyString => e
           | joined => e +:+ "/" +:+ joined
           end
  end.

Definition CleanAndExpandPath (path : string) : string := path.

Definition ChainParams (network : string) : option string :=
  if String.eqb network "mainnet" || String.eqb network "testnet"
     || String.eqb network "regtest" || String.eqb network "simnet"
  then None else Some "unknown network".

(** The directories made so far. *)
Definition FS : Type := list string.

Definition MkdirAll (fs : FS) (path : string) : option failure * FS :=
  (None, fs ++ [path]).

Definition chain_DefaultConfig : option BitcoinConfig.t :=
  Some (BitcoinConfig.mk EmptyString EmptyString false EmptyString).

End sys.

Definition refSystem : System := {|
  AppDataDir := sys.AppDataDir;
  filepath_Join := sys.Join;
  path_Join := sys.Join;
  CleanAndExpandPath := sys.CleanAndExpandPath;
  ChainParams := sys.ChainParams;
  FS := sys.FS;
  MkdirAll := sys.MkdirAll;
  chain_DefaultConfig := sys.chain_DefaultConfig
|}.

Section Configuration.

Context `{System}.

Definition defaultRPCPort : string := "10009".
Definition defaultRPCHostPort : string := "localhost:" +:+ defaultRPCPort.
Definition DefaultNetwork : string := "mainnet".
Definition defaultMinimumMonitor : Z := time.Hour * 24 * 7 * 4.
Definition defaultDebugLevel : string := "info".
Definition defaultRPCListen : string := "localhost:8465".
Definition defaultChainConn : bool := false.
Definition defaultTLSCertDuration : Z := 14 * 30 * 24 * time.Hour.

Definition FaradayDirBase : string := AppDataDir "faraday" false.
Definition DefaultTLSCertFilename : string := "tls.cert".
Definition DefaultTLSKeyFilename : string := "tls.key".
Definition DefaultTLSCertPath : string :=
  filepath_Join [FaradayDirBase; DefaultNetwork; DefaultTLSCertFilename].
Definition DefaultTLSKeyPath : string :=
  filepath_Join [FaradayDirBase; DefaultNetwork; DefaultTLSKeyFilename].
Definition DefaultMacaroonFilename : string := "faraday.macaroon".
Definition DefaultMacaroonPath : string :=
  filepath_Join [FaradayDirBase; DefaultNetwork; DefaultMacaroonFilename].
Definition defaultLndMacaroon : string := "admin.macaroon".
Definition DefaultLndDir : string := AppDataDir "lnd" false.
Definition DefaultLndMacaroonPath : string :=
  filepath_Join [DefaultLndDir; "data"; "chain"; "bitcoin"; DefaultNetwork;
                 defaultLndMacaroon].

(** [DefaultConfig()]. The fields it does not name have their zero
    value. *)
Definition DefaultConfig : Config.t := {|
  Config.Lnd := Some {|
    LndConfig.RPCServer := defaultRPCHostPort;
    LndConfig.MacaroonDir := EmptyString;
    LndConfig.MacaroonPath := DefaultLndMacaroonPath;
    LndConfig.TLSCertPath := EmptyString;
    LndConfig.RequestTimeout := 0
  |};
  Config.FaradayDir := FaradayDirBase;
  Config.ChainConn := defaultChainConn;
  Config.ShowVersion := false;
  Config.MinimumMonitored := defaultMinimumMonitor;
  Config.Network := DefaultNetwork;
  Config.DebugLevel := defaultDebugLevel;
  Config.TLSCertPath := DefaultTLSCertPath;
  Config.TLSKeyPath := DefaultTLSKeyPath;
  Config.TLSExtraIPs := [];
  Config.TLSExtraDomains := [];
  Config.TLSAutoRefresh := false;
  Config.TLSDisableAutofill := false;
  Config.TLSCertDuration := defaultTLSCertDuration;
  Config.MacaroonPath := DefaultMacaroonPath;
  Config.RPCListen := defaultRPCListen;
  Config.RESTListen := EmptyString;
  Config.CORSOrigin := EmptyString;
  Config.Bitcoin := chain_DefaultConfig
|}.

(** The comparison [a != b] of two strings. *)
Definition differ (a b : string) : bool := negb (String.eqb a b).

(** The end of [ValidateConfig], from the [switch] on the macaroon
    options of lnd. *)
Definition ValidateConfig_lnd (config : Config.t) : ending * Config.t :=
  match Config.Lnd config with
  | None => (Panics, config)
  | Some lnd =>
      let chosen :=
        if differ (LndConfig.MacaroonPath lnd) DefaultLndMacaroonPath
           && differ (LndConfig.MacaroonDir lnd) EmptyString
        then inl (Errorf "use --lnd.macaroonpath only")
        else if differ (LndConfig.MacaroonDir lnd) EmptyString
        then inr (LndConfig.set_MacaroonPath
                    (path_Join [CleanAndExpandPath (LndConfig.MacaroonDir lnd);
                                defaultLndMacaroon]) lnd)
        else if differ (LndConfig.MacaroonPath lnd) EmptyString
        then inr (LndConfig.set_MacaroonPath
                    (CleanAndExpandPath (LndConfig.MacaroonPath lnd)) lnd)
        else inl (Errorf "must specify --lnd.macaroonpath") in
      match chosen with
      | inl err => (Return (Some err), config)
      | inr lnd =>
          let lnd :=
            if differ (Config.Network config) DefaultNetwork
               && String.eqb (LndConfig.MacaroonPath lnd) DefaultLndMacaroonPath
            then LndConfig.set_MacaroonPath
                   (path_Join [DefaultLndDir; "data"; "chain"; "bitcoin";
                               Config.Network config; defaultLndMacaroon]) lnd
            else lnd in
          let lnd :=
            LndConfig.set_TLSCertPath
              (CleanAndExpandPath (LndConfig.TLSCertPath lnd)) lnd in
          (Return None, Config.set_Lnd (Some lnd) config)
      end
  end.

(** The check of the bitcoin backend in [ValidateConfig], and what
    follows it. *)
Definition ValidateConfig_chain (config : Config.t) : ending * Config.t :=
  if Config.ChainConn config then
    match Config.Bitcoin config with
    | None => (Panics, config)
    | Some bitcoin =>
        if String.eqb (BitcoinConfig.User bitcoin) EmptyString
           || String.eqb (BitcoinConfig.Password bitcoin) EmptyString
        then (Return (Some (Errorf "rpc user and password required when chainconn is set")),
              config)
        else if BitcoinConfig.UseTLS bitcoin
                && String.eqb (BitcoinConfig.TLSPath bitcoin) EmptyString
        then (Return (Some (Errorf "bitcoin.tlspath required when chainconn is set")),
              config)
        else ValidateConfig_lnd config
    end
  else ValidateConfig_lnd config.

(** The part of [ValidateConfig] on the directory and the three paths
    that it overrides, and what follows it. *)
Definition ValidateConfig_paths (config : Config.t) : ending * Config.t :=
  let faradayDirSet := differ (Config.FaradayDir config) FaradayDirBase in
  let tlsCertPathSet := differ (Config.TLSCertPath config) DefaultTLSCertPath in
  let tlsKeyPathSet := differ (Config.TLSKeyPath config) DefaultTLSKeyPath in
  let macaroonPathSet := differ (Config.MacaroonPath config) DefaultMacaroonPath in
  if faradayDirSet && tlsCertPathSet then
    (Return (Some (Errorf "faradaydir overwrites tlscertpath, please only set one value")),
     config)
  else if faradayDirSet && tlsKeyPathSet then
    (Return (Some (Errorf "faradaydir overwrites tlskeypath, please only set one value")),
     config)
  else if faradayDirSet && macaroonPathSet then
    (Return (Some (Errorf "faradaydir overwrites macaroonpath, please only set one value")),
     config)
  else
    let config :=
      if String.eqb (Config.TLSCertPath config) DefaultTLSCertPath
      then Config.set_TLSCertPath
             (filepath_Join [Config.FaradayDir config; DefaultTLSCertFilename]) config
      else config in
    let config :=
      if String.eqb (Config.TLSKeyPath config) DefaultTLSKeyPath
      then Config.set_TLSKeyPath
             (filepath_Join [Config.FaradayDir config; DefaultTLSKeyFilename]) config
      else config in
    let config :=
      if String.eqb (Config.MacaroonPath config) DefaultMacaroonPath
      then Config.set_MacaroonPath
             (filepath_Join [Config.FaradayDir config; DefaultMacaroonFilename]) config
      else config in
    ValidateConfig_chain config.

(** The first assignments of [ValidateConfig]: the four paths cleaned, and
    the network appended to the directory. *)
Definition ValidateConfig_clean (config : Config.t) : Config.t :=
  let config :=
    Config.set_FaradayDir (CleanAndExpandPath (Config.FaradayDir config)) config in
  let config :=
    Config.set_TLSCertPath (CleanAndExpandPath (Config.TLSCertPath config)) config in
  let config :=
    Config.set_TLSKeyPath (CleanAndExpandPath (Config.TLSKeyPath config)) config in
  let config :=
    Config.set_MacaroonPath (CleanAndExpandPath (Config.MacaroonPath config)) config in
  Config.set_FaradayDir
    (filepath_Join [Config.FaradayDir config; Config.Network config]) config.

(** [ValidateConfig(config)]: how the call ends, the configuration and
    the file system it leaves behind. *)
Definition ValidateConfig (config : Config.t) (fs : FS) : ending * Config.t * FS :=
  match ChainParams (Config.Network config) with
  | Some err => (Return (Some (Errorf ("error validating network: " +:+ err))), config, fs)
  | None =>
      let config := ValidateConfig_clean config in
      match MkdirAll fs (Config.FaradayDir config) with
      | (Some err, fs) => (Return (Some err), config, fs)
      | (None, fs) =>
          let '(r, config) := ValidateConfig_paths config in (r, config, fs)
      end
  end.

End Configuration.

End faraday.

(** ** Further inputs *)

(** What [GetPrices] returns for the two days of the reference heap. *)
Definition twoDays : gmap time.Time USDPrice :=
  <[ref.day16 := mkUSDPrice ref.day16 (decimal.mkDecimal 101 (-1))]>
    (<[ref.day17 := mkUSDPrice ref.day17 (decimal.mkDecimal 1 4)]> ∅).

(** A response whose second date is no calendar date. *)
Definition badBody : string :=
  "{" +:+ String ref.dq "bpi" +:+ String ref.dq ":{"
  +:+ String ref.dq "2021-04-16" +:+ String ref.dq ":10.1,"
  +:+ String ref.dq "2021-04-31" +:+ String ref.dq ":10000}}".

Definition badResponse : coinDeskResponse ref.float64 :=
  mkResponse (<["2021-04-16" := decimal.mkDecimal 101 (-1)]>
                (<["2021-04-31" := decimal.mkDecimal 1 4]> ∅)).

(** A configuration that is the default one but for the path of the
    certificate. *)
Definition customCert : faraday.Config.t :=
  faraday.Config.set_TLSCertPath "/etc/faraday/tls.cert"
    (faraday.DefaultConfig (H := faraday.refSystem)).

(** ** Proof steps *)

(** Reduction of the monad operations of [result]. *)
Ltac simplR := cbn [mbind result_bind bindR orPanic].

(** Sortedness of a list that is written out. *)
Ltac sorted_list :=
  repeat first [ apply Sorted_nil | apply HdRel_nil | apply Sorted_cons | apply HdRel_cons ];
  first [ apply Z.leb_le | apply Z.ltb_lt ]; vm_compute; reflexivity.

(** * Properties *)

(** ** Stable sorting *)
Section SliceStableFacts.

Context {A : Type} (key : A -> Z).

Let less (a b : A) : bool := key a <? key b.
Let le_key (a b : A) : Prop := key a <= key b.

Lemma insert_perm x l : Permutation (x :: l) (sort.insert less x l).
Proof.
  induction l as [|y r IH]; simpl; [reflexivity|].
  destruct (less y x); [|reflexivity].
  rewrite perm_swap. constructor. exact IH.
Qed.

Lemma insert_HdRel a x l :
  le_key a x -> HdRel le_key a l -> HdRel le_key a (sort.insert less x l).
Proof.
  intros Hax Hal. destruct l as [|y r]; simpl; [constructor; exact Hax|].
  destruct (less y x); constructor; [inversion Hal; assumption | exact Hax].
Qed.

Lemma insert_sorted x l : Sorted le_key l -> Sorted le_key (sort.insert less x l).
Proof.
  induction 1 as [|y r Hr IH Hhd]; simpl; [repeat constructor|].
  unfold less at 1. destruct (Z.ltb_spec (key y) (key x)) as [Hlt|Hge].
  - constructor; [exact IH|]. apply insert_HdRel; [unfold le_key; lia | exact Hhd].
  - constructor; [constructor; assumption|]. constructor. exact Hge.
Qed.

Lemma SliceStable_perm l : Permutation l (sort.SliceStable less l).
Proof.
  induction l as [|x r IH]; simpl; [reflexivity|].
  rewrite <- insert_perm. constructor. exact IH.
Qed.

Lemma SliceStable_sorted l : Sorted le_key (sort.SliceStable less l).
Proof.
  induction l as [|x r IH]; simpl; [constructor|]. apply insert_sorted, IH.
Qed.

Lemma insert_filter_key v x l :
  List.filter (fun a => key a =? v) (sort.insert less x l) =
  List.filter (fun a => key a =? v) (x :: l).
Proof.
  induction l as [|y r IH]; [reflexivity|].
  simpl sort.insert. unfold less at 1.
  destruct (Z.ltb_spec (key y) (key x)) as [Hlt|Hge]; [|reflexivity].
  simpl in *. rewrite IH.
  destruct (Z.eqb_spec (key y) v), (Z.eqb_spec (key x) v); try reflexivity; lia.
Qed.

Lemma SliceStable_stable v l :
  List.filter (fun a => key a =? v) (sort.SliceStable less l) =
  List.filter (fun a => key a =? v) l.
Proof.
  induction l as [|x r IH]; [reflexivity|].
  simpl sort.SliceStable. rewrite insert_filter_key. simpl. rewrite IH. reflexivity.
Qed.

Lemma insert_sorted_id x l :
  Sorted le_key (x :: l) -> sort.insert less x l = x :: l.
Proof.
  intros Hs. destruct l as [|y r]; [reflexivity|]. simpl. unfold less.
  inversion Hs as [|? ? _ Hhd]; subst. inversion Hhd; subst. unfold le_key in *.
  destruct (Z.ltb_spec (key y) (key x)); [lia|reflexivity].
Qed.

Lemma SliceStable_sorted_id l :
  Sorted le_key l -> sort.SliceStable less l = l.
Proof.
  induction l as [|x r IH]; intros Hs; [reflexivity|].
  simpl. rewrite IH by (inversion Hs; assumption). apply insert_sorted_id, Hs.
Qed.

Lemma sorted_filter_lt x l v :
  Sorted (fun a b => key a <= key b) (x :: l) -> v < key x ->
  List.filter (fun a => key a =? v) (x :: l) = [].
Proof.
  intros Hs Hv. apply Sorted_StronglySorted in Hs; [|intros a b c; lia].
  assert (Hall : List.Forall (fun a => v < key a) (x :: l)).
  { inversion Hs as [|? ? _ Hall]; subst. constructor; [exact Hv|].
    rewrite List.Forall_forall in *. intros a Ha. specialize (Hall a Ha). lia. }
  clear Hs. induction Hall as [|a r Ha _ IH]; [reflexivity|].
  simpl. destruct (Z.eqb_spec (key a) v); [lia|exact IH].
Qed.

(** Two sorted lists that hold, for each key, the same elements in the
    same order are equal: the result of a stable sort is determined. *)
Lemma stable_sort_unique l1 : forall l2,
  Sorted (fun a b => key a <= key b) l1 ->
  Sorted (fun a b => key a <= key b) l2 ->
  (forall v, List.filter (fun a => key a =? v) l1 = List.filter (fun a => key a =? v) l2) ->
  l1 = l2.
Proof.
  induction l1 as [|x r1 IH]; intros l2 Hs1 Hs2 Hf.
  - destruct l2 as [|y r2]; [reflexivity|].
    specialize (Hf (key y)). simpl in Hf. rewrite Z.eqb_refl in Hf. discriminate.
  - destruct l2 as [|y r2].
    { specialize (Hf (key x)). simpl in Hf. rewrite Z.eqb_refl in Hf. discriminate. }
    assert (Hk : key x = key y).
    { destruct (Z.lt_trichotomy (key x) (key y)) as [Hlt|[Heq|Hgt]]; [|exact Heq|].
      - specialize (Hf (key x)). rewrite (sorted_filter_lt y r2 (key x) Hs2 Hlt) in Hf.
        simpl in Hf. rewrite Z.eqb_refl in Hf. discriminate.
      - specialize (Hf (key y)). rewrite (sorted_filter_lt x r1 (key y) Hs1 Hgt) in Hf.
        simpl in Hf. rewrite Z.eqb_refl in Hf. discriminate. }
    assert (Hxy : x = y).
    { specialize (Hf (key x)). simpl in Hf. rewrite <- Hk, Z.eqb_refl in Hf.
      injection Hf as Hxy _. exact Hxy. }
    subst y. f_equal. apply IH.
    + inversion Hs1; assumption.
    + inversion Hs2; assumption.
    + intros v. specialize (Hf v). simpl in Hf.
      destruct (key x =? v); [injection Hf as Hf|]; exact Hf.
Qed.

(** Whatever stable sorting algorithm runs, the slice it leaves is the one
    of [sort.SliceStable]. *)
Lemma SliceStable_unique l l' :
  Sorted (fun a b => key a <= key b) l' ->
  (forall v, List.filter (fun a => key a =? v) l' = List.filter (fun a => key a =? v) l) ->
  l' = sort.SliceStable less l.
Proof.
  intros Hs Hf. apply stable_sort_unique; [exact Hs | apply SliceStable_sorted |].
  intros v. rewrite Hf. symmetry. apply SliceStable_stable.
Qed.

End SliceStableFacts.

Lemma SliceStable_Before_sorted l : ascendingTimes (sort.SliceStable time.Before l).
Proof. apply (SliceStable_sorted time.unixNano). Qed.

Lemma SliceStable_lessTimestamp_ascending l :
  ascending (sort.SliceStable lessTimestamp l).
Proof. apply (SliceStable_sorted at_ns). Qed.

(** ** Slices in the heap *)

Lemma backing_assign h s l :
  backing (assign h s l) s =
  take (offset s) (backing h s) ++ l ++ drop (offset s + len s) (backing h s).
Proof. unfold backing at 1, assign. rewrite lookup_insert_eq. reflexivity. Qed.

Lemma elements_length h s : valid h s -> length (elements h s) = len s.
Proof.
  unfold valid, elements. intros Hv. rewrite length_take, length_drop. lia.
Qed.

Lemma elements_assign h s l :
  valid h s -> length l = len s -> elements (assign h s l) s = l.
Proof.
  unfold valid. intros Hv Hl. unfold elements. rewrite backing_assign.
  rewrite drop_app_length' by (rewrite length_take; lia).
  rewrite take_app_length' by (symmetry; exact Hl). reflexivity.
Qed.

Lemma assign_other h s l a : a <> array s -> assign h s l !! a = h !! a.
Proof. intros Ha. unfold assign. apply lookup_insert_ne. congruence. Qed.

Lemma assign_outside h s l :
  valid h s -> length l = len s ->
  take (offset s) (backing (assign h s l) s) = take (offset s) (backing h s) /\
  drop (offset s + len s) (backing (assign h s l) s) =
    drop (offset s + len s) (backing h s).
Proof.
  unfold valid. intros Hv Hl. rewrite backing_assign. split.
  - rewrite take_app_length' by (rewrite length_take; lia). reflexivity.
  - rewrite app_assoc. rewrite drop_app_length'; [reflexivity|].
    rewrite length_app, length_take. lia.
Qed.

Lemma SliceStable_length {A : Type} (less : A -> A -> bool) l :
  length (sort.SliceStable less l) = length l.
Proof.
  induction l as [|x r IH]; [reflexivity|]. simpl. rewrite <- IH.
  generalize (sort.SliceStable less r). clear. intros l.
  induction l as [|y l IHl]; [reflexivity|]. simpl.
  destruct (less y x); simpl; [rewrite IHl|]; reflexivity.
Qed.

Lemma elements_SliceStable_inplace less s h :
  valid h s ->
  elements (SliceStable_inplace less s h) s = sort.SliceStable less (elements h s).
Proof.
  intros Hv. unfold SliceStable_inplace. apply elements_assign; [exact Hv|].
  rewrite SliceStable_length. apply elements_length, Hv.
Qed.

(** ** Point lookup *)

Lemma ascending_cons_inv p rest :
  ascending (p :: rest) ->
  ascending rest /\ Forall (fun q => at_ns p <= at_ns q) rest.
Proof.
  intros Hs. split.
  - inversion Hs; assumption.
  - apply Sorted_StronglySorted in Hs.
    + inversion Hs; assumption.
    + intros a b c Hab Hbc. lia.
Qed.

Lemma last_cons_default {A : Type} (l : list A) : forall x d,
  List.last (x :: l) d = List.last l x.
Proof.
  induction l as [|a l IHl]; intros x d; [reflexivity|].
  change (List.last (x :: a :: l) d) with (List.last (a :: l) d).
  rewrite (IHl a d), (IHl a x). reflexivity.
Qed.

Lemma GetPrice_loop_split prices : forall timestamp lastPrice,
  ascending prices ->
  exists l1 l2, prices = l1 ++ l2 /\
    Forall (fun p => at_ns p <= time.unixNano timestamp) l1 /\
    Forall (fun p => time.unixNano timestamp < at_ns p) l2 /\
    GetPrice_loop prices timestamp lastPrice = List.last (map Some l1) lastPrice.
Proof.
  induction prices as [|p rest IH]; intros t lp Hs.
  - exists [], []. repeat split; constructor.
  - apply ascending_cons_inv in Hs as [Hs' Hle].
    simpl. unfold time.Before.
    destruct (Z.ltb_spec (time.unixNano t) (time.unixNano (Timestamp p))) as [Hlt|Hge].
    + exists [], (p :: rest). split; [reflexivity|]. split; [constructor|].
      split; [|reflexivity].
      constructor; [exact Hlt|].
      eapply Forall_impl; [exact Hle|]. unfold at_ns. intros q Hq. simpl in Hq. lia.
    + destruct (IH t (Some p) Hs') as (l1 & l2 & -> & H1 & H2 & H3).
      exists (p :: l1), l2. split; [reflexivity|].
      split; [constructor; assumption|]. split; [assumption|].
      rewrite H3. simpl map. rewrite last_cons_default. reflexivity.
Qed.

Lemma last_map_Some_snoc (l : list USDPrice) p d :
  List.last (map Some (l ++ [p])) d = Some p.
Proof.
  rewrite map_app. simpl. apply last_last.
Qed.

Lemma ascending_before_le l1 p l2 q :
  ascending (l1 ++ p :: l2) -> In q l1 -> at_ns q <= at_ns p.
Proof.
  induction l1 as [|a l1 IHl]; intros Hasc Hq; [destruct Hq|].
  apply ascending_cons_inv in Hasc as [Hasc Hall].
  destruct Hq as [->|Hq]; [|auto].
  rewrite List.Forall_forall in Hall. apply Hall, in_elt.
Qed.

Lemma strictly_ascending_inj S p q :
  strictly_ascending S -> In p S -> In q S -> at_ns p = at_ns q -> p = q.
Proof.
  intros Hs. apply Sorted_StronglySorted in Hs; [|intros a b c; lia].
  induction Hs as [|a S Hss IHS Hall]; intros Hp Hq Heq; [destruct Hp|].
  rewrite List.Forall_forall in Hall.
  destruct Hp as [->|Hp], Hq as [->|Hq]; auto.
  - specialize (Hall q Hq). lia.
  - specialize (Hall p Hp). lia.
Qed.

(** C1. For a non-empty series in ascending order of time and a time [t]
    that is not before the first point, [GetPrice] returns the last point
    of the series that is not after [t]: every point up to it is at or
    before [t], every point behind it is after [t], so its time is the
    greatest one not after [t]. In particular, when [t] is the time of a
    point of the series, the returned point has that very time, and it is
    that point when no two points share a time. *)
Theorem GetPrice_greatest_not_after (series : list USDPrice) (t : time.Time)
    (first : USDPrice) (rest : list USDPrice) :
  series = first :: rest ->
  ascending series ->
  time.Before t (Timestamp first) = false ->
  exists p l1 l2,
    GetPrice series t = Ok p /\
    series = l1 ++ p :: l2 /\
    Forall (fun q => at_ns q <= time.unixNano t) (l1 ++ [p]) /\
    Forall (fun q => time.unixNano t < at_ns q) l2 /\
    In p series /\
    at_ns p <= time.unixNano t /\
    (forall q, In q series -> at_ns q <= time.unixNano t -> at_ns q <= at_ns p) /\
    (forall q, In q series -> at_ns q = time.unixNano t -> at_ns p = time.unixNano t) /\
    (strictly_ascending series -> forall q, In q series -> at_ns q = time.unixNano t -> p = q).
Proof.
  intros HS Hasc Hfirst.
  destruct (GetPrice_loop_split series t None Hasc) as (k1 & l2 & Hsplit & H1 & H2 & Hloop).
  assert (Hk1 : k1 <> []).
  { intros ->. simpl in Hsplit. subst l2. rewrite HS in H2. inversion H2; subst.
    unfold time.Before, at_ns in *. lia. }
  destruct (exists_last Hk1) as (l1 & p & ->).
  exists p, l1, l2.
  assert (HSeq : series = l1 ++ p :: l2) by (rewrite Hsplit, <- app_assoc; reflexivity).
  assert (Hp : at_ns p <= time.unixNano t).
  { rewrite Forall_app in H1. destruct H1 as [_ H1]. inversion H1; assumption. }
  assert (Hin : In p series) by (rewrite HSeq; apply in_elt).
  assert (Hmax : forall q, In q series -> at_ns q <= time.unixNano t -> at_ns q <= at_ns p).
  { intros q Hq Hqt. rewrite HSeq in Hq, Hasc.
    apply in_app_or in Hq as [Hq|[->|Hq]]; [|lia|].
    - eapply ascending_before_le; eassumption.
    - rewrite List.Forall_forall in H2. specialize (H2 q Hq). lia. }
  split.
  { unfold GetPrice. rewrite HS at 1. simpl length. cbn [Nat.eqb].
    rewrite Hloop, last_map_Some_snoc. reflexivity. }
  split; [exact HSeq|]. split; [exact H1|]. split; [exact H2|].
  split; [exact Hin|]. split; [exact Hp|]. split; [exact Hmax|].
  split.
  { intros q Hq Hqt. specialize (Hmax q Hq). lia. }
  intros Hstrict q Hq Hqt.
  apply (strictly_ascending_inj series); auto.
  specialize (Hmax q Hq). lia.
Qed.

Lemma GetPrice_loop_Some prices : forall t p,
  exists q, GetPrice_loop prices t (Some p) = Some q.
Proof.
  induction prices as [|x r IH]; intros t p; simpl; [eauto|].
  destruct (time.Before t (Timestamp x)); eauto.
Qed.

(** C3. [GetPrice] fails in exactly two cases: on the empty series, with
    the error for missing price data, whatever the time; and on a
    non-empty series when the time is before the first point, with the
    out of range error. In every other case it returns a point, and it
    never panics. None of this needs the series to be sorted, so it holds
    for the sorted ones. *)
Theorem GetPrice_fails_in_two_cases (t : time.Time) :
  GetPrice [] t = Err errNoPrices /\
  (forall first rest,
     time.Before t (Timestamp first) = true ->
     GetPrice (first :: rest) t = Err errPriceOutOfRange) /\
  (forall first rest,
     time.Before t (Timestamp first) = false ->
     exists p, GetPrice (first :: rest) t = Ok p) /\
  (forall series,
     match GetPrice series t with
     | Ok p => exists first rest,
         series = first :: rest /\ time.Before t (Timestamp first) = false
     | Err e =>
         (series = [] /\ e = errNoPrices) \/
         (exists first rest,
            series = first :: rest /\ time.Before t (Timestamp first) = true /\
            e = errPriceOutOfRange)
     | Panic => False
     end).
Proof.
  assert (Hbefore : forall first rest,
            time.Before t (Timestamp first) = true ->
            GetPrice (first :: rest) t = Err errPriceOutOfRange).
  { intros first rest Hb. unfold GetPrice. simpl. rewrite Hb. reflexivity. }
  assert (Hafter : forall first rest,
            time.Before t (Timestamp first) = false ->
            exists p, GetPrice (first :: rest) t = Ok p).
  { intros first rest Hb. unfold GetPrice. simpl. rewrite Hb.
    destruct (GetPrice_loop_Some rest t first) as [q ->]. eauto. }
  split; [reflexivity|]. split; [exact Hbefore|]. split; [exact Hafter|].
  intros [|first rest]; [left; split; reflexivity|].
  destruct (time.Before t (Timestamp first)) eqn:Hb.
  - rewrite (Hbefore first rest Hb). right. exists first, rest.
    split; [reflexivity|]. split; [exact Hb|reflexivity].
  - destruct (Hafter first rest Hb) as [p ->]. exists first, rest.
    split; [reflexivity|exact Hb].
Qed.

(** ** Unit conversion *)

Lemma roundQuot_bound aa bb : 0 < bb -> 2 * Z.abs (roundQuot aa bb * bb - aa) <= bb.
Proof.
  intros Hb. unfold roundQuot.
  pose proof (Z.quot_rem' aa bb) as Hqr.
  set (q := Z.quot aa bb) in *. set (r := Z.rem aa bb) in *.
  assert (Hr : (0 <= aa -> 0 <= r < bb) /\ (aa <= 0 -> - bb < r <= 0)).
  { split; intros Ha.
    - apply Z.rem_bound_pos; lia.
    - subst r. destruct (Z.eq_dec aa 0) as [->|Hne].
      + rewrite Z.rem_0_l; lia.
      + apply Z.rem_bound_pos_neg; lia. }
  destruct (Z.ltb_spec (2 * Z.abs r) bb) as [Hlt|Hge].
  - replace (q * bb - aa) with (- r) by lia. lia.
  - destruct (Z.ltb_spec aa 0) as [Hneg|Hpos].
    + replace ((q - 1) * bb - aa) with (- bb - r) by lia. lia.
    + replace ((q + 1) * bb - aa) with (bb - r) by lia. lia.
Qed.

Lemma int32_small x : -2147483648 <= x <= 2147483647 -> int32 x = x.
Proof.
  intros H. unfold int32.
  change (2 ^ 31) with 2147483648. change (2 ^ 32) with 4294967296.
  rewrite Z.mod_small; lia.
Qed.

Lemma Cmp_same_exp v1 v2 e :
  decimal.Cmp (decimal.mkDecimal v1 e) (decimal.mkDecimal v2 e) =
  match v1 ?= v2 with Lt => -1 | Eq => 0 | Gt => 1 end.
Proof.
  unfold decimal.Cmp, decimal.RescalePair. cbn [decimal.value decimal.exp].
  rewrite Z.eqb_refl. reflexivity.
Qed.

Lemma Cmp_neg_exp v1 v2 e : e < 0 ->
  decimal.Cmp (decimal.mkDecimal v1 e) (decimal.mkDecimal v2 0) =
  match v1 ?= v2 * 10 ^ (- e) with Lt => -1 | Eq => 0 | Gt => 1 end.
Proof.
  intros He. unfold decimal.Cmp, decimal.RescalePair, decimal.rescale.
  cbn [decimal.value decimal.exp].
  destruct (Z.eqb_spec e 0); [lia|].
  replace (Z.min e 0) with e by lia. rewrite Z.eqb_refl. cbn [negb].
  destruct (Z.eqb_spec 0 e); [lia|].
  destruct (Z.ltb_spec 0 e); [lia|].
  cbn [decimal.value]. replace (Z.abs (e - 0)) with (- e) by lia. reflexivity.
Qed.

Lemma AddSub_same_exp v1 v2 e :
  decimal.Add (decimal.mkDecimal v1 e) (decimal.New v2 e) = decimal.mkDecimal (v1 + v2) e /\
  decimal.Sub (decimal.mkDecimal v1 e) (decimal.New v2 e) = decimal.mkDecimal (v1 - v2) e.
Proof.
  unfold decimal.Add, decimal.Sub, decimal.New, decimal.RescalePair.
  cbn [decimal.value decimal.exp]. rewrite Z.eqb_refl. split; reflexivity.
Qed.

Lemma cmp_ltb_0 x y :
  (match x ?= y with Lt => -1 | Eq => 0 | Gt => 1 end <? 0) = (x <? y).
Proof.
  destruct (Z.compare_spec x y), (Z.ltb_spec x y); try reflexivity; lia.
Qed.

Lemma Div_hundred_billion price :
  decimal.wf price -> decimal.exp price <= decimal.MaxInt32 - 16 ->
  decimal.Div price (decimal.NewFromInt 100000000000) =
  Some (decimal.mkDecimal (roundQuot (fst (divOperands price)) (snd (divOperands price))) (-16)).
Proof.
  intros [Hlo Hhi] Hexp. destruct price as [a pe].
  unfold decimal.MaxInt32, decimal.MinInt32 in *. cbn [decimal.exp] in *.
  unfold decimal.Div, decimal.DivRound, decimal.QuoRem, decimal.DivisionPrecision,
    divOperands, decimal.NewFromInt, decimal.Abs.
  cbn [decimal.value decimal.exp].
  change (100000000000 =? 0) with false. cbv iota.
  change (int32 (- (16))) with (-16).
  replace (pe - 0 - -16) with (pe + 16) by lia.
  unfold decimal.MaxInt32, decimal.MinInt32.
  destruct (Z.gtb_spec (pe + 16) 2147483647); [lia|].
  destruct (Z.ltb_spec (pe + 16) (-2147483648)); [lia|]. cbn [orb].
  change (Z.abs 100000000000) with 100000000000.
  change (Z.sgn 100000000000) with 1. rewrite Z.mul_1_r.
  destruct (Z.ltb_spec (pe + 16) 0) as [He|He]; cbn [fst snd decimal.value decimal.exp].
  - (* the dividend is kept, the divisor is scaled *)
    set (bb := 100000000000 * 10 ^ (- (pe + 16))).
    rewrite (int32_small (pe + 16)) by lia.
    rewrite Cmp_neg_exp by lia. fold bb. rewrite cmp_ltb_0.
    rewrite Z.shiftl_mul_pow2 by lia. change (2 ^ 1) with 2.
    destruct (AddSub_same_exp (Z.quot a bb) 1 (-16)) as [-> ->].
    unfold roundQuot.
    replace (Z.abs (Z.rem a bb) * 2) with (2 * Z.abs (Z.rem a bb)) by lia.
    destruct (2 * Z.abs (Z.rem a bb) <? bb); [reflexivity|].
    destruct (Z.ltb_spec (Z.sgn a) 0), (Z.ltb_spec a 0); try lia; reflexivity.
  - (* the dividend is scaled *)
    change (int32 (-16 + 0)) with (-16). change (int32 (-16 + 16)) with 0.
    set (aa := a * 10 ^ (pe + 16)).
    assert (Hp : 0 < 10 ^ (pe + 16)) by (apply Z.pow_pos_nonneg; lia).
    rewrite Cmp_same_exp, cmp_ltb_0.
    rewrite Z.shiftl_mul_pow2 by lia. change (2 ^ 1) with 2.
    destruct (AddSub_same_exp (Z.quot aa 100000000000) 1 (-16)) as [-> ->].
    unfold roundQuot.
    replace (Z.abs (Z.rem aa 100000000000) * 2) with (2 * Z.abs (Z.rem aa 100000000000)) by lia.
    destruct (2 * Z.abs (Z.rem aa 100000000000) <? 100000000000); [reflexivity|].
    subst aa.
    destruct (Z.ltb_spec (Z.sgn a) 0), (Z.ltb_spec (a * 10 ^ (pe + 16)) 0); try reflexivity; nia.
Qed.

Local Open Scope Q_scope.

Lemma ten_neq_0 : ~ ten == 0.
Proof. discriminate. Qed.

Lemma ten_pow_pos n : 0 < ten ^ n.
Proof. apply Qpower_0_lt. reflexivity. Qed.

Lemma ten_pow_neq_0 n : ~ ten ^ n == 0.
Proof. apply Qpower_not_0, ten_neq_0. Qed.

Lemma inject_Z_pow10 n : (0 <= n)%Z -> inject_Z (10 ^ n) == ten ^ n.
Proof. intros Hn. apply (Zpower_Qpower 10 n Hn). Qed.

(** The difference between the rounded quotient at 16 places and the true
    quotient, as a fraction over the divisor of [QuoRem]. *)
Lemma quot_error (price : decimal.Decimal) (k : Z) :
  let aa := fst (divOperands price) in
  let bb := snd (divOperands price) in
  inject_Z k * ten ^ (-16) - decimal.toQ price / inject_Z 100000000000
  == inject_Z (k * bb - aa) / (inject_Z bb * ten ^ 16).
Proof.
  destruct price as [a pe]. unfold divOperands, decimal.toQ.
  cbn [decimal.value decimal.exp]. fold ten.
  pose proof (ten_pow_neq_0 pe) as HX. pose proof (ten_pow_neq_0 16) as HY.
  assert (HC : ~ inject_Z 100000000000 == 0) by discriminate.
  rewrite (Qpower_opp ten 16).
  destruct (Z.ltb_spec (pe + 16) 0) as [He|He]; cbn [fst snd]; cbv zeta.
  - unfold Zminus. rewrite inject_Z_plus, inject_Z_opp, !inject_Z_mult.
    rewrite (inject_Z_pow10 (- (pe + 16))) by lia.
    rewrite (Qpower_opp ten (pe + 16)), (Qpower_plus ten pe 16 ten_neq_0).
    field. repeat split; first [assumption | exact ten_neq_0].
  - unfold Zminus. rewrite inject_Z_plus, inject_Z_opp, !inject_Z_mult.
    rewrite (inject_Z_pow10 (pe + 16)) by lia.
    rewrite (Qpower_plus ten pe 16 ten_neq_0).
    field. repeat split; first [assumption | exact ten_neq_0].
Qed.

Lemma divOperands_pos price : (0 < snd (divOperands price))%Z.
Proof.
  unfold divOperands. cbv zeta.
  destruct (Z.ltb_spec (decimal.exp price + 16) 0%Z); cbn [snd]; [|reflexivity].
  apply Z.mul_pos_pos; [lia|]. apply Z.pow_pos_nonneg; lia.
Qed.

Lemma roundQuot_error price :
  Qabs (inject_Z (roundQuot (fst (divOperands price)) (snd (divOperands price))) * ten ^ (-16)
        - decimal.toQ price / inject_Z 100000000000)
  <= 1 # 20000000000000000.
Proof.
  set (aa := fst (divOperands price)). set (bb := snd (divOperands price)).
  set (k := roundQuot aa bb).
  assert (Hbb : (0 < bb)%Z) by apply divOperands_pos.
  pose proof (roundQuot_bound aa bb Hbb) as Hk. fold k in Hk.
  assert (HbbQ : inject_Z 0 < inject_Z bb) by (rewrite <- (Zlt_Qlt 0 bb); exact Hbb).
  change (inject_Z 0) with 0 in HbbQ.
  pose proof (ten_pow_pos 16) as HY.
  assert (HP : 0 < inject_Z bb * ten ^ 16) by (apply Qmult_lt_0_compat; assumption).
  rewrite (quot_error price k). fold aa bb.
  unfold Qdiv. rewrite Qabs_Qmult.
  rewrite (Qabs_pos (/ (inject_Z bb * ten ^ 16))) by (apply Qinv_le_0_compat, Qlt_le_weak, HP).
  change (Qabs (inject_Z (k * bb - aa))) with (inject_Z (Z.abs (k * bb - aa))).
  apply Qle_shift_div_r; [exact HP|].
  assert (Hhalf : (1 # 20000000000000000) * (inject_Z bb * ten ^ 16)
                  == inject_Z bb / inject_Z 2) by (unfold ten; field).
  rewrite Hhalf.
  apply Qle_shift_div_l; [reflexivity|].
  rewrite <- inject_Z_mult, <- Zle_Qle. lia.
Qed.

Local Open Scope Z_scope.

Lemma int64_small x : - 2 ^ 63 <= x < 2 ^ 63 -> int64 x = x.
Proof.
  intros H. unfold int64. rewrite Z.mod_small; lia.
Qed.

Lemma MsatToUSD_value price amt :
  decimal.wf price -> decimal.exp price <= decimal.MaxInt32 - 16 ->
  MsatToUSD price amt =
  Some (decimal.mkDecimal
          (roundQuot (fst (divOperands price)) (snd (divOperands price)) * int64 amt) (-16)).
Proof.
  intros Hwf Hexp. unfold MsatToUSD.
  rewrite (Div_hundred_billion price Hwf Hexp). reflexivity.
Qed.

Lemma roundQuot_exact price :
  -5 <= decimal.exp price ->
  roundQuot (fst (divOperands price)) (snd (divOperands price)) =
  decimal.value price * 10 ^ (decimal.exp price + 5).
Proof.
  intros He. destruct price as [a pe]. unfold divOperands. cbn [decimal.value decimal.exp] in *.
  destruct (Z.ltb_spec (pe + 16) 0); [lia|]. cbn [fst snd].
  replace (pe + 16) with ((pe + 5) + 11) by lia.
  rewrite Z.pow_add_r by lia. change (10 ^ 11) with 100000000000.
  rewrite Z.mul_assoc. unfold roundQuot.
  rewrite Z.rem_mul by lia. rewrite Z.quot_mul by lia. reflexivity.
Qed.

Local Open Scope Q_scope.

(** C4, amended. For a price whose exponent leaves room for 16 decimal
    places and an amount below [2^63], [MsatToUSD] returns the product,
    computed exactly, of the amount and of the price per millisatoshi;
    the latter is [price / 10^11] rounded to 16 decimal places, so it is
    within half a unit of the sixteenth place of the quotient. When the
    price has at most five decimal places the division is exact and the
    result is [price / 10^11 * amt]. *)
Theorem MsatToUSD_rounds_price_per_msat (price : decimal.Decimal) (amt : Z) :
  decimal.wf price ->
  (decimal.exp price <= decimal.MaxInt32 - 16)%Z ->
  (0 <= amt < 2 ^ 63)%Z ->
  exists pricePerMSat usd : decimal.Decimal,
    decimal.Div price (decimal.NewFromInt 100000000000) = Some pricePerMSat /\
    MsatToUSD price amt = Some usd /\
    decimal.toQ usd == decimal.toQ pricePerMSat * inject_Z amt /\
    Qabs (decimal.toQ pricePerMSat - decimal.toQ price / inject_Z (10 ^ 11))
      <= 1 # (2 * 10 ^ 16) /\
    ((-5 <= decimal.exp price)%Z ->
     decimal.toQ usd == decimal.toQ price / inject_Z (10 ^ 11) * inject_Z amt).
Proof.
  intros Hwf Hexp Hamt.
  set (k := roundQuot (fst (divOperands price)) (snd (divOperands price))).
  exists (decimal.mkDecimal k (-16)), (decimal.mkDecimal (k * amt) (-16)).
  split; [apply Div_hundred_billion; assumption|].
  split; [rewrite (MsatToUSD_value price amt Hwf Hexp), int64_small by lia; reflexivity|].
  assert (Hmul : decimal.toQ (decimal.mkDecimal (k * amt) (-16))
                 == decimal.toQ (decimal.mkDecimal k (-16)) * inject_Z amt).
  { unfold decimal.toQ. cbn [decimal.value decimal.exp]. rewrite inject_Z_mult. ring. }
  split; [exact Hmul|].
  split; [apply roundQuot_error|].
  intros He. rewrite Hmul. apply Qmult_comp; [|reflexivity].
  unfold decimal.toQ. cbn [decimal.value decimal.exp]. subst k.
  rewrite (roundQuot_exact price He), inject_Z_mult.
  rewrite (inject_Z_pow10 (decimal.exp price + 5)) by lia.
  rewrite (Qpower_plus ten (decimal.exp price) 5 ten_neq_0).
  change (10 # 1) with ten. change (10 ^ 11)%Z with 100000000000%Z.
  pose proof (ten_pow_neq_0 (decimal.exp price)).
  unfold ten in *.
  change ((10 # 1) ^ (-16)) with (/ (10 # 1) ^ 16). field.
Qed.

Lemma MsatToUSD_rounds_price_per_msat_witness :
  exists pricePerMSat usd : decimal.Decimal,
    decimal.Div (decimal.NewFromInt 20000) (decimal.NewFromInt 100000000000) = Some pricePerMSat /\
    MsatToUSD (decimal.NewFromInt 20000) 100000 = Some usd /\
    decimal.toQ usd == decimal.toQ pricePerMSat * inject_Z 100000 /\
    Qabs (decimal.toQ pricePerMSat - decimal.toQ (decimal.NewFromInt 20000) / inject_Z (10 ^ 11))
      <= 1 # (2 * 10 ^ 16) /\
    ((-5 <= decimal.exp (decimal.NewFromInt 20000))%Z ->
     decimal.toQ usd == decimal.toQ (decimal.NewFromInt 20000) / inject_Z (10 ^ 11) * inject_Z 100000).
Proof.
  apply (MsatToUSD_rounds_price_per_msat (decimal.NewFromInt 20000) 100000).
  - unfold decimal.wf, decimal.MinInt32, decimal.MaxInt32. simpl. lia.
  - unfold decimal.MaxInt32. simpl. lia.
  - lia.
Defined.

(** The example of the specification: 20000 dollars a bitcoin, 100000
    millisatoshi, two cents. *)
Example MsatToUSD_20000_100000 :
  MsatToUSD (decimal.NewFromInt 20000) 100000 = Some (decimal.mkDecimal 200000000000000 (-16)) /\
  decimal.toQ (decimal.mkDecimal 200000000000000 (-16)) == 2 # 100.
Proof. split; reflexivity. Qed.

(** C4 as stated fails in two ways. An amount of [2^63] millisatoshi is
    converted by [int64(amt)] to [-2^63], so the result is negative; and
    a price with six decimal places, 43251.123456, on an amount of one
    bitcoin gives 43251.12346, because the price per millisatoshi is
    rounded to 16 places. *)
Lemma MsatToUSD_not_exact :
  (is_uint64 (2 ^ 63) /\
   exists usd, MsatToUSD (decimal.NewFromInt 20000) (2 ^ 63) = Some usd /\
     decimal.toQ usd < 0 /\
     0 < decimal.toQ (decimal.NewFromInt 20000) / inject_Z (10 ^ 11) * inject_Z (2 ^ 63)) /\
  (is_uint64 (10 ^ 11) /\
   exists usd, MsatToUSD (decimal.mkDecimal 43251123456 (-6)) (10 ^ 11) = Some usd /\
     decimal.toQ usd == 4325112346 # 100000 /\
     decimal.toQ (decimal.mkDecimal 43251123456 (-6)) / inject_Z (10 ^ 11) * inject_Z (10 ^ 11)
       == 43251123456 # 1000000).
Proof.
  split.
  - split; [unfold is_uint64; lia|].
    eexists. split; [vm_compute; reflexivity|]. split; reflexivity.
  - split; [unfold is_uint64; lia|].
    eexists. split; [vm_compute; reflexivity|]. split; reflexivity.
Qed.

Local Open Scope Z_scope.

(** ** The custom source *)

Section CustomFacts.

Context `{Libraries}.

Lemma rawPriceData_loop_parseLines c lines : forall i prices,
  (i + length lines <= length prices)%nat ->
  custom.rawPriceData_loop c i lines prices =
  ps ← custom.parseLines c lines;
  Ok (take i prices ++ (Some <$> ps) ++ drop (i + length lines) prices).
Proof.
  induction lines as [|line rest IH]; intros i prices Hlen.
  - simpl. rewrite Nat.add_0_r, take_drop. reflexivity.
  - simpl in Hlen. simpl custom.rawPriceData_loop. simpl custom.parseLines.
    unfold custom.parseLine.
    destruct (negb (length line =? 2)%nat); [reflexivity|].
    destruct (strconv.ParseInt _) as [timestamp| |]; try reflexivity. simplR.
    destruct (ParseFloat _) as [price| |]; try reflexivity. simplR.
    destruct (NewFromFloat price) as [p|]; try reflexivity. simplR.
    rewrite IH by (rewrite length_insert; lia).
    destruct (custom.parseLines c rest) as [ps| |]; try reflexivity.
    simplR. f_equal.
    rewrite (take_S_r _ i (Some (custom.mkPrice (time.Unix timestamp 0) p (custom.currency c))))
      by (apply list_lookup_insert_eq; lia).
    rewrite take_insert_ge by lia.
    rewrite drop_insert_lt by lia.
    rewrite <- app_assoc. simpl. repeat f_equal. lia.
Qed.

Lemma rawPriceData_parseLines c ctx startTime endTime :
  custom.rawPriceData c ctx startTime endTime =
  (csvLines ← custom.getData c (custom.csvPath c);
   ps ← custom.parseLines c csvLines;
   Ok (Some <$> ps) : result (list (option custom.Price))).
Proof.
  unfold custom.rawPriceData.
  destruct (custom.getData c (custom.csvPath c)) as [csvLines| |]; try reflexivity.
  simplR.
  rewrite rawPriceData_loop_parseLines by (rewrite length_replicate; lia).
  destruct (custom.parseLines c csvLines) as [ps| |] eqn:E; try reflexivity.
  simplR. f_equal.
  rewrite take_0, drop_ge by (rewrite length_replicate; lia).
  simpl. apply app_nil_r.
Qed.

Lemma parseLines_app_bad c pre bad post :
  length bad <> 2%nat ->
  custom.parseLines c (pre ++ bad :: post) =
  (_ ← custom.parseLines c pre; Err errIncorrectCSV).
Proof.
  intros Hbad. induction pre as [|line rest IH]; simpl.
  - unfold custom.parseLine. destruct (Nat.eqb_spec (length bad) 2); [contradiction|]. reflexivity.
  - destruct (custom.parseLine c line); try reflexivity. simplR.
    rewrite IH. destruct (custom.parseLines c rest); reflexivity.
Qed.

Lemma parseLines_Forall_ok c pre :
  Forall (fun line => exists p, custom.parseLine c line = Ok p) pre ->
  exists ps, custom.parseLines c pre = Ok ps.
Proof.
  induction 1 as [|line rest [p Hp] _ [ps Hps]]; simpl; [eauto|].
  rewrite Hp, Hps. simpl. eauto.
Qed.

(** C5, amended. When the records read contain one whose number of
    fields is not two, [rawPriceData] returns no prices at all. The error
    is the malformed record error when every record before that one
    decodes; otherwise the read has already failed at the first record
    that does not decode, with the failure of that record. *)
Theorem rawPriceData_malformed_record (c : custom.customPrices) (ctx : Context)
    (startTime endTime : time.Time) (pre post : list (list string)) (bad : list string) :
  custom.getData c (custom.csvPath c) = Ok (pre ++ bad :: post) ->
  length bad <> 2%nat ->
  (forall prices, custom.rawPriceData c ctx startTime endTime <> Ok prices) /\
  custom.rawPriceData c ctx startTime endTime =
    (_ ← custom.parseLines c pre; Err errIncorrectCSV) /\
  (Forall (fun line => exists p, custom.parseLine c line = Ok p) pre ->
   custom.rawPriceData c ctx startTime endTime = Err errIncorrectCSV).
Proof.
  intros Hdata Hbad.
  assert (Heq : custom.rawPriceData c ctx startTime endTime =
                (_ ← custom.parseLines c pre; Err errIncorrectCSV)).
  { rewrite rawPriceData_parseLines, Hdata. simplR.
    rewrite (parseLines_app_bad c pre bad post Hbad).
    destruct (custom.parseLines c pre); reflexivity. }
  split; [|split; [exact Heq|]].
  - intros prices. rewrite Heq. destruct (custom.parseLines c pre); discriminate.
  - intros Hpre. rewrite Heq.
    destruct (parseLines_Forall_ok c pre Hpre) as [ps ->]. reflexivity.
Qed.

(** C10. [rawPriceData] ignores the times it is given: for any two ranges
    it returns the same result, which is the record of every line of the
    file, in the order of the file and none left out, or the failure of
    the first line that does not decode. *)
Theorem rawPriceData_ignores_range (c : custom.customPrices) (ctx : Context)
    (start1 end1 start2 end2 : time.Time) :
  custom.rawPriceData c ctx start1 end1 = custom.rawPriceData c ctx start2 end2 /\
  custom.rawPriceData c ctx start1 end1 =
    (csvLines ← custom.getData c (custom.csvPath c);
     ps ← custom.parseLines c csvLines;
     Ok (Some <$> ps) : result (list (option custom.Price))) /\
  (forall csvLines prices,
     custom.getData c (custom.csvPath c) = Ok csvLines ->
     custom.rawPriceData c ctx start1 end1 = Ok prices ->
     Forall2 (fun line price => exists p, price = Some p /\ custom.parseLine c line = Ok p)
             csvLines prices).
Proof.
  split; [reflexivity|]. split; [apply rawPriceData_parseLines|].
  intros csvLines prices Hdata. rewrite rawPriceData_parseLines, Hdata. simplR.
  destruct (custom.parseLines c csvLines) as [ps| |] eqn:Hps; simplR; try discriminate.
  intros [= <-]. clear Hdata. revert ps Hps.
  induction csvLines as [|line rest IH]; intros ps; simpl.
  - intros [= <-]. constructor.
  - destruct (custom.parseLine c line) as [p| |] eqn:Hp; simplR; try discriminate.
    destruct (custom.parseLines c rest) as [ps'| |]; simplR; try discriminate.
    intros [= <-]. constructor; [eauto|]. apply IH. reflexivity.
Qed.

End CustomFacts.

(** ** The CoinDesk source and the orchestrator *)

Section SourceFacts.

Context `{Libraries}.

(** C7. Called with an empty slice of timestamps, [GetPrices] returns
    the empty map and no error, for every context, backend and
    granularity. Nothing is fetched (no request is sent, the heap is as it
    was), and no backend is constructed: the call succeeds for the
    backends [NewPriceAPIBackend] rejects as well. *)
Theorem GetPrices_no_timestamps (ctx : Context) (array offset : nat) (backend : Z)
    (granularity : Granularity) (h : Heap) (w : World) :
  let timestamps := mkSlice array offset 0 in
  elements h timestamps = [] /\
  returned (GetPrices ctx timestamps backend granularity h w) = Ok ∅ /\
  world (GetPrices ctx timestamps backend granularity h w) = w /\
  heap (GetPrices ctx timestamps backend granularity h w) = h /\
  (backend <> CoinCapPriceBackend -> backend <> CoinDeskPriceBackend ->
   NewPriceAPIBackend backend (Some granularity) = Err errUnknownPriceBackend).
Proof.
  repeat split. intros H0 H1. unfold NewPriceAPIBackend.
  destruct (Z.eqb_spec backend CoinCapPriceBackend); [contradiction|].
  destruct (Z.eqb_spec backend CoinDeskPriceBackend); [contradiction|].
  reflexivity.
Qed.

Lemma GetPrices_heap ctx timestamps backend granularity h w :
  heap (GetPrices ctx timestamps backend granularity h w) =
  if (len timestamps =? 0)%nat then h
  else SliceStable_inplace time.Before timestamps h.
Proof.
  unfold GetPrices. destruct (len timestamps =? 0)%nat; [reflexivity|].
  cbv zeta. destruct (GetPrices_fetch _ _ _ _ _). reflexivity.
Qed.

(** C9. [GetPrices] sorts the slice of its caller in place: after the
    call, whatever it returns, the caller, who still holds the same slice
    value, finds in it the same times in ascending order, times of the
    same instant in their former order. The slice is as it was only when
    it was in ascending order already; the array outside the slice and
    the other arrays are untouched. *)
Theorem GetPrices_sorts_caller_slice (ctx : Context) (timestamps : slice)
    (backend : Z) (granularity : Granularity) (h : Heap) (w : World) :
  valid h timestamps ->
  let before := elements h timestamps in
  let h' := heap (GetPrices ctx timestamps backend granularity h w) in
  let after := elements h' timestamps in
  after = sort.SliceStable time.Before before /\
  ascendingTimes after /\
  Permutation before after /\
  (forall v, List.filter (fun t => time.unixNano t =? v) after =
             List.filter (fun t => time.unixNano t =? v) before) /\
  (after = before <-> ascendingTimes before) /\
  (forall a, a <> array timestamps -> h' !! a = h !! a) /\
  take (offset timestamps) (backing h' timestamps) =
    take (offset timestamps) (backing h timestamps) /\
  drop (offset timestamps + len timestamps) (backing h' timestamps) =
    drop (offset timestamps + len timestamps) (backing h timestamps).
Proof.
  intros Hv. cbv zeta. rewrite GetPrices_heap.
  assert (Heq : elements (if (len timestamps =? 0)%nat then h
                          else SliceStable_inplace time.Before timestamps h) timestamps
                = sort.SliceStable time.Before (elements h timestamps)).
  { destruct (Nat.eqb_spec (len timestamps) 0) as [H0|H0].
    - unfold elements. rewrite H0. reflexivity.
    - apply elements_SliceStable_inplace, Hv. }
  rewrite Heq. split; [reflexivity|].
  split; [apply SliceStable_Before_sorted|].
  split; [apply (SliceStable_perm time.unixNano)|].
  split; [intros v; apply (SliceStable_stable time.unixNano)|].
  split.
  { split.
    - intros E. rewrite <- E. apply SliceStable_Before_sorted.
    - apply (SliceStable_sorted_id time.unixNano). }
  assert (Hlen : length (sort.SliceStable time.Before (elements h timestamps))
                 = len timestamps)
    by (rewrite SliceStable_length; apply elements_length, Hv).
  destruct (len timestamps =? 0)%nat; [repeat split|].
  split; [intros a Ha; apply assign_other, Ha|].
  apply assign_outside; assumption.
Qed.

Lemma retryQuery_loop_unfold retries attempt ctx queryAPI convert w :
  retryQuery_loop retries attempt ctx queryAPI convert w =
  match queryAPI w with
  | (response, w1) =>
      match response ≫= convert with
      | Ok records => (Ok records, w1)
      | Panic => (Panic, w1)
      | Err e =>
          match retries with
          | O => (Err e, w1)
          | S n =>
              if ctx (S attempt) then (Err errContext, w1)
              else retryQuery_loop n (S attempt) ctx queryAPI convert w1
          end
      end
  end.
Proof. destruct retries; reflexivity. Qed.

Lemma retryQuery_loop_requests ctx start end_ convert retries : forall attempt w,
  exists n : nat,
    (n <= retries)%nat /\
    snd (retryQuery_loop retries attempt ctx (queryCoinDesk start end_) convert w) =
    w ++ replicate (S n) (queryURL start end_).
Proof.
  induction retries as [|retries IH]; intros attempt w;
    rewrite retryQuery_loop_unfold; unfold queryCoinDesk at 1;
    destruct (httpGet w (queryURL start end_) ≫= convert);
    try (exists 0%nat; split; [lia|reflexivity]).
  destruct (ctx (S attempt)); [exists 0%nat; split; [lia|reflexivity]|].
  destruct (IH (S attempt) (w ++ [queryURL start end_])) as (n & Hn & ->).
  exists (S n). split; [lia|]. rewrite <- app_assoc. reflexivity.
Qed.

(** C6. Once the range is accepted, every request
    [coinDeskAPI.GetPrices] sends, and it sends at least one, asks for the
    range that starts 24 hours before the requested [start], formatted as
    a calendar date, and that ends at the requested [end], unchanged: the
    closure that sends the request reads [start] after the assignment. *)
Theorem coinDesk_query_backdated (ctx : Context) (start end_ : time.Time) (w : World) :
  ValidateTimeRange start end_ DisallowFutureRange = None ->
  exists n : nat,
    (n <= maxRetries)%nat /\
    snd (coinDeskAPI_GetPrices ctx start end_ w) =
    w ++ replicate (S n)
           (coinDeskHistoryAPI +:+ "?start="
              +:+ Format coinDeskTimeFormat (time.Add start (time.Hour * -24))
              +:+ "&end=" +:+ Format coinDeskTimeFormat end_) /\
    time.unixNano (time.Add start (time.Hour * -24)) =
      time.unixNano start - 86400 * 1000000000.
Proof.
  intros Hvalid. unfold coinDeskAPI_GetPrices. rewrite Hvalid.
  cbn [v_start v_end]. unfold retryQuery.
  destruct (retryQuery_loop_requests ctx (time.Add start (time.Hour * -24)) end_
              parseCoinDeskData maxRetries 0%nat w) as (n & Hn & Hw).
  exists n. split; [exact Hn|]. split.
  - destruct (retryQuery_loop _ _ _ _ _ _) as [r w1]. simpl in *. exact Hw.
  - unfold time.Add, time.Hour, time.Second, time.Nanosecond. simpl. lia.
Qed.

Lemma coinDeskAPI_GetPrices_ascending ctx start end_ w data w' :
  coinDeskAPI_GetPrices ctx start end_ w = (Ok data, w') -> ascending data.
Proof.
  unfold coinDeskAPI_GetPrices.
  destruct (ValidateTimeRange start end_ DisallowFutureRange); [discriminate|].
  destruct (retryQuery _ _ _ _) as [[records| |] w1]; simplR; try discriminate.
  intros [= <- _]. apply SliceStable_lessTimestamp_ascending.
Qed.


Lemma parseCoinDeskData_loop_points entries : forall usdRecords,
  Forall (fun entry : string * float64 =>
            (exists t, Parse coinDeskTimeFormat entry.1 = Ok t) /\
            (exists d, NewFromFloat entry.2 = Some d)) entries ->
  exists points,
    parseCoinDeskData_loop entries usdRecords = Ok (usdRecords ++ points) /\
    Forall2 (fun (entry : string * float64) point =>
               Parse coinDeskTimeFormat entry.1 = Ok (Timestamp point) /\
               NewFromFloat entry.2 = Some (Price point)) entries points.
Proof.
  induction entries as [|[date price] rest IH]; intros acc Hall.
  - exists []. rewrite app_nil_r. split; [reflexivity|constructor].
  - apply Forall_cons in Hall as [[[t Ht] [d Hd]] Hrest]. simpl in Ht, Hd.
    destruct (IH (acc ++ [mkUSDPrice t d]) Hrest) as (points & Hloop & Hpts).
    exists (mkUSDPrice t d :: points). split.
    + simpl. rewrite Ht. simplR. rewrite Hd. simplR. rewrite Hloop, <- app_assoc. reflexivity.
    + constructor; [split; assumption | exact Hpts].
Qed.

(** C8. When [data] encodes a response, that is, decodes to the mapping
    [resp] of dates to floats, and every date is a calendar date (and
    every float a finite number), [parseCoinDeskData] returns one point
    for each entry of the mapping, in the order [range] visits them: its
    [Timestamp] is the date parsed with the layout [2006-01-02] and its
    [Price] the decimal [decimal.NewFromFloat] makes of the float. *)
Theorem parseCoinDeskData_one_point_per_entry `{!RangeVisitsEach}
    (data : string) (resp : coinDeskResponse float64) :
  Unmarshal data = Ok resp ->
  (forall date price, Data resp !! date = Some price ->
     (exists t, Parse coinDeskTimeFormat date = Ok t) /\
     (exists d, NewFromFloat price = Some d)) ->
  exists points,
    parseCoinDeskData data = Ok points /\
    Forall2 (fun (entry : string * float64) point =>
               Parse coinDeskTimeFormat entry.1 = Ok (Timestamp point) /\
               NewFromFloat entry.2 = Some (Price point))
            (mapRange (Data resp)) points /\
    mapRange (Data resp) ≡ₚ map_to_list (Data resp) /\
    length points = size (Data resp).
Proof.
  intros Hjson Hentries.
  destruct (parseCoinDeskData_loop_points (mapRange (Data resp)) []) as (points & Hloop & Hpts).
  { apply Forall_forall. intros [date price] Hin. simpl.
    apply Hentries. apply elem_of_map_to_list. rewrite <- (mapRange_perm (Data resp)). exact Hin. }
  exists points. split; [|split; [exact Hpts|split; [apply mapRange_perm|]]].
  - unfold parseCoinDeskData. rewrite Hjson. simplR. exact Hloop.
  - rewrite <- (Forall2_length _ _ _ Hpts), (mapRange_perm (Data resp)).
    apply length_map_to_list.
Qed.

End SourceFacts.

(** * Further properties *)

(** ** The point lookup *)

(** The loop of [GetPrice] walks over the points that are not after the
    time and remembers the last of them. *)
Lemma GetPrice_loop_skip l1 : forall rest t lastPrice,
  Forall (fun q => time.Before t (Timestamp q) = false) l1 ->
  GetPrice_loop (l1 ++ rest) t lastPrice =
  GetPrice_loop rest t (List.last (map Some l1) lastPrice).
Proof.
  induction l1 as [|a l1 IH]; intros rest t lp Hall; [reflexivity|].
  apply Forall_cons in Hall as [Ha Hall].
  simpl app. cbn [GetPrice_loop]. rewrite Ha, (IH rest t (Some a) Hall).
  simpl map. rewrite last_cons_default. reflexivity.
Qed.

(** X1. On any series, sorted or not, [GetPrice] stops at the first point
    that is after the time and returns the point just before it: when
    the points up to [p] are not after the time and the next point, if
    there is one, is, the result is [p], whatever follows. *)
Theorem GetPrice_stops_at_first_later (l1 l2 : list USDPrice) (p : USDPrice)
    (t : time.Time) :
  Forall (fun q => time.Before t (Timestamp q) = false) (l1 ++ [p]) ->
  match l2 with
  | [] => True
  | q :: _ => time.Before t (Timestamp q) = true
  end ->
  GetPrice (l1 ++ p :: l2) t = Ok p.
Proof.
  intros Hall Hl2. unfold GetPrice.
  destruct (l1 ++ p :: l2) as [|x xs] eqn:E; [destruct l1; discriminate|].
  cbn [length Nat.eqb]. rewrite <- E. clear E x xs.
  replace (l1 ++ p :: l2) with ((l1 ++ [p]) ++ l2) by (rewrite <- app_assoc; reflexivity).
  rewrite (GetPrice_loop_skip (l1 ++ [p]) l2 t None Hall), last_map_Some_snoc.
  destruct l2 as [|q l2]; [reflexivity|]. simpl. rewrite Hl2. reflexivity.
Qed.

(** What the lookup returns on an ascending series. *)
Lemma GetPrice_ascending_Ok series t p :
  ascending series -> GetPrice series t = Ok p ->
  In p series /\ at_ns p <= time.unixNano t /\
  (forall q, In q series -> at_ns q <= time.unixNano t -> at_ns q <= at_ns p).
Proof.
  intros Hasc Hget. unfold GetPrice in Hget.
  destruct series as [|first rest]; [discriminate|]. cbn [length Nat.eqb] in Hget.
  destruct (GetPrice_loop_split (first :: rest) t None Hasc)
    as (k1 & k2 & Hsplit & H1 & H2 & Hloop).
  rewrite Hloop in Hget.
  destruct (list_eq_nil_dec k1) as [->|Hk1]; [discriminate|].
  (* k1 = l1 ++ [p'] *)
  destruct (exists_last Hk1) as (l1 & p' & ->).
  rewrite last_map_Some_snoc in Hget. injection Hget as <-.
  assert (HS : first :: rest = l1 ++ p' :: k2) by (rewrite Hsplit, <- app_assoc; reflexivity).
  rewrite HS in *. clear HS Hsplit.
  assert (Hp : at_ns p' <= time.unixNano t).
  { rewrite Forall_app in H1. destruct H1 as [_ H1]. inversion H1; assumption. }
  split; [apply in_elt|]. split; [exact Hp|].
  intros q Hq Hqt. apply in_app_or in Hq as [Hq|[->|Hq]]; [|lia|].
  - eapply ascending_before_le; eassumption.
  - rewrite List.Forall_forall in H2. specialize (H2 q Hq). lia.
Qed.

(** X2. On an ascending series the lookup is monotone: if it finds a
    point for a time, it finds one for every later time, and that point
    is not before the first one and not after the later time. *)
Theorem GetPrice_monotone (series : list USDPrice) (t1 t2 : time.Time) (p1 : USDPrice) :
  ascending series ->
  time.unixNano t1 <= time.unixNano t2 ->
  GetPrice series t1 = Ok p1 ->
  exists p2, GetPrice series t2 = Ok p2 /\ at_ns p1 <= at_ns p2 /\
             at_ns p2 <= time.unixNano t2.
Proof.
  intros Hasc Ht Hget1.
  destruct (GetPrice_ascending_Ok series t1 p1 Hasc Hget1) as (Hin1 & Hp1 & _).
  assert (Hok : exists p2, GetPrice series t2 = Ok p2).
  { unfold GetPrice in *. destruct series as [|first rest]; [discriminate|].
    cbn [length Nat.eqb] in *. cbn [GetPrice_loop] in *.
    unfold time.Before in *.
    destruct (Z.ltb_spec (time.unixNano t1) (time.unixNano (Timestamp first))); [discriminate|].
    destruct (Z.ltb_spec (time.unixNano t2) (time.unixNano (Timestamp first))); [lia|].
    destruct (GetPrice_loop_Some rest t2 first) as [q ->]. eauto. }
  destruct Hok as [p2 Hget2]. exists p2. split; [exact Hget2|].
  destruct (GetPrice_ascending_Ok series t2 p2 Hasc Hget2) as (_ & Hp2 & Hmax).
  split; [apply Hmax; [exact Hin1|lia] | exact Hp2].
Qed.

(** ** The orchestrator *)

Lemma GetPrice_cons_before first rest t :
  time.Before t (Timestamp first) = true ->
  GetPrice (first :: rest) t = Err errPriceOutOfRange.
Proof. intros Hb. unfold GetPrice. simpl. rewrite Hb. reflexivity. Qed.

Lemma GetPrice_cons_not_before first rest t :
  time.Before t (Timestamp first) = false ->
  exists p, GetPrice (first :: rest) t = Ok p.
Proof.
  intros Hb. unfold GetPrice. simpl. rewrite Hb.
  destruct (GetPrice_loop_Some rest t first) as [q ->]. eauto.
Qed.

Lemma GetPrices_loop_all_found priceData timestamps : forall prices,
  Forall (fun ts => exists p, GetPrice priceData ts = Ok p) timestamps ->
  exists m, GetPrices_loop priceData timestamps prices = Ok m /\
    forall k, m !! k = if decide (k ∈ timestamps)
                       then match GetPrice priceData k with
                            | Ok price => Some price
                            | _ => None
                            end
                       else prices !! k.
Proof.
  induction timestamps as [|ts rest IH]; intros prices Hall.
  - exists prices. split; [reflexivity|]. intros k.
    destruct (decide (k ∈ [])) as [Hin|_]; [inversion Hin|reflexivity].
  - apply Forall_cons in Hall as [[p Hp] Hrest].
    destruct (IH (<[ts := p]> prices) Hrest) as (m & Hloop & Hm).
    exists m. split.
    + simpl. rewrite Hp. simplR. exact Hloop.
    + intros k. rewrite Hm.
      destruct (decide (k ∈ rest)) as [Hin|Hnin].
      * rewrite decide_True by (right; exact Hin). reflexivity.
      * destruct (decide (k = ts)) as [->|Hne].
        -- rewrite decide_True by left. rewrite lookup_insert_eq.
           rewrite Hp. reflexivity.
        -- rewrite decide_False by (intros Hin; apply elem_of_cons in Hin as [?|?]; contradiction).
           apply lookup_insert_ne. congruence.
Qed.

Lemma GetPrices_loop_Ok_inv priceData timestamps : forall prices m,
  GetPrices_loop priceData timestamps prices = Ok m ->
  Forall (fun ts => exists p, GetPrice priceData ts = Ok p) timestamps.
Proof.
  induction timestamps as [|ts rest IH]; intros prices m Hloop; [constructor|].
  simpl in Hloop. destruct (GetPrice priceData ts) as [p| |] eqn:Hp; try discriminate.
  cbn [mbind result_bind bindR orPanic] in Hloop. constructor; [eauto|]. eapply IH, Hloop.
Qed.

Lemma nth_last_cons (a b : time.Time) (l : list time.Time) :
  nth (length (a :: b :: l) - 1) (a :: b :: l) time.zero =
  nth (length (b :: l) - 1) (b :: l) time.zero.
Proof.
  simpl length. replace (S (S (length l)) - 1)%nat with (S (length l)) by lia.
  replace (S (length l) - 1)%nat with (length l) by lia. reflexivity.
Qed.

Lemma ascendingTimes_bounds l t :
  ascendingTimes l -> t ∈ l ->
  time.unixNano (nth 0 l time.zero) <= time.unixNano t /\
  time.unixNano t <= time.unixNano (nth (length l - 1) l time.zero).
Proof.
  intros Hs Hin. apply Sorted_StronglySorted in Hs; [|intros a b c; lia].
  revert t Hin. induction Hs as [|a l Hss IH Hall]; intros t Hin; [inversion Hin|].
  rewrite List.Forall_forall in Hall.
  assert (Hfirst : forall x, x ∈ a :: l -> time.unixNano a <= time.unixNano x).
  { intros x Hx. apply elem_of_cons in Hx as [->|Hx]; [lia|].
    apply Hall, list_elem_of_In, Hx. }
  split; [apply Hfirst, Hin|].
  destruct l as [|b l].
  - apply elem_of_cons in Hin as [->|Hin]; [simpl; lia|inversion Hin].
  - rewrite nth_last_cons.
    apply elem_of_cons in Hin as [->|Hin].
    + destruct (IH b ltac:(left)) as [_ Hb].
      specialize (Hfirst b ltac:(right; left)). lia.
    + apply IH, Hin.
Qed.

Lemma nth_elem_of (l : list time.Time) (n : nat) :
  (n < length l)%nat -> nth n l time.zero ∈ l.
Proof. intros Hn. apply list_elem_of_In, nth_In, Hn. Qed.

Lemma size_list_to_set_le (l : list time.Time) :
  (size (list_to_set l : gset time.Time) <= length l)%nat.
Proof.
  induction l as [|x l IH].
  - change (size (∅ : gset time.Time) <= 0)%nat. rewrite size_empty. lia.
  - change (size ({[x]} ∪ list_to_set l : gset time.Time) <= S (length l))%nat.
    rewrite size_union_alt, size_singleton.
    assert (Hsub : (list_to_set l : gset time.Time) ∖ {[x]} ⊆ list_to_set l)
      by (apply subseteq_difference_l; reflexivity).
    apply subseteq_size in Hsub. lia.
Qed.

Section OrchestratorFacts.

Context `{Libraries}.

Lemma GetPrices_nonempty ctx timestamps backend granularity h w :
  len timestamps <> 0%nat ->
  GetPrices ctx timestamps backend granularity h w =
  let h1 := SliceStable_inplace time.Before timestamps h in
  let r := GetPrices_fetch ctx (elements h1 timestamps) backend granularity w in
  mkOutcome (priceData ← fst r; GetPrices_loop priceData (elements h1 timestamps) ∅)
            h1 (snd r).
Proof.
  intros Hne. unfold GetPrices.
  destruct (Nat.eqb_spec (len timestamps) 0); [contradiction|]. cbv zeta.
  destruct (GetPrices_fetch _ _ _ _ _). reflexivity.
Qed.

(** X3. When [GetPrices] succeeds, the keys of the map it returns are
    exactly the times of the caller's slice, a time that occurs more than
    once giving one entry, so the map has at most as many entries as the
    slice; and the entry of each time is what [GetPrice] finds for it in
    the series that the source returned for the sorted times. *)
Theorem GetPrices_map_of_timestamps (ctx : Context) (timestamps : slice)
    (backend : Z) (granularity : Granularity) (h : Heap) (w : World)
    (m : gmap time.Time USDPrice) :
  valid h timestamps ->
  returned (GetPrices ctx timestamps backend granularity h w) = Ok m ->
  dom m = list_to_set (elements h timestamps) /\
  (size m <= len timestamps)%nat /\
  (len timestamps <> 0%nat ->
   exists priceData w',
     GetPrices_fetch ctx (sort.SliceStable time.Before (elements h timestamps))
       backend granularity w = (Ok priceData, w') /\
     forall ts, ts ∈ elements h timestamps ->
       exists price, m !! ts = Some price /\ GetPrice priceData ts = Ok price).
Proof.
  intros Hv Hret.
  destruct (Nat.eq_dec (len timestamps) 0%nat) as [H0|Hne].
  { unfold GetPrices in Hret. rewrite H0 in Hret. simpl in Hret. injection Hret as <-.
    unfold elements. rewrite H0. simpl. split; [set_solver|]. split; [|contradiction].
    rewrite map_size_empty. lia. }
  rewrite (GetPrices_nonempty ctx timestamps backend granularity h w Hne) in Hret.
  cbv zeta in Hret. cbn [returned] in Hret.
  rewrite (elements_SliceStable_inplace time.Before timestamps h Hv) in Hret.
  set (sorted := sort.SliceStable time.Before (elements h timestamps)) in *.
  destruct (GetPrices_fetch ctx sorted backend granularity w) as [[priceData| |] w'] eqn:Hfetch;
    cbn [fst] in Hret; cbn [mbind result_bind bindR orPanic] in Hret; try discriminate.
  pose proof (GetPrices_loop_Ok_inv _ _ _ _ Hret) as Hall.
  destruct (GetPrices_loop_all_found priceData sorted ∅ Hall) as (m' & Hloop & Hm).
  rewrite Hloop in Hret. injection Hret as ->.
  assert (Hperm : elements h timestamps ≡ₚ sorted)
    by apply (SliceStable_perm time.unixNano).
  assert (Hfound : forall ts, ts ∈ elements h timestamps ->
            exists price, m !! ts = Some price /\ GetPrice priceData ts = Ok price).
  { intros ts Hin. rewrite Hperm in Hin. rewrite Hm, decide_True by exact Hin.
    rewrite Forall_forall in Hall. destruct (Hall ts Hin) as [p Hp].
    exists p. rewrite Hp. split; reflexivity. }
  assert (Hdom : dom m = list_to_set (elements h timestamps)).
  { apply set_eq. intros k. rewrite elem_of_dom, elem_of_list_to_set. split.
    - intros [p Hp]. rewrite Hm in Hp. rewrite Hperm.
      destruct (decide (k ∈ sorted)); [assumption|]. rewrite lookup_empty in Hp. discriminate.
    - intros Hin. destruct (Hfound k Hin) as (p & -> & _). eauto. }
  split; [exact Hdom|]. split.
  - rewrite <- size_dom, Hdom. rewrite <- (elements_length h timestamps Hv).
    apply size_list_to_set_le.
  - intros _. exists priceData, w'. split; [reflexivity|exact Hfound].
Qed.

(** X4. [GetPrices] returns prices for all times or for none, and the
    earliest time decides: once the source has answered with a series, the
    call fails with [errNoPrices] when the series is empty, with
    [errPriceOutOfRange] when the earliest time of the slice is before the
    first point of the series, and otherwise returns a map. The series
    need not be sorted for this. *)
Theorem GetPrices_all_or_nothing (ctx : Context) (timestamps : slice)
    (backend : Z) (granularity : Granularity) (h : Heap) (w : World)
    (priceData : list USDPrice) (w' : World) :
  valid h timestamps ->
  len timestamps <> 0%nat ->
  GetPrices_fetch ctx (sort.SliceStable time.Before (elements h timestamps))
    backend granularity w = (Ok priceData, w') ->
  let earliest := nth 0 (sort.SliceStable time.Before (elements h timestamps)) time.zero in
  let result := returned (GetPrices ctx timestamps backend granularity h w) in
  earliest ∈ elements h timestamps /\
  (forall ts, ts ∈ elements h timestamps -> time.Before ts earliest = false) /\
  match priceData with
  | [] => result = Err errNoPrices
  | first :: _ =>
      if time.Before earliest (Timestamp first)
      then result = Err errPriceOutOfRange
      else exists m, result = Ok m
  end.
Proof.
  intros Hv Hne Hfetch. cbv zeta.
  rewrite (GetPrices_nonempty ctx timestamps backend granularity h w Hne).
  cbv zeta. cbn [returned].
  rewrite (elements_SliceStable_inplace time.Before timestamps h Hv), Hfetch.
  cbn [fst]. simplR.
  set (sorted := sort.SliceStable time.Before (elements h timestamps)).
  assert (Hperm : elements h timestamps ≡ₚ sorted)
    by apply (SliceStable_perm time.unixNano).
  assert (Hlen : length sorted = len timestamps).
  { subst sorted. rewrite SliceStable_length. apply elements_length, Hv. }
  assert (Hsorted : ascendingTimes sorted) by apply SliceStable_Before_sorted.
  assert (Hleast : forall ts, ts ∈ sorted ->
            time.unixNano (nth 0 sorted time.zero) <= time.unixNano ts).
  { intros ts Hin. apply (ascendingTimes_bounds sorted ts Hsorted Hin). }
  split; [rewrite Hperm; apply nth_elem_of; lia|].
  split.
  { intros ts Hin. rewrite Hperm in Hin. specialize (Hleast ts Hin).
    unfold time.Before. apply Z.ltb_ge. exact Hleast. }
  destruct priceData as [|first rest].
  - destruct sorted as [|ts rest]; [simpl in Hlen; lia|]. reflexivity.
  - destruct (time.Before (nth 0 sorted time.zero) (Timestamp first)) eqn:Hb.
    + destruct sorted as [|ts rest']; [simpl in Hlen; lia|].
      simpl in Hb. simpl GetPrices_loop.
      rewrite (GetPrice_cons_before first rest ts Hb). reflexivity.
    + destruct (GetPrices_loop_all_found (first :: rest) sorted ∅) as (m & -> & _); [|eauto].
      apply Forall_forall. intros ts Hin. apply GetPrice_cons_not_before.
      specialize (Hleast ts Hin). unfold time.Before in *.
      apply Z.ltb_ge. apply Z.ltb_ge in Hb. lia.
Qed.

(** X5. For a backend that is neither CoinCap nor CoinDesk and a slice
    that is not empty, [GetPrices] returns [errUnknownPriceBackend]
    without asking any source, but the caller's slice has been sorted
    all the same: the sort comes before the backend is made. *)
Theorem GetPrices_unknown_backend (ctx : Context) (timestamps : slice)
    (backend : Z) (granularity : Granularity) (h : Heap) (w : World) :
  valid h timestamps ->
  len timestamps <> 0%nat ->
  backend <> CoinCapPriceBackend ->
  backend <> CoinDeskPriceBackend ->
  returned (GetPrices ctx timestamps backend granularity h w) = Err errUnknownPriceBackend /\
  world (GetPrices ctx timestamps backend granularity h w) = w /\
  elements (heap (GetPrices ctx timestamps backend granularity h w)) timestamps =
    sort.SliceStable time.Before (elements h timestamps).
Proof.
  intros Hv Hne Hcap Hdesk.
  rewrite (GetPrices_nonempty ctx timestamps backend granularity h w Hne).
  cbv zeta. cbn [returned world heap].
  unfold GetPrices_fetch, NewPriceAPIBackend.
  destruct (Z.eqb_spec backend CoinCapPriceBackend); [contradiction|].
  destruct (Z.eqb_spec backend CoinDeskPriceBackend); [contradiction|].
  cbn [fst snd]. repeat split.
  apply elements_SliceStable_inplace, Hv.
Qed.

(** X6. [GetPrices] asks the source once, for the range from the
    earliest to the latest time of the caller's slice: both bounds are
    times of the slice and every time of the slice lies between them,
    whatever the order of the slice was. The requests of the call are
    those of the source, and an error of the source is returned as it
    is. *)
Theorem GetPrices_asks_for_spanned_range (ctx : Context) (timestamps : slice)
    (backend : Z) (granularity : Granularity) (h : Heap) (w : World)
    (client : PriceAPIBackend) :
  valid h timestamps ->
  len timestamps <> 0%nat ->
  NewPriceAPIBackend backend (Some granularity) = Ok client ->
  exists earliest latest : time.Time,
    earliest ∈ elements h timestamps /\
    latest ∈ elements h timestamps /\
    (forall ts, ts ∈ elements h timestamps ->
       time.unixNano earliest <= time.unixNano ts <= time.unixNano latest) /\
    world (GetPrices ctx timestamps backend granularity h w) =
      (PriceAPIBackend_GetPrices client ctx earliest latest w).2 /\
    (forall e, (PriceAPIBackend_GetPrices client ctx earliest latest w).1 = Err e ->
       returned (GetPrices ctx timestamps backend granularity h w) = Err e).
Proof.
  intros Hv Hne Hclient.
  set (sorted := sort.SliceStable time.Before (elements h timestamps)).
  assert (Hperm : elements h timestamps ≡ₚ sorted)
    by apply (SliceStable_perm time.unixNano).
  assert (Hlen : length sorted = len timestamps).
  { subst sorted. rewrite SliceStable_length. apply elements_length, Hv. }
  assert (Hsorted : ascendingTimes sorted) by apply SliceStable_Before_sorted.
  exists (nth 0 sorted time.zero), (nth (length sorted - 1) sorted time.zero).
  split; [rewrite Hperm; apply nth_elem_of; lia|].
  split; [rewrite Hperm; apply nth_elem_of; lia|].
  split.
  { intros ts Hin. rewrite Hperm in Hin. apply (ascendingTimes_bounds sorted ts Hsorted Hin). }
  rewrite (GetPrices_nonempty ctx timestamps backend granularity h w Hne).
  cbv zeta. cbn [world returned].
  rewrite (elements_SliceStable_inplace time.Before timestamps h Hv). fold sorted.
  unfold GetPrices_fetch. rewrite Hclient.
  split; [reflexivity|]. intros e ->. reflexivity.
Qed.

End OrchestratorFacts.

Section EndToEnd.

Context `{Libraries}.

(** X17. With the CoinDesk source, every price [GetPrices] returns is the
    price of the latest point not after its time: the series the source
    returned is ascending, the price is a point of it that is not after
    the time, and no point of the series that is not after the time is
    later. *)
Theorem GetPrices_coinDesk_latest_not_after (ctx : Context) (timestamps : slice)
    (granularity : Granularity) (h : Heap) (w : World)
    (m : gmap time.Time USDPrice) (ts : time.Time) (price : USDPrice) :
  valid h timestamps ->
  returned (GetPrices ctx timestamps CoinDeskPriceBackend granularity h w) = Ok m ->
  m !! ts = Some price ->
  exists priceData w',
    GetPrices_fetch ctx (sort.SliceStable time.Before (elements h timestamps))
      CoinDeskPriceBackend granularity w = (Ok priceData, w') /\
    ascending priceData /\
    In price priceData /\
    at_ns price <= time.unixNano ts /\
    (forall q, In q priceData -> at_ns q <= time.unixNano ts -> at_ns q <= at_ns price).
Proof.
  intros Hv Hret Hlookup.
  destruct (Nat.eq_dec (len timestamps) 0%nat) as [H0|Hne].
  { unfold GetPrices in Hret. rewrite H0 in Hret. simpl in Hret. injection Hret as <-.
    rewrite lookup_empty in Hlookup. discriminate. }
  rewrite (GetPrices_nonempty ctx timestamps CoinDeskPriceBackend granularity h w Hne) in Hret.
  cbv zeta in Hret. cbn [returned] in Hret.
  rewrite (elements_SliceStable_inplace time.Before timestamps h Hv) in Hret.
  set (sorted := sort.SliceStable time.Before (elements h timestamps)) in *.
  destruct (GetPrices_fetch ctx sorted CoinDeskPriceBackend granularity w)
    as [[priceData| |] w'] eqn:Hfetch;
    cbn [fst] in Hret; cbn [mbind result_bind bindR orPanic] in Hret; try discriminate.
  assert (Hasc : ascending priceData).
  { unfold GetPrices_fetch in Hfetch. simpl in Hfetch.
    eapply coinDeskAPI_GetPrices_ascending, Hfetch. }
  pose proof (GetPrices_loop_Ok_inv _ _ _ _ Hret) as Hall.
  destruct (GetPrices_loop_all_found priceData sorted ∅ Hall) as (m' & Hloop & Hm).
  rewrite Hloop in Hret. injection Hret as ->.
  rewrite Hm in Hlookup.
  destruct (decide (ts ∈ sorted)) as [Hin|_]; [|rewrite lookup_empty in Hlookup; discriminate].
  destruct (GetPrice priceData ts) as [p| |] eqn:Hget; try discriminate.
  injection Hlookup as ->.
  exists priceData, w'. split; [reflexivity|]. split; [exact Hasc|].
  apply (GetPrice_ascending_Ok priceData ts price Hasc Hget).
Qed.

End EndToEnd.

(** ** The unit conversion *)

Lemma toQ_scale (k n e : Z) :
  (decimal.toQ (decimal.mkDecimal (k * n) e) ==
   decimal.toQ (decimal.mkDecimal k e) * inject_Z n)%Q.
Proof.
  unfold decimal.toQ. cbn [decimal.value decimal.exp]. rewrite inject_Z_mult. ring.
Qed.

(** X7. [MsatToUSD] is additive in the amount: for amounts whose sum is
    below [2^63], the value of the sum is the decimal sum of the values,
    with no rounding difference, because the only rounding is that of the
    price per millisatoshi. *)
Theorem MsatToUSD_additive (price : decimal.Decimal) (a b : Z) :
  decimal.wf price ->
  decimal.exp price <= decimal.MaxInt32 - 16 ->
  0 <= a -> 0 <= b -> a + b < 2 ^ 63 ->
  exists ua ub uab : decimal.Decimal,
    MsatToUSD price a = Some ua /\
    MsatToUSD price b = Some ub /\
    MsatToUSD price (a + b) = Some uab /\
    decimal.Add ua ub = uab /\
    (decimal.toQ uab == decimal.toQ ua + decimal.toQ ub)%Q.
Proof.
  intros Hwf Hexp Ha Hb Hab.
  rewrite !(MsatToUSD_value price _ Hwf Hexp), !int64_small by lia.
  set (k := roundQuot (fst (divOperands price)) (snd (divOperands price))).
  do 3 eexists. repeat split.
  - unfold decimal.Add, decimal.RescalePair. cbn [decimal.exp decimal.value].
    rewrite Z.eqb_refl. cbn [decimal.exp decimal.value]. f_equal. ring.
  - rewrite !toQ_scale, inject_Z_plus. ring.
Qed.

(** X8. For an amount from [2^63] on, [int64(amt)] is [amt - 2^64], a
    negative number: [MsatToUSD] returns the price per millisatoshi times
    [amt - 2^64], which is below zero whenever the price per millisatoshi
    is above zero. *)
Theorem MsatToUSD_wraps_large_amounts (price : decimal.Decimal) (amt : Z) :
  decimal.wf price ->
  decimal.exp price <= decimal.MaxInt32 - 16 ->
  2 ^ 63 <= amt < 2 ^ 64 ->
  exists pricePerMSat usd : decimal.Decimal,
    decimal.Div price (decimal.NewFromInt 100000000000) = Some pricePerMSat /\
    MsatToUSD price amt = Some usd /\
    (decimal.toQ usd == decimal.toQ pricePerMSat * inject_Z (amt - 2 ^ 64))%Q /\
    (0 < decimal.toQ pricePerMSat -> decimal.toQ usd < 0)%Q.
Proof.
  intros Hwf Hexp Hamt.
  set (k := roundQuot (fst (divOperands price)) (snd (divOperands price))).
  assert (Hwrap : int64 amt = amt - 2 ^ 64).
  { unfold int64.
    replace (amt + 2 ^ 63) with ((amt - 2 ^ 63) + 1 * 2 ^ 64) by lia.
    rewrite Z.mod_add by lia. rewrite Z.mod_small by lia. lia. }
  exists (decimal.mkDecimal k (-16)), (decimal.mkDecimal (k * (amt - 2 ^ 64)) (-16)).
  split; [apply Div_hundred_billion; assumption|].
  split; [rewrite (MsatToUSD_value price amt Hwf Hexp), Hwrap; reflexivity|].
  split; [apply toQ_scale|].
  intros Hpos. rewrite toQ_scale.
  assert (Hneg : (inject_Z (amt - 2 ^ 64) < 0)%Q)
    by (change 0%Q with (inject_Z 0); rewrite <- Zlt_Qlt; lia).
  apply (proj2 (Qmult_lt_l _ _ _ Hpos)) in Hneg.
  rewrite Qmult_0_r in Hneg. exact Hneg.
Qed.

(** X9. For an amount below [2^63], the result of [MsatToUSD] has 16
    decimal places and differs from [price / 10^11 * amt] by at most
    [amt] halves of a unit of the sixteenth place. *)
Theorem MsatToUSD_error_bound (price : decimal.Decimal) (amt : Z) :
  decimal.wf price ->
  decimal.exp price <= decimal.MaxInt32 - 16 ->
  0 <= amt < 2 ^ 63 ->
  exists usd : decimal.Decimal,
    MsatToUSD price amt = Some usd /\
    decimal.exp usd = -16 /\
    (Qabs (decimal.toQ usd - decimal.toQ price / inject_Z (10 ^ 11) * inject_Z amt)
       <= inject_Z amt * (1 # (2 * 10 ^ 16)))%Q.
Proof.
  intros Hwf Hexp Hamt.
  set (k := roundQuot (fst (divOperands price)) (snd (divOperands price))).
  exists (decimal.mkDecimal (k * amt) (-16)).
  split; [rewrite (MsatToUSD_value price amt Hwf Hexp), int64_small by lia; reflexivity|].
  split; [reflexivity|].
  rewrite toQ_scale.
  assert (Hfac : (decimal.toQ (decimal.mkDecimal k (-16)) * inject_Z amt
                  - decimal.toQ price / inject_Z (10 ^ 11) * inject_Z amt ==
                  inject_Z amt * (decimal.toQ (decimal.mkDecimal k (-16))
                                  - decimal.toQ price / inject_Z (10 ^ 11)))%Q).
  { change (10 ^ 11) with 100000000000. field. }
  rewrite Hfac, Qabs_Qmult.
  assert (Hq : (0 <= inject_Z amt)%Q)
    by (change 0%Q with (inject_Z 0); rewrite <- Zle_Qle; lia).
  rewrite (Qabs_pos _ Hq).
  rewrite !(Qmult_comm (inject_Z amt)).
  apply Qmult_le_compat_r; [|exact Hq].
  apply (roundQuot_error price).
Qed.

(** ** The CoinDesk response *)

Section ParseFacts.

Context `{Libraries}.

Lemma parseCoinDeskData_loop_Ok_inv entries : forall usdRecords result,
  parseCoinDeskData_loop entries usdRecords = Ok result ->
  exists points,
    result = usdRecords ++ points /\
    Forall2 (fun (entry : string * float64) point =>
               Parse coinDeskTimeFormat entry.1 = Ok (Timestamp point) /\
               NewFromFloat entry.2 = Some (Price point)) entries points.
Proof.
  induction entries as [|[date price] rest IH]; intros acc result.
  - simpl. intros [= <-]. exists []. rewrite app_nil_r. split; [reflexivity|constructor].
  - simpl.
    destruct (Parse coinDeskTimeFormat date) as [t| |] eqn:Ht; simplR; try discriminate.
    destruct (NewFromFloat price) as [d|] eqn:Hd; simplR; try discriminate.
    intros Hloop. destruct (IH _ _ Hloop) as (points & -> & Hpts).
    exists (mkUSDPrice t d :: points). rewrite <- app_assoc. split; [reflexivity|].
    constructor; [split; assumption | exact Hpts].
Qed.

Lemma parseCoinDeskData_loop_bad_entry pre date price post e : forall usdRecords,
  Forall (fun entry : string * float64 =>
            (exists t, Parse coinDeskTimeFormat entry.1 = Ok t) /\
            (exists d, NewFromFloat entry.2 = Some d)) pre ->
  Parse coinDeskTimeFormat date = Err e ->
  parseCoinDeskData_loop (pre ++ (date, price) :: post) usdRecords = Err e.
Proof.
  induction pre as [|[date' price'] rest IH]; intros acc Hpre Hbad.
  - simpl. rewrite Hbad. reflexivity.
  - apply Forall_cons in Hpre as [[[t Ht] [d Hd]] Hrest]. simpl in Ht, Hd.
    simpl. rewrite Ht. simplR. rewrite Hd. simplR. apply IH; assumption.
Qed.

(** X10. [parseCoinDeskData] returns points only when it has decoded the
    whole response: if it returns points, the data decodes, there are as
    many points as entries, every entry has its point and every point
    comes from an entry, with the date parsed and the float converted. *)
Theorem parseCoinDeskData_all_or_nothing `{!RangeVisitsEach}
    (data : string) (points : list USDPrice) :
  parseCoinDeskData data = Ok points ->
  exists resp : coinDeskResponse float64,
    Unmarshal data = Ok resp /\
    length points = size (Data resp) /\
    (forall date price, Data resp !! date = Some price ->
       exists point, point ∈ points /\
         Parse coinDeskTimeFormat date = Ok (Timestamp point) /\
         NewFromFloat price = Some (Price point)) /\
    (forall point, point ∈ points ->
       exists date price, Data resp !! date = Some price /\
         Parse coinDeskTimeFormat date = Ok (Timestamp point) /\
         NewFromFloat price = Some (Price point)).
Proof.
  unfold parseCoinDeskData.
  destruct (Unmarshal data) as [resp| |]; simplR; try discriminate.
  intros Hloop. exists resp. split; [reflexivity|].
  destruct (parseCoinDeskData_loop_Ok_inv _ _ _ Hloop) as (pts & -> & Hpts).
  rewrite app_nil_l. split; [|split].
  - rewrite <- (Forall2_length _ _ _ Hpts), (mapRange_perm (Data resp)).
    apply length_map_to_list.
  - intros date price Hlookup.
    apply elem_of_map_to_list in Hlookup. rewrite <- (mapRange_perm (Data resp)) in Hlookup.
    apply list_elem_of_lookup in Hlookup as [i Hi].
    destruct (Forall2_lookup_l _ _ _ _ _ Hpts Hi) as (point & Hpoint & Hparse & Hprice).
    exists point. split; [eapply list_elem_of_lookup_2; exact Hpoint|].
    split; assumption.
  - intros point Hin. apply list_elem_of_lookup in Hin as [i Hi].
    destruct (Forall2_lookup_r _ _ _ _ _ Hpts Hi) as ([date price] & Hentry & Hparse & Hprice).
    exists date, price. split; [|split; assumption].
    apply elem_of_map_to_list. rewrite <- (mapRange_perm (Data resp)).
    eapply list_elem_of_lookup_2; exact Hentry.
Qed.

Lemma first_bad_entry (entries : list (string * float64)) :
  Forall (fun entry : string * float64 =>
            Parse coinDeskTimeFormat entry.1 <> Panic /\
            NewFromFloat entry.2 <> None) entries ->
  Forall (fun entry : string * float64 =>
            (exists t, Parse coinDeskTimeFormat entry.1 = Ok t) /\
            (exists d, NewFromFloat entry.2 = Some d)) entries \/
  exists pre date price post e,
    entries = pre ++ (date, price) :: post /\
    Forall (fun entry : string * float64 =>
              (exists t, Parse coinDeskTimeFormat entry.1 = Ok t) /\
              (exists d, NewFromFloat entry.2 = Some d)) pre /\
    Parse coinDeskTimeFormat date = Err e.
Proof.
  induction 1 as [|[date price] rest [Hparse Hprice] _ IH]; [left; constructor|].
  simpl in Hparse, Hprice.
  destruct (Parse coinDeskTimeFormat date) as [t|e|] eqn:Ht; [| |contradiction].
  - destruct (NewFromFloat price) as [d|] eqn:Hd; [|contradiction].
    destruct IH as [Hall|(pre & date' & price' & post & e & -> & Hpre & Hbad)].
    + left. constructor; [|exact Hall]. simpl. eauto.
    + right. exists ((date, price) :: pre), date', price', post, e.
      split; [reflexivity|]. split; [|exact Hbad].
      constructor; [|exact Hpre]. simpl. eauto.
  - right. exists [], date, price, rest, e. split; [reflexivity|]. split; [constructor|exact Ht].
Qed.

(** X11. When one date of the decoded response does not parse,
    [parseCoinDeskData] returns no points but the error of [time.Parse]
    for a date of the response that does not parse; which one, when there
    are several, depends on the order in which [range] visits the map. *)
Theorem parseCoinDeskData_bad_date `{!RangeVisitsEach}
    (data : string) (resp : coinDeskResponse float64) (date : string) (price : float64)
    (e : error) :
  Unmarshal data = Ok resp ->
  (forall date price, Data resp !! date = Some price ->
     Parse coinDeskTimeFormat date <> Panic /\ NewFromFloat price <> None) ->
  Data resp !! date = Some price ->
  Parse coinDeskTimeFormat date = Err e ->
  exists date' price' e',
    Data resp !! date' = Some price' /\
    Parse coinDeskTimeFormat date' = Err e' /\
    parseCoinDeskData data = Err e'.
Proof.
  intros Hjson Hsafe Hlookup Hbad.
  unfold parseCoinDeskData. rewrite Hjson. simplR.
  assert (Hin : forall entry : string * float64,
            entry ∈ mapRange (Data resp) <-> Data resp !! entry.1 = Some entry.2).
  { intros [d p]. rewrite (mapRange_perm (Data resp)). apply elem_of_map_to_list. }
  destruct (first_bad_entry (mapRange (Data resp)))
    as [Hall|(pre & date' & price' & post & e' & Hsplit & Hpre & Hbad')].
  - apply Forall_forall. intros entry Hentry. apply Hsafe, Hin, Hentry.
  - exfalso. rewrite Forall_forall in Hall.
    destruct (Hall (date, price)) as [[t Ht] _]; [apply Hin; exact Hlookup|].
    simpl in Ht. rewrite Hbad in Ht. discriminate.
  - exists date', price', e'. split; [|split; [exact Hbad'|]].
    + apply (Hin (date', price')). rewrite Hsplit. apply elem_of_app. right. constructor.
    + rewrite Hsplit. apply parseCoinDeskData_loop_bad_entry; assumption.
Qed.

End ParseFacts.

(** ** Timestamps written with [strconv.FormatInt] *)

Lemma digit_digitByte d : 0 <= d < 10 -> strconv.digit (itoa.digitByte d) = Some d.
Proof.
  intros Hd.
  assert (Hcases : d = 0 \/ d = 1 \/ d = 2 \/ d = 3 \/ d = 4 \/ d = 5 \/ d = 6 \/ d = 7
                   \/ d = 8 \/ d = 9) by lia.
  repeat (destruct Hcases as [->|Hcases]; [reflexivity|]). subst d. reflexivity.
Qed.

Lemma digitByte_no_sign d : 0 <= d < 10 ->
  Ascii.eqb (itoa.digitByte d) "+" = false /\ Ascii.eqb (itoa.digitByte d) "-" = false.
Proof.
  intros Hd.
  assert (Hcases : d = 0 \/ d = 1 \/ d = 2 \/ d = 3 \/ d = 4 \/ d = 5 \/ d = 6 \/ d = 7
                   \/ d = 8 \/ d = 9) by lia.
  repeat (destruct Hcases as [->|Hcases]; [split; reflexivity|]). subst d. split; reflexivity.
Qed.

Lemma formatBits_head fuel : forall u acc, 0 <= u ->
  exists d rest, 0 <= d < 10 /\ itoa.formatBits (S fuel) u acc = String (itoa.digitByte d) rest.
Proof.
  induction fuel as [|fuel IH]; intros u acc Hu.
  - simpl. exists (u mod 10), acc. split; [apply Z.mod_pos_bound; lia|].
    destruct (u <? 10); reflexivity.
  - change (itoa.formatBits (S (S fuel)) u acc) with
      (if u <? 10 then String (itoa.digitByte (u mod 10)) acc
       else itoa.formatBits (S fuel) (u / 10) (String (itoa.digitByte (u mod 10)) acc)).
    destruct (u <? 10).
    + exists (u mod 10), acc. split; [apply Z.mod_pos_bound; lia|reflexivity].
    + apply IH. apply Z.div_pos; lia.
Qed.

Lemma ParseUint_loop_step d rest n :
  0 <= d < 10 -> 0 <= n -> n * 10 + d <= strconv.maxUint64 ->
  strconv.ParseUint_loop (String (itoa.digitByte d) rest) n =
  strconv.ParseUint_loop rest (n * 10 + d).
Proof.
  intros Hd Hn Hmax. cbn [strconv.ParseUint_loop]. rewrite (digit_digitByte d Hd).
  cbv zeta. unfold strconv.maxUint64 in *.
  destruct (Z.geb_spec n ((2 ^ 64 - 1) / 10 + 1)) as [Hge|_].
  { change ((2 ^ 64 - 1) / 10 + 1) with 1844674407370955162 in Hge. lia. }
  destruct (Z.gtb_spec (n * 10 + d) (2 ^ 64 - 1)); [lia|]. reflexivity.
Qed.

Lemma ParseUint_loop_formatBits fuel : forall u, 0 <= u < 10 ^ Z.of_nat fuel ->
  exists p, 0 < p /\ u < p /\
    forall n acc, 0 <= n -> n * p + u <= strconv.maxUint64 ->
      strconv.ParseUint_loop (itoa.formatBits fuel u acc) n =
      strconv.ParseUint_loop acc (n * p + u).
Proof.
  induction fuel as [|fuel IH]; intros u Hu.
  - simpl in Hu. exists 1. split; [lia|]. split; [lia|].
    intros n acc Hn Hmax. assert (u = 0) by lia. subst u. simpl.
    f_equal. lia.
  - destruct (Z.ltb_spec u 10) as [Hsmall|Hbig].
    + exists 10. split; [lia|]. split; [lia|].
      intros n acc Hn Hmax. cbn [itoa.formatBits].
      destruct (Z.ltb_spec u 10); [|lia].
      rewrite Z.mod_small by lia. apply ParseUint_loop_step; lia.
    + destruct (IH (u / 10)) as (p & Hp1 & Hp & Hloop).
      { split; [apply Z.div_pos; lia|].
        apply Z.div_lt_upper_bound; [lia|].
        rewrite Nat2Z.inj_succ, Z.pow_succ_r in Hu by lia. lia. }
      exists (10 * p). split; [lia|].
      pose proof (Z.div_mod u 10 ltac:(lia)) as Hdm.
      pose proof (Z.mod_pos_bound u 10 ltac:(lia)) as Hm.
      split; [lia|].
      intros n acc Hn Hmax. cbn [itoa.formatBits].
      destruct (Z.ltb_spec u 10); [lia|].
      rewrite Hloop by nia.
      rewrite ParseUint_loop_step by nia.
      f_equal. nia.
Qed.

Lemma ParseUint_formatBits u : 0 <= u < 2 ^ 64 ->
  strconv.ParseUint (itoa.formatBits 20 u EmptyString) = strconv.UintOk u.
Proof.
  intros Hu.
  destruct (formatBits_head 19 u EmptyString) as (d & rest & _ & Hhead); [lia|].
  unfold strconv.ParseUint. rewrite Hhead, <- Hhead.
  destruct (ParseUint_loop_formatBits 20 u) as (p & _ & _ & Hloop).
  { change (10 ^ Z.of_nat 20) with 100000000000000000000. lia. }
  rewrite (Hloop 0 EmptyString) by (unfold strconv.maxUint64; lia).
  reflexivity.
Qed.

Lemma ParseInt_FormatInt i : - 2 ^ 63 <= i < 2 ^ 63 ->
  strconv.ParseInt (itoa.FormatInt i) = Ok i.
Proof.
  intros Hi. unfold itoa.FormatInt. cbv zeta.
  destruct (Z.ltb_spec i 0) as [Hneg|Hpos].
  - assert (Hu : itoa.uint64 (- itoa.uint64 i) = - i).
    { unfold itoa.uint64.
      replace i with ((i + 2 ^ 64) + (-1) * 2 ^ 64) at 1 by lia.
      rewrite Z.mod_add by lia. rewrite (Z.mod_small (i + 2 ^ 64)) by lia.
      replace (- (i + 2 ^ 64)) with ((- i) + (-1) * 2 ^ 64) by lia.
      rewrite Z.mod_add by lia. apply Z.mod_small. lia. }
    rewrite Hu. unfold strconv.ParseInt.
    change (Ascii.eqb "-" "+") with false. change (Ascii.eqb "-" "-") with true. cbv iota.
    rewrite ParseUint_formatBits by lia.
    change (negb true) with false. cbn [andb].
    destruct (Z.gtb_spec (- i) (2 ^ 63)); [lia|]. f_equal.
    destruct (Z.eq_dec i (- 2 ^ 63)) as [->|Hne]; [reflexivity|].
    rewrite (int64_small (- i)) by lia. rewrite Z.opp_involutive. apply int64_small. lia.
  - assert (Hu : itoa.uint64 i = i) by (apply Z.mod_small; lia).
    rewrite Hu.
    destruct (formatBits_head 19 i EmptyString) as (d & rest & Hd & Hhead); [lia|].
    unfold strconv.ParseInt. rewrite Hhead.
    destruct (digitByte_no_sign d Hd) as [-> ->]. rewrite <- Hhead.
    rewrite ParseUint_formatBits by lia.
    change (negb false) with true. cbn [andb].
    destruct (Z.geb_spec i (2 ^ 63)); [lia|]. f_equal. apply int64_small. lia.
Qed.

Section ReadBack.

Context `{Libraries}.

Lemma parseLines_written c (records : list (Z * string)) :
  Forall (fun record : Z * string =>
            - 2 ^ 63 <= record.1 < 2 ^ 63 /\
            exists f d, ParseFloat record.2 = Ok f /\ NewFromFloat f = Some d) records ->
  exists ps,
    custom.parseLines c ((fun record : Z * string => [itoa.FormatInt record.1; record.2]) <$> records)
      = Ok ps /\
    Forall2 (fun (record : Z * string) p =>
               custom.Price_Timestamp p = time.Unix record.1 0 /\
               custom.Price_Currency p = custom.currency c /\
               exists f, ParseFloat record.2 = Ok f /\
                         NewFromFloat f = Some (custom.Price_Price p)) records ps.
Proof.
  induction 1 as [|[t s] rest [Ht (f & d & Hf & Hd)] _ (ps & Hps & Hall)].
  - exists []. split; [reflexivity|constructor].
  - simpl in Ht, Hf.
    exists (custom.mkPrice (time.Unix t 0) d (custom.currency c) :: ps). split.
    + rewrite fmap_cons. cbn [custom.parseLines]. unfold custom.parseLine.
      cbn [length Nat.eqb negb nth fst snd].
      rewrite (ParseInt_FormatInt t Ht). simplR. rewrite Hf. simplR. rewrite Hd. simplR.
      rewrite Hps. reflexivity.
    + constructor; [|exact Hall]. simpl. repeat split. exists f. split; assumption.
Qed.

(** X12. The custom source reads back the timestamps that
    [strconv.FormatInt] wrote, as the package's test does: for a file
    whose records are a timestamp of type [int64] written in base 10 and a
    price that parses, [rawPriceData] returns one price per record, in
    the order of the file, at [time.Unix(timestamp, 0)], with the
    currency of the source and the price [decimal.NewFromFloat] makes. *)
Theorem rawPriceData_reads_back (c : custom.customPrices) (ctx : Context)
    (startTime endTime : time.Time) (records : list (Z * string)) :
  custom.getData c (custom.csvPath c) =
    Ok ((fun record : Z * string => [itoa.FormatInt record.1; record.2]) <$> records) ->
  Forall (fun record : Z * string =>
            - 2 ^ 63 <= record.1 < 2 ^ 63 /\
            exists f d, ParseFloat record.2 = Ok f /\ NewFromFloat f = Some d) records ->
  exists prices,
    custom.rawPriceData c ctx startTime endTime = Ok prices /\
    Forall2 (fun (record : Z * string) price =>
               exists p, price = Some p /\
                 custom.Price_Timestamp p = time.Unix record.1 0 /\
                 custom.Price_Currency p = custom.currency c /\
                 exists f, ParseFloat record.2 = Ok f /\
                           NewFromFloat f = Some (custom.Price_Price p)) records prices.
Proof.
  intros Hdata Hrecords.
  destruct (parseLines_written c records Hrecords) as (ps & Hps & Hall).
  exists (Some <$> ps). split.
  - rewrite rawPriceData_parseLines, Hdata. simplR. rewrite Hps. reflexivity.
  - apply Forall2_fmap_r. eapply Forall2_impl; [exact Hall|].
    intros record p (Ht & Hc & Hf). exists p. repeat split; assumption.
Qed.

End ReadBack.

(** ** The configuration *)

Lemma differ_true a b : faraday.differ a b = true <-> a <> b.
Proof. unfold faraday.differ. destruct (String.eqb_spec a b); simpl; split; congruence. Qed.

Lemma differ_false a b : faraday.differ a b = false <-> a = b.
Proof. unfold faraday.differ. destruct (String.eqb_spec a b); simpl; split; congruence. Qed.

Section ConfigurationFacts.

Import faraday.

Context `{System}.

Lemma ValidateConfig_lnd_keeps config :
  Config.FaradayDir (ValidateConfig_lnd config).2 = Config.FaradayDir config /\
  Config.TLSCertPath (ValidateConfig_lnd config).2 = Config.TLSCertPath config /\
  Config.TLSKeyPath (ValidateConfig_lnd config).2 = Config.TLSKeyPath config /\
  Config.MacaroonPath (ValidateConfig_lnd config).2 = Config.MacaroonPath config.
Proof.
  unfold ValidateConfig_lnd. destruct (Config.Lnd config) as [lnd|]; [|repeat split].
  repeat match goal with |- context [if ?b then _ else _] => destruct b end;
    repeat split.
Qed.

Lemma ValidateConfig_chain_keeps config :
  Config.FaradayDir (ValidateConfig_chain config).2 = Config.FaradayDir config /\
  Config.TLSCertPath (ValidateConfig_chain config).2 = Config.TLSCertPath config /\
  Config.TLSKeyPath (ValidateConfig_chain config).2 = Config.TLSKeyPath config /\
  Config.MacaroonPath (ValidateConfig_chain config).2 = Config.MacaroonPath config.
Proof.
  unfold ValidateConfig_chain.
  destruct (Config.ChainConn config); [|apply ValidateConfig_lnd_keeps].
  destruct (Config.Bitcoin config) as [bitcoin|]; [|repeat split].
  repeat match goal with |- context [if ?b then _ else _] => destruct b end;
    first [apply ValidateConfig_lnd_keeps | repeat split].
Qed.

Lemma ValidateConfig_paths_dir config :
  Config.FaradayDir (ValidateConfig_paths config).2 = Config.FaradayDir config.
Proof.
  unfold ValidateConfig_paths. cbv zeta.
  repeat match goal with |- context [if ?b then _ else _] => destruct b end;
    try reflexivity;
    rewrite (proj1 (ValidateConfig_chain_keeps _)); reflexivity.
Qed.

(** X13. What [ValidateConfig] leaves behind. When the network is not
    valid it returns the error of the validation and has touched neither
    the configuration nor the file system. In every other case, also when
    it returns an error, the directory of the configuration has been
    replaced by the cleaned directory with the network appended and
    [os.MkdirAll] has been called on it; an error of [os.MkdirAll] is
    returned as it is. *)
Theorem ValidateConfig_leaves_behind (config : Config.t) (fs : FS) :
  let dir :=
    filepath_Join [CleanAndExpandPath (Config.FaradayDir config); Config.Network config] in
  match ChainParams (Config.Network config) with
  | Some msg =>
      ValidateConfig config fs =
        (Return (Some (Errorf ("error validating network: " +:+ msg))), config, fs)
  | None =>
      Config.FaradayDir (ValidateConfig config fs).1.2 = dir /\
      (ValidateConfig config fs).2 = (MkdirAll fs dir).2 /\
      (forall err, (MkdirAll fs dir).1 = Some err ->
                   (ValidateConfig config fs).1.1 = Return (Some err))
  end.
Proof.
  cbv zeta. unfold ValidateConfig.
  destruct (ChainParams (Config.Network config)) as [msg|]; [reflexivity|].
  cbv zeta.
  change (Config.FaradayDir (ValidateConfig_clean config)) with
    (filepath_Join [CleanAndExpandPath (Config.FaradayDir config); Config.Network config]).
  destruct (MkdirAll fs _) as [[err|] fs'].
  - cbn [fst snd]. repeat split. intros err' [= <-]. reflexivity.
  - pose proof (ValidateConfig_paths_dir (ValidateConfig_clean config)) as Hdir.
    destruct (ValidateConfig_paths (ValidateConfig_clean config)) as [r config'].
    cbn [fst snd] in *. split; [exact Hdir|]. split; [reflexivity|]. intros err [=].
Qed.

Lemma ValidateConfig_accepted_dir config fs :
  ChainParams (Config.Network config) = None ->
  (MkdirAll fs (Config.FaradayDir (ValidateConfig_clean config))).1 = None ->
  ValidateConfig config fs =
    ((ValidateConfig_paths (ValidateConfig_clean config)).1,
     (ValidateConfig_paths (ValidateConfig_clean config)).2,
     (MkdirAll fs (Config.FaradayDir (ValidateConfig_clean config))).2).
Proof.
  intros Hnet Hdir. unfold ValidateConfig. rewrite Hnet. cbv zeta.
  destruct (MkdirAll fs _) as [[err|] fs']; [discriminate|].
  destruct (ValidateConfig_paths _). reflexivity.
Qed.

(** X14. The check that the directory overrides the three paths
    compares the directory after the network was appended to it. Whenever
    that directory differs from [FaradayDirBase], a certificate path, key
    path or macaroon path that is not the default one (once cleaned) is
    rejected, in this order, and an accepted configuration has all three
    files in the directory. *)
Theorem ValidateConfig_override_check (config : Config.t) (fs : FS) :
  let dir :=
    filepath_Join [CleanAndExpandPath (Config.FaradayDir config); Config.Network config] in
  ChainParams (Config.Network config) = None ->
  (MkdirAll fs dir).1 = None ->
  dir <> FaradayDirBase ->
  (CleanAndExpandPath (Config.TLSCertPath config) <> DefaultTLSCertPath ->
   (ValidateConfig config fs).1.1 =
     Return (Some (Errorf "faradaydir overwrites tlscertpath, please only set one value"))) /\
  (CleanAndExpandPath (Config.TLSCertPath config) = DefaultTLSCertPath ->
   CleanAndExpandPath (Config.TLSKeyPath config) <> DefaultTLSKeyPath ->
   (ValidateConfig config fs).1.1 =
     Return (Some (Errorf "faradaydir overwrites tlskeypath, please only set one value"))) /\
  (CleanAndExpandPath (Config.TLSCertPath config) = DefaultTLSCertPath ->
   CleanAndExpandPath (Config.TLSKeyPath config) = DefaultTLSKeyPath ->
   CleanAndExpandPath (Config.MacaroonPath config) <> DefaultMacaroonPath ->
   (ValidateConfig config fs).1.1 =
     Return (Some (Errorf "faradaydir overwrites macaroonpath, please only set one value"))) /\
  ((ValidateConfig config fs).1.1 = Return None ->
   Config.TLSCertPath (ValidateConfig config fs).1.2 =
     filepath_Join [dir; DefaultTLSCertFilename] /\
   Config.TLSKeyPath (ValidateConfig config fs).1.2 =
     filepath_Join [dir; DefaultTLSKeyFilename] /\
   Config.MacaroonPath (ValidateConfig config fs).1.2 =
     filepath_Join [dir; DefaultMacaroonFilename]).
Proof.
  cbv zeta. intros Hnet Hmk Hdir.
  rewrite (ValidateConfig_accepted_dir config fs Hnet Hmk). cbn [fst snd].
  assert (Hfd : Config.FaradayDir (ValidateConfig_clean config) =
                filepath_Join [CleanAndExpandPath (Config.FaradayDir config);
                               Config.Network config]) by reflexivity.
  assert (Hcert : Config.TLSCertPath (ValidateConfig_clean config) =
                  CleanAndExpandPath (Config.TLSCertPath config)) by reflexivity.
  assert (Hkey : Config.TLSKeyPath (ValidateConfig_clean config) =
                 CleanAndExpandPath (Config.TLSKeyPath config)) by reflexivity.
  assert (Hmac : Config.MacaroonPath (ValidateConfig_clean config) =
                 CleanAndExpandPath (Config.MacaroonPath config)) by reflexivity.
  destruct (ValidateConfig_clean config) as [lnd dir ? ? ? net ? cert key ? ? ? ? ? mac ? ? ? btc].
  cbn [Config.FaradayDir Config.TLSCertPath Config.TLSKeyPath Config.MacaroonPath] in *.
  rewrite <- Hfd, <- Hcert, <- Hkey, <- Hmac in *. clear Hfd Hcert Hkey Hmac.
  unfold ValidateConfig_paths. cbv zeta.
  cbn [Config.FaradayDir Config.TLSCertPath Config.TLSKeyPath Config.MacaroonPath].
  apply differ_true in Hdir. rewrite Hdir. cbn [andb].
  destruct (differ cert DefaultTLSCertPath) eqn:Ecert;
    [apply differ_true in Ecert | apply differ_false in Ecert].
  { cbn [fst]. repeat split; congruence. }
  destruct (differ key DefaultTLSKeyPath) eqn:Ekey;
    [apply differ_true in Ekey | apply differ_false in Ekey].
  { cbn [fst]. repeat split; congruence. }
  destruct (differ mac DefaultMacaroonPath) eqn:Emac;
    [apply differ_true in Emac | apply differ_false in Emac].
  { cbn [fst]. repeat split; congruence. }
  split; [congruence|]. split; [congruence|]. split; [congruence|].
  intros _. subst cert key mac.
  repeat (rewrite String.eqb_refl;
          cbn [Config.set_TLSCertPath Config.set_TLSKeyPath Config.set_MacaroonPath
               Config.TLSCertPath Config.TLSKeyPath Config.MacaroonPath Config.FaradayDir]).
  match goal with |- context [ValidateConfig_chain ?c] =>
    destruct (ValidateConfig_chain_keeps c) as (_ & -> & -> & ->) end.
  repeat split.
Qed.

(** X15. [ValidateConfig] accepts [DefaultConfig()], provided that the
    default network is valid, the directory can be made, cleaning leaves
    the three default paths as they are and the default macaroon path of
    lnd is not empty. It puts the three files into the directory of the
    default network and cleans the macaroon path of lnd. *)
Theorem ValidateConfig_DefaultConfig (fs : FS) :
  let dir := filepath_Join [CleanAndExpandPath FaradayDirBase; DefaultNetwork] in
  ChainParams DefaultNetwork = None ->
  (MkdirAll fs dir).1 = None ->
  CleanAndExpandPath DefaultTLSCertPath = DefaultTLSCertPath ->
  CleanAndExpandPath DefaultTLSKeyPath = DefaultTLSKeyPath ->
  CleanAndExpandPath DefaultMacaroonPath = DefaultMacaroonPath ->
  DefaultLndMacaroonPath <> EmptyString ->
  exists config',
    ValidateConfig DefaultConfig fs = (Return None, config', (MkdirAll fs dir).2) /\
    Config.FaradayDir config' = dir /\
    Config.TLSCertPath config' = filepath_Join [dir; DefaultTLSCertFilename] /\
    Config.TLSKeyPath config' = filepath_Join [dir; DefaultTLSKeyFilename] /\
    Config.MacaroonPath config' = filepath_Join [dir; DefaultMacaroonFilename] /\
    Config.Lnd config' =
      Some (LndConfig.mk defaultRPCHostPort EmptyString
              (CleanAndExpandPath DefaultLndMacaroonPath)
              (CleanAndExpandPath EmptyString) 0).
Proof.
  cbv zeta. intros Hnet Hmk Hcert Hkey Hmac Hlnd.
  rewrite (ValidateConfig_accepted_dir DefaultConfig fs Hnet Hmk).
  assert (E1 : differ DefaultLndMacaroonPath DefaultLndMacaroonPath = false)
    by (apply differ_false; reflexivity).
  assert (E2 : differ EmptyString EmptyString = false) by reflexivity.
  assert (E3 : differ DefaultLndMacaroonPath EmptyString = true)
    by (apply differ_true; exact Hlnd).
  assert (E4 : differ DefaultNetwork DefaultNetwork = false) by reflexivity.
  assert (E5 : differ DefaultTLSCertPath DefaultTLSCertPath = false)
    by (apply differ_false; reflexivity).
  assert (E6 : differ DefaultTLSKeyPath DefaultTLSKeyPath = false)
    by (apply differ_false; reflexivity).
  assert (E7 : differ DefaultMacaroonPath DefaultMacaroonPath = false)
    by (apply differ_false; reflexivity).
  assert (Hpaths :
    ValidateConfig_paths (ValidateConfig_clean DefaultConfig) =
    (Return None,
     Config.set_Lnd
       (Some (LndConfig.mk defaultRPCHostPort EmptyString
                (CleanAndExpandPath DefaultLndMacaroonPath)
                (CleanAndExpandPath EmptyString) 0))
       (Config.set_MacaroonPath
          (filepath_Join [filepath_Join [CleanAndExpandPath FaradayDirBase; DefaultNetwork];
                          DefaultMacaroonFilename])
          (Config.set_TLSKeyPath
             (filepath_Join [filepath_Join [CleanAndExpandPath FaradayDirBase; DefaultNetwork];
                             DefaultTLSKeyFilename])
             (Config.set_TLSCertPath
                (filepath_Join [filepath_Join [CleanAndExpandPath FaradayDirBase; DefaultNetwork];
                                DefaultTLSCertFilename])
                (ValidateConfig_clean DefaultConfig)))))).
  { unfold ValidateConfig_paths, ValidateConfig_clean, DefaultConfig. cbv zeta.
    cbn [Config.set_FaradayDir Config.set_TLSCertPath Config.set_TLSKeyPath
         Config.set_MacaroonPath Config.FaradayDir Config.TLSCertPath Config.TLSKeyPath
         Config.MacaroonPath Config.Network Config.Lnd Config.ChainConn Config.Bitcoin].
    rewrite Hcert, Hkey, Hmac, E5, E6, E7, !Bool.andb_false_r, !String.eqb_refl.
    cbn [Config.set_FaradayDir Config.set_TLSCertPath Config.set_TLSKeyPath
         Config.set_MacaroonPath Config.FaradayDir Config.TLSCertPath Config.TLSKeyPath
         Config.MacaroonPath Config.Network Config.Lnd Config.ChainConn Config.Bitcoin].
    unfold ValidateConfig_chain, defaultChainConn. cbn [Config.ChainConn].
    unfold ValidateConfig_lnd.
    cbn [Config.set_FaradayDir Config.set_TLSCertPath Config.set_TLSKeyPath
         Config.set_MacaroonPath Config.FaradayDir Config.TLSCertPath Config.TLSKeyPath
         Config.MacaroonPath Config.Network Config.Lnd Config.ChainConn Config.Bitcoin
         LndConfig.MacaroonPath LndConfig.MacaroonDir].
    rewrite E1, E2, E3, E4. cbn [andb]. reflexivity. }
  rewrite Hpaths. cbn [fst snd]. eexists. split; [reflexivity|].
  repeat split.
Qed.

(** X16. [ValidateConfig] returns nil exactly when the network is valid,
    the directory can be made, the three paths are the default ones if the
    directory differs from [FaradayDirBase], user and password (and the
    TLS path, if TLS is used) are given if a bitcoin backend is asked for,
    and lnd's macaroon is given either by its path alone or by its
    directory with the path left at its default. *)
Theorem ValidateConfig_accepts (config : Config.t) (fs : FS) :
  let dir :=
    filepath_Join [CleanAndExpandPath (Config.FaradayDir config); Config.Network config] in
  (ValidateConfig config fs).1.1 = Return None <->
  ChainParams (Config.Network config) = None /\
  (MkdirAll fs dir).1 = None /\
  (dir <> FaradayDirBase ->
   CleanAndExpandPath (Config.TLSCertPath config) = DefaultTLSCertPath /\
   CleanAndExpandPath (Config.TLSKeyPath config) = DefaultTLSKeyPath /\
   CleanAndExpandPath (Config.MacaroonPath config) = DefaultMacaroonPath) /\
  (Config.ChainConn config = true ->
   exists bitcoin, Config.Bitcoin config = Some bitcoin /\
     BitcoinConfig.User bitcoin <> EmptyString /\
     BitcoinConfig.Password bitcoin <> EmptyString /\
     (BitcoinConfig.UseTLS bitcoin = true -> BitcoinConfig.TLSPath bitcoin <> EmptyString)) /\
  exists lnd, Config.Lnd config = Some lnd /\
    (LndConfig.MacaroonDir lnd = EmptyString /\ LndConfig.MacaroonPath lnd <> EmptyString \/
     LndConfig.MacaroonDir lnd <> EmptyString /\
     LndConfig.MacaroonPath lnd = DefaultLndMacaroonPath).
Proof.
  cbv zeta. unfold ValidateConfig.
  destruct (ChainParams (Config.Network config)) as [msg|] eqn:Hnet.
  { cbn [fst]. split; [discriminate|]. intros [[=] _]. }
  cbv zeta.
  assert (Hfd : Config.FaradayDir (ValidateConfig_clean config) =
                filepath_Join [CleanAndExpandPath (Config.FaradayDir config);
                               Config.Network config]) by reflexivity.
  assert (Hcert : Config.TLSCertPath (ValidateConfig_clean config) =
                  CleanAndExpandPath (Config.TLSCertPath config)) by reflexivity.
  assert (Hkey : Config.TLSKeyPath (ValidateConfig_clean config) =
                 CleanAndExpandPath (Config.TLSKeyPath config)) by reflexivity.
  assert (Hmac : Config.MacaroonPath (ValidateConfig_clean config) =
                 CleanAndExpandPath (Config.MacaroonPath config)) by reflexivity.
  assert (Hcc : Config.ChainConn (ValidateConfig_clean config) = Config.ChainConn config)
    by reflexivity.
  assert (Hbtc : Config.Bitcoin (ValidateConfig_clean config) = Config.Bitcoin config)
    by reflexivity.
  assert (Hl : Config.Lnd (ValidateConfig_clean config) = Config.Lnd config)
    by reflexivity.
  destruct (ValidateConfig_clean config)
    as [lnd dir chainConn ? ? net ? cert key ? ? ? ? ? mac ? ? ? btc].
  cbn [Config.FaradayDir Config.TLSCertPath Config.TLSKeyPath Config.MacaroonPath
       Config.ChainConn Config.Bitcoin Config.Lnd] in *.
  rewrite <- Hfd, <- Hcert, <- Hkey, <- Hmac, <- Hcc, <- Hbtc, <- Hl.
  clear Hfd Hcert Hkey Hmac Hcc Hbtc Hl.
  destruct (MkdirAll fs dir) as [[err|] fs'] eqn:Hmk; cbn [fst snd].
  { split; [discriminate|]. intros (_ & [=] & _). }
  unfold ValidateConfig_paths. cbv zeta.
  cbn [Config.FaradayDir Config.TLSCertPath Config.TLSKeyPath Config.MacaroonPath].
  assert (Hpaths :
    forall c,
      ((let '(r, _) := ValidateConfig_chain c in r) = Return None <->
       (Config.ChainConn c = true ->
        exists bitcoin, Config.Bitcoin c = Some bitcoin /\
          BitcoinConfig.User bitcoin <> EmptyString /\
          BitcoinConfig.Password bitcoin <> EmptyString /\
          (BitcoinConfig.UseTLS bitcoin = true ->
           BitcoinConfig.TLSPath bitcoin <> EmptyString)) /\
       exists lnd, Config.Lnd c = Some lnd /\
         (LndConfig.MacaroonDir lnd = EmptyString /\ LndConfig.MacaroonPath lnd <> EmptyString \/
          LndConfig.MacaroonDir lnd <> EmptyString /\
          LndConfig.MacaroonPath lnd = DefaultLndMacaroonPath))).
  { intros c.
    assert (Hlnd : (let '(r, _) := ValidateConfig_lnd c in r) = Return None <->
              exists lnd, Config.Lnd c = Some lnd /\
                (LndConfig.MacaroonDir lnd = EmptyString /\
                 LndConfig.MacaroonPath lnd <> EmptyString \/
                 LndConfig.MacaroonDir lnd <> EmptyString /\
                 LndConfig.MacaroonPath lnd = DefaultLndMacaroonPath)).
    { unfold ValidateConfig_lnd. destruct (Config.Lnd c) as [l|].
      - destruct (differ (LndConfig.MacaroonPath l) DefaultLndMacaroonPath) eqn:E1;
          [apply differ_true in E1 | apply differ_false in E1];
        (destruct (differ (LndConfig.MacaroonDir l) EmptyString) eqn:E2;
          [apply differ_true in E2 | apply differ_false in E2]);
        (destruct (differ (LndConfig.MacaroonPath l) EmptyString) eqn:E3;
          [apply differ_true in E3 | apply differ_false in E3]);
        cbn [andb]; (split; [intros Hr; first [discriminate Hr | exists l; split; [reflexivity|tauto]]
                            | intros (l' & [= <-] & Hor); try reflexivity;
                              exfalso; tauto]).
      - split; [discriminate|]. intros (l & [=] & _). }
    unfold ValidateConfig_chain. destruct (Config.ChainConn c).
    - destruct (Config.Bitcoin c) as [b|].
      + destruct (String.eqb_spec (BitcoinConfig.User b) EmptyString) as [Eu|Eu]; cbn [orb].
        { split; [discriminate|]. intros [Hb _].
          destruct (Hb eq_refl) as (b' & [= <-] & Hu & _). contradiction. }
        destruct (String.eqb_spec (BitcoinConfig.Password b) EmptyString) as [Ep|Ep].
        { split; [discriminate|]. intros [Hb _].
          destruct (Hb eq_refl) as (b' & [= <-] & _ & Hp & _). contradiction. }
        destruct (BitcoinConfig.UseTLS b) eqn:Etls; cbn [andb].
        * destruct (String.eqb_spec (BitcoinConfig.TLSPath b) EmptyString) as [Et|Et].
          { split; [discriminate|]. intros [Hb _].
            destruct (Hb eq_refl) as (b' & [= <-] & _ & _ & Ht). rewrite Etls in Ht.
            exfalso. apply Ht; [reflexivity|exact Et]. }
          rewrite Hlnd. split; [intros Hx; split; [|exact Hx]|intros [_ Hx]; exact Hx].
          intros _. exists b. rewrite Etls.
          split; [reflexivity|]. split; [assumption|]. split; [assumption|].
          intros _. assumption.
        * rewrite Hlnd. split; [intros Hx; split; [|exact Hx]|intros [_ Hx]; exact Hx].
          intros _. exists b. rewrite Etls.
          split; [reflexivity|]. split; [assumption|]. split; [assumption|].
          discriminate.
      + split; [discriminate|]. intros [Hb _]. destruct (Hb eq_refl) as (b & [=] & _).
    - rewrite Hlnd. split; [intros Hx; split; [discriminate|exact Hx]|intros [_ Hx]; exact Hx]. }
  destruct (differ dir FaradayDirBase) eqn:Edir;
    [apply differ_true in Edir | apply differ_false in Edir]; cbn [andb].
  - destruct (differ cert DefaultTLSCertPath) eqn:Ecert;
      [apply differ_true in Ecert | apply differ_false in Ecert].
    { split; [discriminate|]. intros (_ & _ & Hp & _). destruct (Hp Edir) as (? & _). contradiction. }
    destruct (differ key DefaultTLSKeyPath) eqn:Ekey;
      [apply differ_true in Ekey | apply differ_false in Ekey].
    { split; [discriminate|]. intros (_ & _ & Hp & _). destruct (Hp Edir) as (_ & ? & _). contradiction. }
    destruct (differ mac DefaultMacaroonPath) eqn:Emac;
      [apply differ_true in Emac | apply differ_false in Emac].
    { split; [discriminate|]. intros (_ & _ & Hp & _). destruct (Hp Edir) as (_ & _ & ?). contradiction. }
    match goal with |- context [ValidateConfig_chain ?c] =>
      pose proof (Hpaths c) as Hc; destruct (ValidateConfig_chain c) as [r c'] end.
    cbn [fst]. rewrite Hc.
    repeat match goal with |- context [if ?b then _ else _] => destruct b end;
      cbn [Config.set_TLSCertPath Config.set_TLSKeyPath Config.set_MacaroonPath
           Config.ChainConn Config.Bitcoin Config.Lnd]; tauto.
  - match goal with |- context [ValidateConfig_chain ?c] =>
      pose proof (Hpaths c) as Hc; destruct (ValidateConfig_chain c) as [r c'] end.
    cbn [fst]. rewrite Hc.
    repeat match goal with |- context [if ?b then _ else _] => destruct b end;
      cbn [Config.set_TLSCertPath Config.set_TLSKeyPath Config.set_MacaroonPath
           Config.ChainConn Config.Bitcoin Config.Lnd]; tauto.
Qed.

End ConfigurationFacts.

(** * The statements on concrete inputs *)

Lemma ref_range_visits_each : RangeVisitsEach (H := refLibraries).
Proof. intros m. reflexivity. Qed.

Lemma series_ascending : ascending ref.series.
Proof. unfold ascending, ref.series. sorted_list. Qed.

Lemma series_strictly_ascending : strictly_ascending ref.series.
Proof. unfold strictly_ascending, ref.series. sorted_list. Qed.

Lemma GetPrice_greatest_not_after_witness :
  exists p, GetPrice ref.series (time.Unix 200 0) = Ok p /\
            Timestamp p = time.Unix 200 0.
Proof.
  destruct (GetPrice_greatest_not_after ref.series (time.Unix 200 0) _ _
              eq_refl series_ascending eq_refl)
    as (p & l1 & l2 & Hget & _ & _ & _ & Hin & _ & _ & _ & Hsame).
  exists p. split; [exact Hget|].
  rewrite (Hsame series_strictly_ascending
             (mkUSDPrice (time.Unix 200 0) (decimal.NewFromInt 20))
             ltac:(simpl; auto) eq_refl).
  reflexivity.
Defined.

(** The point lookup on the series of three points. *)
Example GetPrice_between_points :
  GetPrice ref.series (time.Unix 250 0) =
    Ok (mkUSDPrice (time.Unix 200 0) (decimal.NewFromInt 20)) /\
  GetPrice ref.series (time.Unix 300 0) =
    Ok (mkUSDPrice (time.Unix 300 0) (decimal.NewFromInt 30)) /\
  GetPrice ref.series (time.Unix 99 0) = Err errPriceOutOfRange.
Proof. repeat split. Qed.

Lemma memory_valid : valid ref.memory ref.middle.
Proof. vm_compute. repeat constructor. Qed.

Lemma GetPrices_sorts_caller_slice_witness :
  elements ref.memory ref.middle = [ref.day17; ref.day16] /\
  elements (heap (GetPrices (H := refLibraries) ref.background ref.middle
                    CoinDeskPriceBackend tt ref.memory [])) ref.middle
    = [ref.day16; ref.day17] /\
  backing (heap (GetPrices (H := refLibraries) ref.background ref.middle
                   CoinDeskPriceBackend tt ref.memory [])) ref.middle
    = [time.zero; ref.day16; ref.day17; time.Unix 7 0].
Proof.
  destruct (GetPrices_sorts_caller_slice (H := refLibraries) ref.background ref.middle
              CoinDeskPriceBackend tt ref.memory [] memory_valid)
    as (Hsorted & _).
  split; [reflexivity|]. split; [rewrite Hsorted; reflexivity|].
  vm_compute. reflexivity.
Defined.



(** C5 as stated fails: the second record has one field, but the read
    fails at the first record, whose timestamp is no number, with the
    error of [strconv.ParseInt]. *)
Lemma rawPriceData_earlier_error_wins :
  custom.getData ref.csvBadTimestamp (custom.csvPath ref.csvBadTimestamp) =
    Ok [["x"; "10.1"]; ["2000"]] /\
  length ["2000"] = 1%nat /\
  custom.rawPriceData (H := refLibraries) ref.csvBadTimestamp ref.background
    time.zero time.zero = Err (NumError "ParseInt" "x" ErrSyntax).
Proof. repeat split. Qed.

Lemma rawPriceData_malformed_record_witness :
  custom.rawPriceData (H := refLibraries) ref.csvShort ref.background
    time.zero time.zero = Err errIncorrectCSV.
Proof.
  apply (rawPriceData_malformed_record (H := refLibraries) ref.csvShort ref.background
           time.zero time.zero [["10000"; "10.1"]] [] ["2000"] eq_refl).
  - simpl. lia.
  - constructor; [|constructor]. eexists. vm_compute. reflexivity.
Defined.

(** The file of the package's own test. *)
Example rawPriceData_test_file :
  custom.rawPriceData (H := refLibraries) ref.csvGood ref.background time.zero time.zero =
  Ok [ Some (custom.mkPrice (time.Unix 10000 0) (decimal.mkDecimal 101 (-1)) "USD");
       Some (custom.mkPrice (time.Unix 2000 0) (decimal.mkDecimal 11 4) "USD") ] /\
  decimal.Equal (decimal.mkDecimal 11 4) (decimal.NewFromInt 110000) = true.
Proof. split; reflexivity. Qed.

Lemma coinDesk_query_backdated_witness :
  exists n : nat,
    (n <= maxRetries (Libraries := refLibraries))%nat /\
    snd (coinDeskAPI_GetPrices (H := refLibraries) ref.background ref.day16 ref.day17 []) =
    [] ++ replicate (S n)
           (coinDeskHistoryAPI +:+ "?start="
              +:+ Format (Libraries := refLibraries) coinDeskTimeFormat
                    (time.Add ref.day16 (time.Hour * -24))
              +:+ "&end=" +:+ Format (Libraries := refLibraries) coinDeskTimeFormat ref.day17) /\
    time.unixNano (time.Add ref.day16 (time.Hour * -24)) =
      time.unixNano ref.day16 - 86400 * 1000000000.
Proof.
  apply (coinDesk_query_backdated (H := refLibraries) ref.background ref.day16 ref.day17 []).
  reflexivity.
Defined.

(** A query for 2021-04-16 to 2021-04-17 asks for 2021-04-15 to
    2021-04-17. *)
Example coinDesk_query_two_days :
  snd (coinDeskAPI_GetPrices (H := refLibraries) ref.background ref.day16 ref.day17 []) =
  [ "https://api.coindesk.com/v1/bpi/historical/close.json?start=2021-04-15&end=2021-04-17"%string ].
Proof. vm_compute. reflexivity. Qed.

Lemma response_decoded : ref.Unmarshal ref.body = Ok ref.response.
Proof. vm_compute. reflexivity. Qed.

Lemma parseCoinDeskData_one_point_per_entry_witness :
  exists points,
    parseCoinDeskData (H := refLibraries) ref.body = Ok points /\
    length points = 2%nat.
Proof.
  destruct (parseCoinDeskData_one_point_per_entry (H := refLibraries)
              (H0 := ref_range_visits_each) ref.body ref.response
              response_decoded) as (points & Hparse & _ & _ & Hlen).
  - intros date price Hlookup. unfold ref.response in Hlookup. cbn [Data] in Hlookup.
    apply lookup_insert_Some in Hlookup as [[<- <-]|[_ Hlookup]].
    { split; eexists; vm_compute; reflexivity. }
    apply lookup_insert_Some in Hlookup as [[<- <-]|[_ Hlookup]].
    { split; eexists; vm_compute; reflexivity. }
    rewrite lookup_empty in Hlookup. discriminate.
  - exists points. split; [exact Hparse|]. rewrite Hlen. reflexivity.
Defined.

(** The example of the specification: the entries 2021-04-16 -> 10.1 and
    2021-04-17 -> 10000 give points at midnight UTC of those days with the
    prices 10.1 and 10000. *)
Example parseCoinDeskData_two_days :
  parseCoinDeskData (H := refLibraries) ref.body =
    Ok [ mkUSDPrice ref.day17 (decimal.mkDecimal 1 4);
         mkUSDPrice ref.day16 (decimal.mkDecimal 101 (-1)) ] /\
  ref.Parse coinDeskTimeFormat "2021-04-16" = Ok ref.day16 /\
  ref.Parse coinDeskTimeFormat "2021-04-17" = Ok ref.day17 /\
  (decimal.toQ (decimal.mkDecimal 101 (-1)) == 101 # 10)%Q /\
  (decimal.toQ (decimal.mkDecimal 1 4) == 10000 # 1)%Q.
Proof. repeat split; vm_compute; reflexivity. Qed.

(** ** The further properties on concrete inputs *)

Lemma GetPrice_stops_at_first_later_witness :
  GetPrice [ mkUSDPrice (time.Unix 100 0) (decimal.NewFromInt 10);
             mkUSDPrice (time.Unix 300 0) (decimal.NewFromInt 30);
             mkUSDPrice (time.Unix 200 0) (decimal.NewFromInt 20) ]
           (time.Unix 250 0)
  = Ok (mkUSDPrice (time.Unix 100 0) (decimal.NewFromInt 10)).
Proof.
  apply (GetPrice_stops_at_first_later []
           [ mkUSDPrice (time.Unix 300 0) (decimal.NewFromInt 30);
             mkUSDPrice (time.Unix 200 0) (decimal.NewFromInt 20) ]
           (mkUSDPrice (time.Unix 100 0) (decimal.NewFromInt 10)) (time.Unix 250 0)).
  - repeat constructor.
  - reflexivity.
Defined.

Lemma GetPrice_monotone_witness :
  exists p2, GetPrice ref.series (time.Unix 250 0) = Ok p2 /\
             at_ns (mkUSDPrice (time.Unix 100 0) (decimal.NewFromInt 10)) <= at_ns p2 /\
             at_ns p2 <= time.unixNano (time.Unix 250 0).
Proof.
  apply (GetPrice_monotone ref.series (time.Unix 150 0) (time.Unix 250 0)
           (mkUSDPrice (time.Unix 100 0) (decimal.NewFromInt 10)) series_ascending).
  - apply Z.leb_le. vm_compute. reflexivity.
  - reflexivity.
Defined.

Lemma MsatToUSD_additive_witness :
  exists ua ub uab : decimal.Decimal,
    MsatToUSD (decimal.mkDecimal 43251123456 (-6)) 1000 = Some ua /\
    MsatToUSD (decimal.mkDecimal 43251123456 (-6)) 2000 = Some ub /\
    MsatToUSD (decimal.mkDecimal 43251123456 (-6)) (1000 + 2000) = Some uab /\
    decimal.Add ua ub = uab /\
    (decimal.toQ uab == decimal.toQ ua + decimal.toQ ub)%Q.
Proof.
  apply (MsatToUSD_additive (decimal.mkDecimal 43251123456 (-6)) 1000 2000).
  - unfold decimal.wf, decimal.MinInt32, decimal.MaxInt32. simpl. lia.
  - unfold decimal.MaxInt32. simpl. lia.
  - lia.
  - lia.
  - lia.
Defined.

Lemma MsatToUSD_wraps_large_amounts_witness :
  exists pricePerMSat usd : decimal.Decimal,
    decimal.Div (decimal.NewFromInt 20000) (decimal.NewFromInt 100000000000) = Some pricePerMSat /\
    MsatToUSD (decimal.NewFromInt 20000) (2 ^ 64 - 1) = Some usd /\
    (decimal.toQ usd == decimal.toQ pricePerMSat * inject_Z (2 ^ 64 - 1 - 2 ^ 64))%Q /\
    (0 < decimal.toQ pricePerMSat -> decimal.toQ usd < 0)%Q.
Proof.
  apply (MsatToUSD_wraps_large_amounts (decimal.NewFromInt 20000) (2 ^ 64 - 1)).
  - unfold decimal.wf, decimal.MinInt32, decimal.MaxInt32. simpl. lia.
  - unfold decimal.MaxInt32. simpl. lia.
  - lia.
Defined.

Lemma GetPrices_two_days :
  returned (GetPrices (H := refLibraries) ref.background ref.middle
              CoinDeskPriceBackend tt ref.memory []) = Ok twoDays.
Proof. vm_compute. reflexivity. Qed.

Lemma GetPrices_map_of_timestamps_witness :
  dom twoDays = list_to_set (elements ref.memory ref.middle) /\
  (size twoDays <= len ref.middle)%nat.
Proof.
  destruct (GetPrices_map_of_timestamps (H := refLibraries) ref.background ref.middle
              CoinDeskPriceBackend tt ref.memory [] twoDays memory_valid GetPrices_two_days)
    as (Hdom & Hsize & _).
  split; assumption.
Defined.

Lemma fetch_two_days :
  GetPrices_fetch (H := refLibraries) ref.background
    (sort.SliceStable time.Before (elements ref.memory ref.middle))
    CoinDeskPriceBackend tt [] =
  (Ok [ mkUSDPrice ref.day16 (decimal.mkDecimal 101 (-1));
        mkUSDPrice ref.day17 (decimal.mkDecimal 1 4) ],
   [ "https://api.coindesk.com/v1/bpi/historical/close.json?start=2021-04-15&end=2021-04-17"%string ]).
Proof. vm_compute. reflexivity. Qed.

Lemma GetPrices_all_or_nothing_witness :
  exists m, returned (GetPrices (H := refLibraries) ref.background ref.middle
                        CoinDeskPriceBackend tt ref.memory []) = Ok m.
Proof.
  destruct (GetPrices_all_or_nothing (H := refLibraries) ref.background ref.middle
              CoinDeskPriceBackend tt ref.memory [] _ _ memory_valid
              ltac:(discriminate) fetch_two_days) as (_ & _ & Hm).
  exact Hm.
Defined.

Lemma GetPrices_unknown_backend_witness :
  returned (GetPrices (H := refLibraries) ref.background ref.middle 7 tt ref.memory [])
    = Err errUnknownPriceBackend /\
  world (GetPrices (H := refLibraries) ref.background ref.middle 7 tt ref.memory []) = [] /\
  elements (heap (GetPrices (H := refLibraries) ref.background ref.middle 7 tt ref.memory []))
    ref.middle = [ref.day16; ref.day17].
Proof.
  destruct (GetPrices_unknown_backend (H := refLibraries) ref.background ref.middle 7 tt
              ref.memory [] memory_valid ltac:(discriminate) ltac:(discriminate)
              ltac:(discriminate)) as (Hret & Hworld & Hheap).
  split; [exact Hret|]. split; [exact Hworld|]. rewrite Hheap. reflexivity.
Defined.

Lemma GetPrices_asks_for_spanned_range_witness :
  exists earliest latest : time.Time,
    earliest ∈ elements ref.memory ref.middle /\
    latest ∈ elements ref.memory ref.middle /\
    (forall ts, ts ∈ elements ref.memory ref.middle ->
       time.unixNano earliest <= time.unixNano ts <= time.unixNano latest) /\
    world (GetPrices (H := refLibraries) ref.background ref.middle
             CoinDeskPriceBackend tt ref.memory []) =
      (PriceAPIBackend_GetPrices (H := refLibraries) coinDeskAPI ref.background
         earliest latest []).2 /\
    (forall e, (PriceAPIBackend_GetPrices (H := refLibraries) coinDeskAPI ref.background
                  earliest latest []).1 = Err e ->
       returned (GetPrices (H := refLibraries) ref.background ref.middle
                   CoinDeskPriceBackend tt ref.memory []) = Err e).
Proof.
  apply (GetPrices_asks_for_spanned_range (H := refLibraries) ref.background ref.middle
           CoinDeskPriceBackend tt ref.memory [] coinDeskAPI memory_valid).
  - discriminate.
  - reflexivity.
Defined.

Lemma MsatToUSD_error_bound_witness :
  exists usd : decimal.Decimal,
    MsatToUSD (decimal.mkDecimal 43251123456 (-6)) 100000000000 = Some usd /\
    decimal.exp usd = -16 /\
    (Qabs (decimal.toQ usd
           - decimal.toQ (decimal.mkDecimal 43251123456 (-6)) / inject_Z (10 ^ 11)
             * inject_Z 100000000000)
       <= inject_Z 100000000000 * (1 # (2 * 10 ^ 16)))%Q.
Proof.
  apply (MsatToUSD_error_bound (decimal.mkDecimal 43251123456 (-6)) 100000000000).
  - unfold decimal.wf, decimal.MinInt32, decimal.MaxInt32. simpl. lia.
  - unfold decimal.MaxInt32. simpl. lia.
  - lia.
Defined.

Lemma parseCoinDeskData_all_or_nothing_witness :
  exists resp : coinDeskResponse (float64 (Libraries := refLibraries)),
    Unmarshal (Libraries := refLibraries) ref.body = Ok resp /\
    size (Data resp) = 2%nat.
Proof.
  destruct (parseCoinDeskData_all_or_nothing (H := refLibraries)
              (H0 := ref_range_visits_each) ref.body
              [ mkUSDPrice ref.day17 (decimal.mkDecimal 1 4);
                mkUSDPrice ref.day16 (decimal.mkDecimal 101 (-1)) ]
              ltac:(vm_compute; reflexivity)) as (resp & Hjson & Hsize & _).
  exists resp. split; [exact Hjson|]. rewrite <- Hsize. reflexivity.
Defined.

Lemma badResponse_decoded : ref.Unmarshal badBody = Ok badResponse.
Proof. vm_compute. reflexivity. Qed.

Lemma parseCoinDeskData_bad_date_witness :
  exists date' price' e',
    Data badResponse !! date' = Some price' /\
    Parse (Libraries := refLibraries) coinDeskTimeFormat date' = Err e' /\
    parseCoinDeskData (H := refLibraries) badBody = Err e'.
Proof.
  apply (parseCoinDeskData_bad_date (H := refLibraries) (H0 := ref_range_visits_each)
           badBody badResponse "2021-04-31" (decimal.mkDecimal 1 4)
           (ParseError coinDeskTimeFormat "2021-04-31") badResponse_decoded).
  - intros date price _. split; [|discriminate].
    unfold Parse, refLibraries, ref.Parse.
    repeat match goal with
           | |- context [let '(_, _) := ?x in _] => destruct x as [[? ?] ?]
           | |- context [match ?x with _ => _ end] => destruct x
           end; discriminate.
  - reflexivity.
  - vm_compute. reflexivity.
Defined.

Lemma rawPriceData_reads_back_witness :
  exists prices,
    custom.rawPriceData (H := refLibraries) ref.csvGood ref.background time.zero time.zero
      = Ok prices /\
    Forall2 (fun (record : Z * string) price =>
               exists p, price = Some p /\
                 custom.Price_Timestamp p = time.Unix record.1 0 /\
                 custom.Price_Currency p = "USD"%string /\
                 exists f, ParseFloat (Libraries := refLibraries) record.2 = Ok f /\
                           NewFromFloat (Libraries := refLibraries) f
                             = Some (custom.Price_Price p))
            [(10000, "10.1"%string); (2000, "110000"%string)] prices.
Proof.
  apply (rawPriceData_reads_back (H := refLibraries) ref.csvGood ref.background
           time.zero time.zero [(10000, "10.1"%string); (2000, "110000"%string)]).
  - reflexivity.
  - repeat constructor; try (simpl; lia); do 2 eexists; split; vm_compute; reflexivity.
Defined.

Lemma ValidateConfig_override_check_witness :
  faraday.Config.FaradayDir customCert = faraday.FaradayDirBase (H := faraday.refSystem) /\
  (faraday.ValidateConfig (H := faraday.refSystem) customCert []).1.1 =
    faraday.Return (Some (faraday.Errorf
      "faradaydir overwrites tlscertpath, please only set one value")).
Proof.
  split; [reflexivity|].
  apply (ValidateConfig_override_check (H := faraday.refSystem) customCert []).
  - reflexivity.
  - reflexivity.
  - vm_compute. discriminate.
  - vm_compute. discriminate.
Defined.

Lemma ValidateConfig_DefaultConfig_witness :
  exists config',
    faraday.ValidateConfig (H := faraday.refSystem)
      (faraday.DefaultConfig (H := faraday.refSystem)) [] =
      (faraday.Return None, config', ["/home/satoshi/.faraday/mainnet"%string]) /\
    faraday.Config.TLSCertPath config' = "/home/satoshi/.faraday/mainnet/tls.cert"%string /\
    faraday.Config.TLSKeyPath config' = "/home/satoshi/.faraday/mainnet/tls.key"%string /\
    faraday.Config.MacaroonPath config' =
      "/home/satoshi/.faraday/mainnet/faraday.macaroon"%string.
Proof.
  destruct (ValidateConfig_DefaultConfig (H := faraday.refSystem) [])
    as (config' & Hrun & _ & Hcert & Hkey & Hmac & _);
    try reflexivity; [vm_compute; discriminate|].
  exists config'. split; [exact Hrun|]. rewrite Hcert, Hkey, Hmac. repeat split.
Defined.

Lemma GetPrices_coinDesk_latest_not_after_witness :
  exists priceData w',
    GetPrices_fetch (H := refLibraries) ref.background
      (sort.SliceStable time.Before (elements ref.memory ref.middle))
      CoinDeskPriceBackend tt [] = (Ok priceData, w') /\
    ascending priceData /\
    In (mkUSDPrice ref.day17 (decimal.mkDecimal 1 4)) priceData /\
    at_ns (mkUSDPrice ref.day17 (decimal.mkDecimal 1 4)) <= time.unixNano ref.day17 /\
    (forall q, In q priceData -> at_ns q <= time.unixNano ref.day17 ->
               at_ns q <= at_ns (mkUSDPrice ref.day17 (decimal.mkDecimal 1 4))).
Proof.
  apply (GetPrices_coinDesk_latest_not_after (H := refLibraries) ref.background ref.middle
           tt ref.memory []
           twoDays
           ref.day17 (mkUSDPrice ref.day17 (decimal.mkDecimal 1 4)) memory_valid).
  - exact GetPrices_two_days.
  - vm_compute. reflexivity.
Defined.
